(** * sciconet: the training loop of [sciconet/model.py]

    A shallow embedding of [Model], [TrainState] and [LossHistory] and the
    properties of the training harness that follow from the code.

    Python objects are records; a method that mutates [self] is a function
    from the old record to the new one.  Methods of [Model] run in a small
    state-and-exception monad whose state survives a raised exception, as
    the attributes of a Python object do.  TensorFlow, NumPy, the data
    provider and the metric registry are not part of [model.py]: they are
    the fields of the class [Collab], and every property holds for all of
    them.  Callbacks are arguments of [train]. *)

From Stdlib Require Import ZArith List String Bool Lia.
From Stdlib Require Import Floats.SpecFloat.
Import ListNotations.
Local Open Scope string_scope.
Local Open Scope list_scope.
Local Open Scope Z_scope.

(** ** Python values shared by the three classes *)

(** Exceptions that [model.py] itself can raise, and the ones that come out
    of a collaborator. *)
Inductive exn : Type :=
| KeyError (key : string)
| TypeError
| AttributeError
| IndexError
| ZeroDivisionError
| External (what : string).

Inductive Result (A : Type) : Type :=
| Ok (a : A)
| Raise (e : exn).
Arguments Ok {A} a.
Arguments Raise {A} e.

Definition is_ok {A} (r : Result A) : bool :=
match r with Ok _ => true | Raise _ => false end.

(** An array-like value: one array, or a Python list of arrays (the targets
    and outputs of a network with several outputs). *)
Inductive value (A : Type) : Type :=
| Arr (a : A)
| PyList (l : list A).
Arguments Arr {A} a.
Arguments PyList {A} l.

(** Python floats are IEEE 754 numbers; comparisons on them are exact, so
    they are modelled on [spec_float].  [np.inf]: *)
Definition np_inf : spec_float := S754_infinity false.

Definition is_nan (x : spec_float) : bool :=
match x with S754_nan => true | _ => false end.

(** A session handle: sessions are numbered in the order they are created. *)
Definition Session := nat.

(** ** class TrainState *)
Module TrainState.

Record t {A : Type} : Type := mk {
  epoch : Z;
  step : Z;
  sess : option Session;
  (* Data *)
  X_train : option A;
  y_train : option (value A);
  X_test : option A;
  y_test : option (value A);
  (* Results of current step *)
  y_pred_train : option (value A);
  loss_train : option A;
  loss_test : option A;
  y_pred_test : option (value A);
  y_std_test : option (value A);
  metrics_test : option (list spec_float);
  (* The best results correspond to the min train loss *)
  best_loss_train : spec_float;
  best_loss_test : option spec_float;
  best_y : option (value A);
  best_ystd : option (value A);
  best_metrics : option (list spec_float)
}.
Arguments t A : clear implicits.
Arguments mk {A}.

Section Methods.
Context {A : Type}.
Variable np_sum : A -> spec_float.

(** [TrainState.__init__] *)
Definition init : t A :=
  {| epoch := 0; step := 0;
     sess := None;
     X_train := None; y_train := None;
     X_test := None; y_test := None;
     y_pred_train := None;
     loss_train := None; loss_test := None;
     y_pred_test := None; y_std_test := None;
     metrics_test := None;
     best_loss_train := np_inf; best_loss_test := Some np_inf;
     best_y := None; best_ystd := None;
     best_metrics := None |}.

Definition update_tfsession (s : Session) (ts : t A) : t A :=
  mk (epoch ts) (step ts) (Some s)
     (X_train ts) (y_train ts) (X_test ts) (y_test ts)
     (y_pred_train ts) (loss_train ts) (loss_test ts)
     (y_pred_test ts) (y_std_test ts) (metrics_test ts)
     (best_loss_train ts) (best_loss_test ts)
     (best_y ts) (best_ystd ts) (best_metrics ts).

Definition update_data_train (X : A) (y : value A) (ts : t A) : t A :=
  mk (epoch ts) (step ts) (sess ts)
     (Some X) (Some y) (X_test ts) (y_test ts)
     (y_pred_train ts) (loss_train ts) (loss_test ts)
     (y_pred_test ts) (y_std_test ts) (metrics_test ts)
     (best_loss_train ts) (best_loss_test ts)
     (best_y ts) (best_ystd ts) (best_metrics ts).

Definition update_data_test (X : A) (y : value A) (ts : t A) : t A :=
  mk (epoch ts) (step ts) (sess ts)
     (X_train ts) (y_train ts) (Some X) (Some y)
     (y_pred_train ts) (loss_train ts) (loss_test ts)
     (y_pred_test ts) (y_std_test ts) (metrics_test ts)
     (best_loss_train ts) (best_loss_test ts)
     (best_y ts) (best_ystd ts) (best_metrics ts).

(** [self.epoch += 1; self.step += 1] (done by [Model.train_sgd]). *)
Definition tick (ts : t A) : t A :=
  mk (epoch ts + 1) (step ts + 1) (sess ts)
     (X_train ts) (y_train ts) (X_test ts) (y_test ts)
     (y_pred_train ts) (loss_train ts) (loss_test ts)
     (y_pred_test ts) (y_std_test ts) (metrics_test ts)
     (best_loss_train ts) (best_loss_test ts)
     (best_y ts) (best_ystd ts) (best_metrics ts).

(** The assignments of [Model.test] to the results of the current step. *)
Definition set_train_results (l : A) (y : value A) (ts : t A) : t A :=
  mk (epoch ts) (step ts) (sess ts)
     (X_train ts) (y_train ts) (X_test ts) (y_test ts)
     (Some y) (Some l) (loss_test ts)
     (y_pred_test ts) (y_std_test ts) (metrics_test ts)
     (best_loss_train ts) (best_loss_test ts)
     (best_y ts) (best_ystd ts) (best_metrics ts).

Definition set_test_results (l : A) (y : value A) (ts : t A) : t A :=
  mk (epoch ts) (step ts) (sess ts)
     (X_train ts) (y_train ts) (X_test ts) (y_test ts)
     (y_pred_train ts) (loss_train ts) (Some l)
     (Some y) (y_std_test ts) (metrics_test ts)
     (best_loss_train ts) (best_loss_test ts)
     (best_y ts) (best_ystd ts) (best_metrics ts).

Definition set_y_std_test (y : value A) (ts : t A) : t A :=
  mk (epoch ts) (step ts) (sess ts)
     (X_train ts) (y_train ts) (X_test ts) (y_test ts)
     (y_pred_train ts) (loss_train ts) (loss_test ts)
     (y_pred_test ts) (Some y) (metrics_test ts)
     (best_loss_train ts) (best_loss_test ts)
     (best_y ts) (best_ystd ts) (best_metrics ts).

Definition set_metrics_test (ms : list spec_float) (ts : t A) : t A :=
  mk (epoch ts) (step ts) (sess ts)
     (X_train ts) (y_train ts) (X_test ts) (y_test ts)
     (y_pred_train ts) (loss_train ts) (loss_test ts)
     (y_pred_test ts) (y_std_test ts) (Some ms)
     (best_loss_train ts) (best_loss_test ts)
     (best_y ts) (best_ystd ts) (best_metrics ts).

(** The four assignments under the [if] of [update_best]. *)
Definition set_best (s : spec_float) (ts : t A) : t A :=
  mk (epoch ts) (step ts) (sess ts)
     (X_train ts) (y_train ts) (X_test ts) (y_test ts)
     (y_pred_train ts) (loss_train ts) (loss_test ts)
     (y_pred_test ts) (y_std_test ts) (metrics_test ts)
     s (option_map np_sum (loss_test ts))
     (y_pred_test ts) (y_std_test ts) (metrics_test ts).

(** [update_best]: [if self.best_loss_train > np.sum(self.loss_train): ...].
    With [loss_train] still [None] the comparison of a float with [None]
    raises [TypeError]; [np.sum(None)] itself is [None]. *)
Definition update_best (ts : t A) : Result (t A) :=
  match loss_train ts with
  | None => Raise TypeError
  | Some l =>
      if SFltb (np_sum l) (best_loss_train ts)
      then Ok (set_best (np_sum l) ts)
      else Ok ts
  end.

(** The five [best_*] fields, in the order of the source. *)
Definition best (ts : t A) :=
  (best_loss_train ts, best_loss_test ts, best_y ts, best_ystd ts,
   best_metrics ts).

End Methods.
End TrainState.

(** ** class LossHistory *)
Module LossHistory.

(** [self.loss_weights = 1] until [update_loss_weights] is called. *)
Inductive weights (A : Type) : Type :=
| One
| Weights (w : A).
Arguments One {A}.
Arguments Weights {A} w.

Record t {A : Type} : Type := mk {
  steps : list Z;
  loss_train : list (option A);
  loss_test : list (option A);
  metrics_test : list (option (list spec_float));
  loss_weights : weights A
}.
Arguments t A : clear implicits.
Arguments mk {A}.

Section Methods.
Context {A : Type}.

(** [LossHistory.__init__] *)
Definition init : t A :=
  {| steps := []; loss_train := []; loss_test := []; metrics_test := [];
     loss_weights := One |}.

Definition update_loss_weights (w : A) (h : t A) : t A :=
  mk (steps h) (loss_train h) (loss_test h) (metrics_test h) (Weights w).

(** [add]: four [append]s. *)
Definition add (step : Z) (l_train l_test : option A)
    (m_test : option (list spec_float)) (h : t A) : t A :=
  mk (steps h ++ [step])
     (loss_train h ++ [l_train])
     (loss_test h ++ [l_test])
     (metrics_test h ++ [m_test])
     (loss_weights h).

(** The methods that assign to an attribute of a [LossHistory]; [savetxt]
    and [plot] only read the four lists. *)
Inductive call : Type :=
| CallUpdateLossWeights (w : A)
| CallAdd (step : Z) (l_train l_test : option A)
    (m_test : option (list spec_float)).

Definition run_call (h : t A) (c : call) : t A :=
  match c with
  | CallUpdateLossWeights w => update_loss_weights w h
  | CallAdd s lt lte m => add s lt lte m h
  end.

Definition run_calls (cs : list call) (h : t A) : t A :=
  fold_left run_call cs h.

Definition is_add (c : call) : bool :=
  match c with CallAdd _ _ _ _ => true | _ => false end.

End Methods.
End LossHistory.

(** ** The objects [compile] builds

    TensorFlow graph nodes are kept as terms: what [compile] stores in
    [self.losses], [self.totalloss] and [self.train_op] is the expression
    that the calls of the source build. *)

(** [decay]: the tuple [(kind, decay[1], decay[2])]. *)
Record Decay : Type := mkDecay {
  decay_kind : string;
  decay_steps : Z;
  decay_rate : spec_float
}.

Inductive LearningRate : Type :=
| ConstantRate (lr : spec_float)
| InverseTimeDecay (lr : spec_float) (decay_steps : Z) (decay_rate : spec_float)
| CosineDecay (lr : spec_float) (decay_steps : Z) (alpha : spec_float).

Inductive Optimizer : Type :=
| GradientDescentOptimizer (lr : LearningRate)
| MomentumOptimizer (lr : LearningRate) (momentum : spec_float)
    (use_nesterov : bool)
| AdagradOptimizer (lr : spec_float)
| AdadeltaOptimizer
| RMSPropOptimizer (lr : LearningRate)
| AdamOptimizer (lr : LearningRate).

(** One component of [self.losses]: a tensor of the data provider, or
    [tf.losses.get_regularization_loss()]. *)
Inductive LossTerm (T : Type) : Type :=
| DataLoss (t : T)
| RegularizationLoss.
Arguments DataLoss {T} t.
Arguments RegularizationLoss {T}.

(** [self.losses]: the stacked components, scaled by [loss_weights] when
    they are given. *)
Record Losses {T A : Type} : Type := mkLosses {
  terms : list (LossTerm T);
  scaled_by : option A
}.
Arguments Losses T A : clear implicits.
Arguments mkLosses {T A}.

(** [self.totalloss = tf.reduce_sum(self.losses)] *)
Inductive TotalLoss (T A : Type) : Type :=
| ReduceSum (l : Losses T A).
Arguments ReduceSum {T A} l.

Inductive TrainOp (T A : Type) : Type :=
| ScipyOptimizerInterface (loss : TotalLoss T A) (method : string)
| Minimize (opt : Optimizer) (loss : TotalLoss T A) (global_step : bool).
Arguments ScipyOptimizerInterface {T A} loss method.
Arguments Minimize {T A} opt loss global_step.

(** [net.targets] is one placeholder or a list of [k] placeholders. *)
Inductive Targets : Type :=
| SingleTarget
| MultiTarget (k : nat).

Record Net : Type := mkNet {
  targets : Targets;
  regularizer : bool   (* [self.net.regularizer is not None] *)
}.

(** What [get_feed_dict] binds to the target placeholder(s). *)
Inductive FeedTargets (A : Type) : Type :=
| FeedSingle (v : option (value A))
| FeedZip (k : nat) (v : value A).
Arguments FeedSingle {A} v.
Arguments FeedZip {A} k v.

Record FeedDict {A : Type} : Type := mkFeed {
  fd_training : bool;
  fd_dropout : bool;
  fd_data_id : Z;
  fd_inputs : option A;
  fd_targets : FeedTargets A
}.
Arguments FeedDict A : clear implicits.
Arguments mkFeed {A}.

(** A metric is a function of [(y_true, y_pred)]. *)
Definition metric_fn (A : Type) : Type := value A -> value A -> spec_float.

(** An element of the [metrics] argument of [compile]: a name of the
    registry or a callable. *)
Inductive metric_id (A : Type) : Type :=
| MetricName (name : string)
| MetricCallable (f : metric_fn A).
Arguments MetricName {A} name.
Arguments MetricCallable {A} f.

(** A callback: six hooks, each called with the train state.  A hook may
    change the train state it is given and the world outside the model, and
    it may raise. *)
Definition hook (A E : Type) : Type :=
  TrainState.t A -> E -> Result unit * (TrainState.t A * E).

Record Callback {A E : Type} : Type := mkCallback {
  on_train_begin : hook A E;
  on_epoch_begin : hook A E;
  on_batch_begin : hook A E;
  on_batch_end : hook A E;
  on_epoch_end : hook A E;
  on_train_end : hook A E
}.
Arguments Callback A E : clear implicits.

(** ** The collaborators of [model.py]

    NumPy, the data provider ([self.data]), TensorFlow sessions and the
    metric registry.  [Ext] is everything outside the [Model] object that a
    call may read or change: the variables of the graph, the random
    generators of the data provider and of dropout, files.  A call returns
    its result or an exception, and the new outside world. *)
Class Collab : Type := {
  ndarray : Type;
  Tensor : Type;
  Ext : Type;
  (* NumPy *)
  np_sum : ndarray -> spec_float;
  np_mean : list (value ndarray) -> ndarray;
  np_std : list (value ndarray) -> ndarray;
  np_getitem : ndarray -> nat -> option ndarray;
  (* self.data *)
  data_losses : string -> Ext -> Result (list Tensor) * Ext;
  data_train_next_batch :
    option Z -> Ext -> Result (ndarray * value ndarray) * Ext;
  data_test : option Z -> Ext -> Result (ndarray * value ndarray) * Ext;
  (* tf.Session(config=tfconfig), sess.run, train_op.minimize *)
  tf_Session : Ext -> Result unit * Ext;
  run_global_variables_initializer : Session -> Ext -> Result unit * Ext;
  run_train_op :
    Session -> option (TrainOp Tensor ndarray) -> FeedDict ndarray ->
    Ext -> Result unit * Ext;
  run_losses_outputs :
    Session -> option (Losses Tensor ndarray) -> FeedDict ndarray ->
    Ext -> Result (ndarray * value ndarray) * Ext;
  scipy_minimize :
    TrainOp Tensor ndarray -> option Session -> FeedDict ndarray ->
    Ext -> Result unit * Ext;
  run_trainable_variables : Session -> Ext -> Result unit * Ext;
  (* the table of metrics.get *)
  metrics_table : list (string * metric_fn ndarray)
}.

(** ** Python helpers *)

(** [d[key]] on a dict literal. *)
Fixpoint dict_get {V : Type} (d : list (string * V)) (key : string)
    : Result V :=
  match d with
  | [] => Raise (KeyError key)
  | (k, v) :: d' => if String.eqb k key then Ok v else dict_get d' key
  end.

(** [x in l] for a list of strings. *)
Definition str_in (x : string) (l : list string) : bool :=
  existsb (String.eqb x) l.

(** [range(n)] *)
Definition range (n : Z) : list Z := map Z.of_nat (seq 0 (Z.to_nat n)).

(** [a % b] on Python integers. *)
Definition py_mod (a b : Z) : Result Z :=
  if b =? 0 then Raise ZeroDivisionError else Ok (a mod b).

(** The pairs [(x, i)] in the order of [for x in xs for i in range(k)]. *)
Definition nested_range {X : Type} (xs : list X) (k : nat) : list (X * nat) :=
  flat_map (fun x => map (fun i => (x, i)) (seq 0 k)) xs.

(** [[f(x) for x in l]], stopping at the first exception. *)
Fixpoint comprehension {X Y : Type} (f : X -> Result Y) (l : list X)
    : Result (list Y) :=
  match l with
  | [] => Ok []
  | x :: l' =>
      match f x with
      | Raise e => Raise e
      | Ok y =>
          match comprehension f l' with
          | Raise e => Raise e
          | Ok ys => Ok (y :: ys)
          end
      end
  end.

(** ** What a run does, in order

    The calls that leave the [Model] object are recorded in a log, oldest
    first, so that "how many times" and "before" can be stated. *)
Inductive Event (A : Type) : Type :=
| EvPrint (line : string) (epoch : option Z)
| EvGraph (op : string)
| EvDataLosses (loss : string)
| EvTrainNextBatch (batch_size : option Z)
| EvDataTest (ntest : option Z)
| EvSessionOpen (s : Session)
| EvSessionClose (s : Session)
| EvRunInit (s : Session)
| EvRunTrainOp (s : Session) (fd : FeedDict A)
| EvRunLossesOutputs (s : Session) (fd : FeedDict A)
| EvScipyMinimize (s : option Session) (fd : FeedDict A)
| EvRunVariables (s : Session)
| EvHook (name : string)
| EvEvaluate (uncertainty : bool).
Arguments EvPrint {A} line epoch.
Arguments EvGraph {A} op.
Arguments EvDataLosses {A} loss.
Arguments EvTrainNextBatch {A} batch_size.
Arguments EvDataTest {A} ntest.
Arguments EvSessionOpen {A} s.
Arguments EvSessionClose {A} s.
Arguments EvRunInit {A} s.
Arguments EvRunTrainOp {A} s fd.
Arguments EvRunLossesOutputs {A} s fd.
Arguments EvScipyMinimize {A} s fd.
Arguments EvRunVariables {A} s.
Arguments EvHook {A} name.
Arguments EvEvaluate {A} uncertainty.

(** ** class Model *)
Module Model.
Section WithCollab.
Context {C : Collab}.

(** The attributes of a [Model]; [self.data] is the data provider of [C]. *)
Record t : Type := mk {
  net : Net;
  optimizer : option string;
  batch_size : option Z;
  ntest : option Z;
  losses : option (Losses Tensor ndarray);
  totalloss : option (TotalLoss Tensor ndarray);
  train_op : option (TrainOp Tensor ndarray);
  metrics : option (list (metric_fn ndarray));
  sess : option Session;
  train_state : TrainState.t ndarray;
  losshistory : LossHistory.t ndarray
}.

Definition scipy_opts : list string :=
  ["BFGS"; "L-BFGS-B"; "Nelder-Mead"; "Powell"; "CG"; "Newton-CG"].

(** [Model.__init__] *)
Definition init (n : Net) : t :=
  {| net := n;
     optimizer := None;
     batch_size := None; ntest := None;
     losses := None; totalloss := None;
     train_op := None;
     metrics := None;
     sess := None;
     train_state := TrainState.init;
     losshistory := LossHistory.init |}.

Definition set_config (o : string) (b n : Z) (m : t) : t :=
  mk (net m) (Some o) (Some b) (Some n) (losses m) (totalloss m)
     (train_op m) (metrics m) (sess m) (train_state m) (losshistory m).

Definition set_losses (l : Losses Tensor ndarray) (m : t) : t :=
  mk (net m) (optimizer m) (batch_size m) (ntest m) (Some l) (totalloss m)
     (train_op m) (metrics m) (sess m) (train_state m) (losshistory m).

Definition set_totalloss (l : TotalLoss Tensor ndarray) (m : t) : t :=
  mk (net m) (optimizer m) (batch_size m) (ntest m) (losses m) (Some l)
     (train_op m) (metrics m) (sess m) (train_state m) (losshistory m).

Definition set_train_op (o : TrainOp Tensor ndarray) (m : t) : t :=
  mk (net m) (optimizer m) (batch_size m) (ntest m) (losses m) (totalloss m)
     (Some o) (metrics m) (sess m) (train_state m) (losshistory m).

Definition set_metrics (fs : list (metric_fn ndarray)) (m : t) : t :=
  mk (net m) (optimizer m) (batch_size m) (ntest m) (losses m) (totalloss m)
     (train_op m) (Some fs) (sess m) (train_state m) (losshistory m).

Definition set_sess (s : Session) (m : t) : t :=
  mk (net m) (optimizer m) (batch_size m) (ntest m) (losses m) (totalloss m)
     (train_op m) (metrics m) (Some s) (train_state m) (losshistory m).

Definition set_train_state (ts : TrainState.t ndarray) (m : t) : t :=
  mk (net m) (optimizer m) (batch_size m) (ntest m) (losses m) (totalloss m)
     (train_op m) (metrics m) (sess m) ts (losshistory m).

Definition set_losshistory (h : LossHistory.t ndarray) (m : t) : t :=
  mk (net m) (optimizer m) (batch_size m) (ntest m) (losses m) (totalloss m)
     (train_op m) (metrics m) (sess m) (train_state m) h.

(** *** The state of a run and the monad of the methods *)

(** The [Model] object, the world outside it, the sessions that are open,
    the number of sessions created so far, and the log. *)
Record State : Type := mkState {
  self : t;
  ext : Ext;
  open_sessions : list Session;
  created : nat;
  log : list (Event ndarray)
}.

Definition M (X : Type) : Type := State -> Result X * State.

Definition ret {X} (x : X) : M X := fun st => (Ok x, st).

Definition raise {X} (e : exn) : M X := fun st => (Raise e, st).

Definition bind {X Y} (m : M X) (k : X -> M Y) : M Y :=
  fun st =>
    match m st with
    | (Ok x, st') => k x st'
    | (Raise e, st') => (Raise e, st')
    end.

Notation "x <- m ;; k" := (bind m (fun x => k))
  (at level 61, m at next level, right associativity).
Notation "' p <- m ;; k" := (bind m (fun x => let 'p := x in k))
  (at level 61, p pattern, m at next level, right associativity).
Notation "m ;; k" := (bind m (fun _ => k))
  (at level 61, right associativity).

Definition lift {X} (r : Result X) : M X := fun st => (r, st).

Definition get_self : M t := fun st => (Ok (self st), st).

Definition modify_self (f : t -> t) : M unit :=
  fun st =>
    (Ok tt, mkState (f (self st)) (ext st) (open_sessions st) (created st)
              (log st)).

Definition emit (ev : Event ndarray) : M unit :=
  fun st =>
    (Ok tt, mkState (self st) (ext st) (open_sessions st) (created st)
              (log st ++ [ev])).

(** A call of a collaborator. *)
Definition call {X} (f : Ext -> Result X * Ext) : M X :=
  fun st =>
    let (r, e) := f (ext st) in
    (r, mkState (self st) e (open_sessions st) (created st) (log st)).

Definition modify_train_state
    (f : TrainState.t ndarray -> TrainState.t ndarray) : M unit :=
  modify_self (fun m => set_train_state (f (train_state m)) m).

Definition modify_losshistory
    (f : LossHistory.t ndarray -> LossHistory.t ndarray) : M unit :=
  modify_self (fun m => set_losshistory (f (losshistory m)) m).

(** [for x in l: body(x)] *)
Fixpoint for_each {X} (l : list X) (body : X -> M unit) : M unit :=
  match l with
  | [] => ret tt
  | x :: l' => body x ;; for_each l' body
  end.

(** [for _ in range(n): acc.append(body())], returning [acc]. *)
Fixpoint collect {X} (n : nat) (body : M X) : M (list X) :=
  match n with
  | O => ret []
  | S n' => x <- body ;; xs <- collect n' body ;; ret (x :: xs)
  end.

(** *** Sessions *)

(** [tf.Session(config=tfconfig)]: a new handle, open. *)
Definition new_session : M Session :=
  fun st =>
    match tf_Session (ext st) with
    | (Ok _, e) =>
        (Ok (created st),
         mkState (self st) e (created st :: open_sessions st)
           (S (created st)) (log st ++ [EvSessionOpen (created st)]))
    | (Raise x, e) =>
        (Raise x,
         mkState (self st) e (open_sessions st) (created st) (log st))
    end.

(** [sess.close()] *)
Definition session_close (s : Session) : M unit :=
  fun st =>
    (Ok tt,
     mkState (self st) (ext st)
       (filter (fun s' => negb (Nat.eqb s' s)) (open_sessions st))
       (created st) (log st ++ [EvSessionClose s])).

Definition open_tfsession : M unit :=
  s <- new_session ;;
  modify_self (set_sess s) ;;
  modify_train_state (TrainState.update_tfsession s).

Definition close_tfsession : M unit :=
  m <- get_self ;;
  match sess m with
  | None => raise AttributeError
  | Some s => session_close s
  end.

(** *** get_feed_dict *)
Definition get_feed_dict (n : Net) (training dropout : bool) (data_id : Z)
    (inputs : option ndarray) (tgts : option (value ndarray))
    : Result (FeedDict ndarray) :=
  match targets n with
  | MultiTarget k =>
      (* dict(zip(self.net.targets, targets)) *)
      match tgts with
      | None => Raise TypeError
      | Some v => Ok (mkFeed training dropout data_id inputs (FeedZip k v))
      end
  | SingleTarget =>
      Ok (mkFeed training dropout data_id inputs (FeedSingle tgts))
  end.

(** The feed of a pass over the training batch ([on_test = false]) or over
    the test split. *)
Definition feed_of (m : t) (training dropout : bool) (data_id : Z)
    (on_test : bool) : Result (FeedDict ndarray) :=
  let ts := train_state m in
  if on_test
  then get_feed_dict (net m) training dropout data_id
         (TrainState.X_test ts) (TrainState.y_test ts)
  else get_feed_dict (net m) training dropout data_id
         (TrainState.X_train ts) (TrainState.y_train ts).

(** [self.sess.run([self.losses, self.net.outputs], feed_dict=...)] *)
Definition sess_run_losses_outputs (training dropout : bool) (data_id : Z)
    (on_test : bool) : M (ndarray * value ndarray) :=
  m <- get_self ;;
  match sess m with
  | None => raise AttributeError
  | Some s =>
      fd <- lift (feed_of m training dropout data_id on_test) ;;
      emit (EvRunLossesOutputs s fd) ;;
      call (run_losses_outputs s (losses m) fd)
  end.

(** *** get_optimizer, get_learningrate *)

(** The float literals [0.9] and [0.01] as binary64 numbers. *)
Definition float_0_9 : spec_float :=
  S754_finite false 8106479329266893 (-53).
Definition float_0_01 : spec_float :=
  S754_finite false 5764607523034235 (-59).

Definition get_optimizer (name : string) (lr : LearningRate)
    : Result Optimizer :=
  dict_get
    [ ("sgd", GradientDescentOptimizer lr);
      ("sgdnesterov", MomentumOptimizer lr float_0_9 true);
      ("adagrad", AdagradOptimizer float_0_01);
      ("adadelta", AdadeltaOptimizer);
      ("rmsprop", RMSPropOptimizer lr);
      ("adam", AdamOptimizer lr) ]
    name.

(** Returns [(lr, global_step)]; [global_step] is [None] (false) or a new
    variable (true). *)
Definition get_learningrate (lr : spec_float) (decay : option Decay)
    : M (LearningRate * bool) :=
  match decay with
  | None => ret (ConstantRate lr, false)
  | Some d =>
      emit (EvGraph "tf.Variable") ;;
      emit (EvGraph "tf.train.inverse_time_decay") ;;
      emit (EvGraph "tf.train.cosine_decay") ;;
      r <- lift (dict_get
                   [ ("inverse time",
                      InverseTimeDecay lr (decay_steps d) (decay_rate d));
                     ("cosine",
                      CosineDecay lr (decay_steps d) (decay_rate d)) ]
                   (decay_kind d)) ;;
      ret (r, true)
  end.

(** Modelled from the spec: [metrics.get] of [sciconet/metrics.py], which is
    not among the sources: a name is looked up in the registry, an unknown
    name is an error, a callable passes through unchanged (as [get] of
    [maps/initializers.py] does). *)
Definition metrics_get (i : metric_id ndarray) : Result (metric_fn ndarray) :=
  match i with
  | MetricName name => dict_get metrics_table name
  | MetricCallable f => Ok f
  end.

(** *** compile

    The decorator [@timing] of [compile] and [train] is taken to call the
    method and return its result. *)
Definition compile (optimizer : string) (lr : spec_float)
    (batch_size ntest : Z) (loss : string)
    (metrics : option (list (metric_id ndarray)))
    (decay : option Decay) (loss_weights : option ndarray) : M unit :=
  emit (EvPrint "Compiling model..." None) ;;
  modify_self (set_config optimizer batch_size ntest) ;;
  (* self.losses = self.data.losses(...) *)
  emit (EvDataLosses loss) ;;
  ls <- call (data_losses loss) ;;
  modify_self (set_losses (mkLosses (map DataLoss ls) None)) ;;
  m <- get_self ;;
  let ts :=
    if regularizer (net m)
    then map DataLoss ls ++ [RegularizationLoss]
    else map DataLoss ls in
  (if regularizer (net m)
   then emit (EvGraph "tf.losses.get_regularization_loss")
   else ret tt) ;;
  emit (EvGraph "tf.convert_to_tensor") ;;
  modify_self (set_losses (mkLosses ts None)) ;;
  match loss_weights with
  | Some w =>
      emit (EvGraph "mul") ;;
      modify_self (set_losses (mkLosses ts (Some w))) ;;
      modify_losshistory (LossHistory.update_loss_weights w)
  | None => ret tt
  end ;;
  emit (EvGraph "tf.reduce_sum") ;;
  modify_self (set_totalloss (ReduceSum (mkLosses ts loss_weights))) ;;
  ' (rate, global_step) <- get_learningrate lr decay ;;
  emit (EvGraph "tf.get_collection") ;;
  emit (EvGraph "tf.control_dependencies") ;;
  (if str_in optimizer scipy_opts
   then
     emit (EvGraph "tf.contrib.opt.ScipyOptimizerInterface") ;;
     modify_self
       (set_train_op
          (ScipyOptimizerInterface (ReduceSum (mkLosses ts loss_weights))
             optimizer))
   else
     o <- lift (get_optimizer optimizer rate) ;;
     emit (EvGraph "minimize") ;;
     modify_self
       (set_train_op
          (Minimize o (ReduceSum (mkLosses ts loss_weights)) global_step))) ;;
  (* self.metrics = [metrics_module.get(m) for m in metrics] *)
  match metrics with
  | None => raise TypeError
  | Some ids =>
      fs <- lift (comprehension metrics_get ids) ;;
      modify_self (set_metrics fs)
  end.

(** *** test *)

(** [v[i]] *)
Definition getitem (v : value ndarray) (i : nat) : option (value ndarray) :=
  match v with
  | PyList l => option_map Arr (nth_error l i)
  | Arr a => option_map Arr (np_getitem a i)
  end.

(** [m(y_test[i], y_pred_test[i])] *)
Definition metric_at (y_true y_pred : option (value ndarray))
    (mi : metric_fn ndarray * nat) : Result spec_float :=
  match y_true with
  | None => Raise TypeError
  | Some yt =>
      match getitem yt (snd mi) with
      | None => Raise IndexError
      | Some a =>
          match y_pred with
          | None => Raise TypeError
          | Some yp =>
              match getitem yp (snd mi) with
              | None => Raise IndexError
              | Some b => Ok (fst mi a b)
              end
          end
      end
  end.

(** [m(y_test, y_pred_test)]; a metric given [None] is taken to raise
    [TypeError]. *)
Definition metric_on (y_true y_pred : option (value ndarray))
    (m : metric_fn ndarray) : Result spec_float :=
  match y_true, y_pred with
  | Some yt, Some yp => Ok (m yt yp)
  | _, _ => Raise TypeError
  end.

(** The two list comprehensions at the end of [test]. *)
Definition compute_metrics (m : t) : Result (list spec_float) :=
  let ts := train_state m in
  match metrics m with
  | None => Raise TypeError
  | Some ms =>
      match targets (net m) with
      | MultiTarget k =>
          comprehension
            (metric_at (TrainState.y_test ts) (TrainState.y_pred_test ts))
            (nested_range ms k)
      | SingleTarget =>
          comprehension
            (metric_on (TrainState.y_test ts) (TrainState.y_pred_test ts))
            ms
      end
  end.

(** The number of passes of the Monte-Carlo dropout estimate. *)
Definition uncertainty_samples : nat := Z.to_nat 1000.

Definition test (uncertainty : bool) : M unit :=
  emit (EvEvaluate uncertainty) ;;
  ' (l, y) <- sess_run_losses_outputs false false 0 false ;;
  modify_train_state (TrainState.set_train_results l y) ;;
  (if uncertainty
   then
     samples <- collect uncertainty_samples
                  (sess_run_losses_outputs false true 1 true) ;;
     modify_train_state
       (TrainState.set_test_results
          (np_mean (map (fun s => Arr (fst s)) samples))
          (Arr (np_mean (map snd samples)))) ;;
     modify_train_state
       (TrainState.set_y_std_test (Arr (np_std (map snd samples))))
   else
     ' (l, y) <- sess_run_losses_outputs false false 1 true ;;
     modify_train_state (TrainState.set_test_results l y)) ;;
  m <- get_self ;;
  ms <- lift (compute_metrics m) ;;
  modify_train_state (TrainState.set_metrics_test ms) ;;
  m <- get_self ;;
  ts <- lift (TrainState.update_best np_sum (train_state m)) ;;
  modify_self (set_train_state ts).

(** *** train_sgd *)

(** Modelled from the spec: [CallbackList] of [sciconet/callbacks.py], which
    is not among the sources: the hooks of the given callbacks run in
    registration order, each with the current train state. *)
Definition CallbackList (callbacks : option (list (Callback ndarray Ext)))
    : list (Callback ndarray Ext) :=
  match callbacks with
  | None => []
  | Some l => l
  end.

Definition run_hook (h : hook ndarray Ext) : M unit :=
  fun st =>
    let '(r, (ts, e)) := h (train_state (self st)) (ext st) in
    (r, mkState (set_train_state ts (self st)) e (open_sessions st)
          (created st) (log st)).

Definition fire (name : string)
    (sel : Callback ndarray Ext -> hook ndarray Ext)
    (callbacks : list (Callback ndarray Ext)) : M unit :=
  emit (EvHook name) ;;
  for_each callbacks (fun cb => run_hook (sel cb)).

(** [self.train_state.update_data_test( *self.data.test(self.ntest))] *)
Definition draw_test : M unit :=
  m <- get_self ;;
  emit (EvDataTest (ntest m)) ;;
  ' (X, y) <- call (data_test (ntest m)) ;;
  modify_train_state (TrainState.update_data_test X y).

(** [self.train_state.update_data_train(
       *self.data.train_next_batch(self.batch_size))] *)
Definition draw_train_batch : M unit :=
  m <- get_self ;;
  emit (EvTrainNextBatch (batch_size m)) ;;
  ' (X, y) <- call (data_train_next_batch (batch_size m)) ;;
  modify_train_state (TrainState.update_data_train X y).

(** [self.sess.run(self.train_op, feed_dict=...)] *)
Definition sess_run_train_op : M unit :=
  m <- get_self ;;
  match sess m with
  | None => raise AttributeError
  | Some s =>
      fd <- lift (feed_of m true true 0 false) ;;
      emit (EvRunTrainOp s fd) ;;
      call (run_train_op s (train_op m) fd)
  end.

(** [self.losshistory.add(step, self.train_state.loss_train, ...)] *)
Definition record_step (step : Z) : M unit :=
  m <- get_self ;;
  modify_losshistory
    (LossHistory.add step
       (TrainState.loss_train (train_state m))
       (TrainState.loss_test (train_state m))
       (TrainState.metrics_test (train_state m))).

(** The test of the validation cadence:
    [i % validation_every == 0 or i + 1 == epochs]. *)
Definition is_checkpoint (epochs validation_every i : Z) : Result bool :=
  match py_mod i validation_every with
  | Raise e => Raise e
  | Ok r => Ok ((r =? 0) || (i + 1 =? epochs))
  end.

Definition epoch_body (epochs validation_every : Z) (uncertainty : bool)
    (callbacks : list (Callback ndarray Ext)) (i : Z) : M unit :=
  fire "on_epoch_begin" on_epoch_begin callbacks ;;
  fire "on_batch_begin" on_batch_begin callbacks ;;
  draw_train_batch ;;
  sess_run_train_op ;;
  modify_train_state TrainState.tick ;;
  b <- lift (is_checkpoint epochs validation_every i) ;;
  (if b : bool
   then
     test uncertainty ;;
     record_step i ;;
     emit (EvPrint "Epoch: %d, loss: %s, val_loss: %s, val_metric: %s"
             (Some i))
     (* if errstop is not None and err_norm < errstop: break
        is a comment in the source *)
   else ret tt) ;;
  fire "on_batch_end" on_batch_end callbacks ;;
  fire "on_epoch_end" on_epoch_end callbacks.

Definition train_sgd (epochs validation_every : Z) (uncertainty : bool)
    (errstop : option spec_float)
    (callbacks : option (list (Callback ndarray Ext))) : M unit :=
  let callbacks := CallbackList callbacks in
  draw_test ;;
  fire "on_train_begin" on_train_begin callbacks ;;
  for_each (range epochs)
    (epoch_body epochs validation_every uncertainty callbacks) ;;
  fire "on_train_end" on_train_end callbacks.

(** *** train_scipy *)

(** [self.train_op.minimize(self.sess, feed_dict=...)] *)
Definition train_op_minimize : M unit :=
  m <- get_self ;;
  match train_op m with
  | None => raise AttributeError
  | Some op =>
      fd <- lift (feed_of m true true 0 false) ;;
      emit (EvScipyMinimize (sess m) fd) ;;
      call (scipy_minimize op (sess m) fd)
  end.

Definition train_scipy (uncertainty : bool) : M unit :=
  draw_train_batch ;;
  train_op_minimize ;;
  draw_test ;;
  test uncertainty ;;
  record_step 1 ;;
  emit (EvPrint "loss: %s, val_loss: %s, val_metric: %s" None).

(** *** train *)

(** [print_model]: the trainable variables are read in the session and
    printed. *)
Definition print_model : M unit :=
  m <- get_self ;;
  match sess m with
  | None => raise AttributeError
  | Some s => emit (EvRunVariables s) ;; call (run_trainable_variables s)
  end.

(** [self.sess.run(tf.global_variables_initializer())] *)
Definition sess_run_init : M unit :=
  m <- get_self ;;
  match sess m with
  | None => raise AttributeError
  | Some s => emit (EvRunInit s) ;; call (run_global_variables_initializer s)
  end.

(** [self.optimizer in Model.scipy_opts] *)
Definition uses_scipy (m : t) : bool :=
  match optimizer m with
  | Some o => str_in o scipy_opts
  | None => false
  end.

Definition train (epochs validation_every : Z) (uncertainty : bool)
    (errstop : option spec_float)
    (callbacks : option (list (Callback ndarray Ext)))
    (print_model_flag : bool)
    : M (LossHistory.t ndarray * TrainState.t ndarray) :=
  emit (EvPrint "Training model..." None) ;;
  open_tfsession ;;
  sess_run_init ;;
  (if print_model_flag then print_model else ret tt) ;;
  m <- get_self ;;
  (if uses_scipy m
   then train_scipy uncertainty
   else train_sgd epochs validation_every uncertainty errstop callbacks) ;;
  (if print_model_flag then print_model else ret tt) ;;
  close_tfsession ;;
  m <- get_self ;;
  ret (losshistory m, train_state m).

End WithCollab.
End Model.

(** ** Definitions used to state the properties *)

(** [ceil(a / b)] for a positive [b]: the least [n] with [a <= b * n]. *)
Definition ceil_div (a b : Z) : Z := (a + b - 1) / b.

(** The epochs at which [train_sgd] evaluates and records. *)
Definition checkpoints (epochs validation_every : Z) : list Z :=
  filter (fun i => (i mod validation_every =? 0) || (i + 1 =? epochs))
    (range epochs).

(** [m] is a minimum of the floats [l]: it is one of them and none of them
    is below it. *)
Definition is_min_of (m : spec_float) (l : list spec_float) : Prop :=
  In m l /\ Forall (fun x => SFltb x m = false) l.

Section TrainStateRuns.
Context {A : Type}.
Variable np_sum : A -> spec_float.

(** [calls ts0 sums ts]: [ts] is reached from [ts0] by calls of
    [update_best]; between two calls the fields other than [best_*] may have
    been assigned anything.  [sums] are the values of [np.sum(loss_train)]
    seen by the calls, oldest first. *)
Inductive calls : TrainState.t A -> list spec_float -> TrainState.t A -> Prop :=
| calls_nil ts : calls ts [] ts
| calls_snoc ts0 sums ts ts1 ts2 l :
    calls ts0 sums ts ->
    TrainState.best ts1 = TrainState.best ts ->
    TrainState.loss_train ts1 = Some l ->
    TrainState.update_best np_sum ts1 = Ok ts2 ->
    calls ts0 (sums ++ [np_sum l]) ts2.

End TrainStateRuns.

Section HistoryRecords.
Context {A : Type}.

(** A record of the history: the four arguments of one [add]. *)
Definition record : Type :=
  (Z * option A * option A * option (list spec_float))%type.

Definition record_step_of (r : record) : Z := fst (fst (fst r)).

Definition add_record (h : LossHistory.t A) (r : record) : LossHistory.t A :=
  let '(s, lt, lte, m) := r in LossHistory.add s lt lte m h.

Definition add_records (rs : list record) (h : LossHistory.t A)
    : LossHistory.t A :=
  fold_left add_record rs h.

End HistoryRecords.
Arguments record A : clear implicits.

Section Passes.
Context {X E : Type}.

(** [n] calls of [f] in a row, each in the world the previous one left;
    the results in order. *)
Fixpoint run_passes (n : nat) (f : E -> Result X * E) (e : E)
    : Result (list X) * E :=
  match n with
  | O => (Ok [], e)
  | S n' =>
      match f e with
      | (Raise x, e') => (Raise x, e')
      | (Ok x, e') =>
          match run_passes n' f e' with
          | (Raise y, e'') => (Raise y, e'')
          | (Ok xs, e'') => (Ok (x :: xs), e'')
          end
      end
  end.

End Passes.

(** Events of the log, by kind. *)
Definition is_train_next_batch {A} (ev : Event A) : bool :=
  match ev with EvTrainNextBatch _ => true | _ => false end.

Definition is_evaluate {A} (ev : Event A) : bool :=
  match ev with EvEvaluate _ => true | _ => false end.

Definition is_run_train_op {A} (ev : Event A) : bool :=
  match ev with EvRunTrainOp _ _ => true | _ => false end.

Definition is_session_close {A} (ev : Event A) : bool :=
  match ev with EvSessionClose _ => true | _ => false end.

(** The names [get_optimizer] knows. *)
Definition gradient_opts : list string :=
  ["sgd"; "sgdnesterov"; "adagrad"; "adadelta"; "rmsprop"; "adam"].

(** *** Observations of the state of a run *)
Import Model.

Section Observations.
Context {C : Collab}.

(** [m] leaves the observation [g] of the state as it was, whether it
    returns or raises. *)
Definition preserves {T X : Type} (g : State -> T) (m : M X) : Prop :=
  forall st, g (snd (m st)) = g st.

(** [self.losshistory] and [self.optimizer]. *)
Definition history_of (st : State) : LossHistory.t ndarray :=
  losshistory (self st).

Definition optimizer_of (st : State) : option string := optimizer (self st).

(** The draws of a training batch, the evaluations and the optimizer
    updates so far. *)
Definition batches_of (st : State) : list (Event ndarray) :=
  filter is_train_next_batch (log st).

Definition evaluations_of (st : State) : list (Event ndarray) :=
  filter is_evaluate (log st).

Definition train_ops_of (st : State) : list (Event ndarray) :=
  filter is_run_train_op (log st).

(** The sessions that are open, the number of sessions created, and
    [self.sess]. *)
Definition sessions_of (st : State) : list Session * nat * option Session :=
  (open_sessions st, created st, sess (self st)).

(** [epoch], [step] and [best_loss_train] of the model's train state. *)
Definition progress_of (st : State) : Z * Z * spec_float :=
  (TrainState.epoch (train_state (self st)),
   TrainState.step (train_state (self st)),
   TrainState.best_loss_train (train_state (self st))).

(** What the metrics of an evaluation are computed from, apart from the
    targets and predictions: the configured metrics and the network. *)
Definition metric_config_of (st : State) :=
  (metrics (self st), net (self st)).

End Observations.

(** [a] is [b] or below it. *)
Definition not_above (a b : spec_float) : Prop :=
  a = b \/ SFltb a b = true.

(** [p'] continues [p]: [n] more epochs and steps, and a best train loss
    that is not above the one of [p]. *)
Definition advanced (n : Z) (p p' : Z * Z * spec_float) : Prop :=
  fst (fst p') = fst (fst p) + n /\
  snd (fst p') = snd (fst p) + n /\
  not_above (snd p') (snd p).

(** An attribute that was set is still set. *)
Definition stays_set {X : Type} (a b : option X) : Prop :=
  a <> None -> b <> None.

(** The train state [ts'] carries [ts] over: the counters have not gone
    back; the five best results are those of [ts], unless a lower train
    loss has replaced them; and every other attribute that was set is
    still set. *)
Definition carries_over {A : Type} (ts ts' : TrainState.t A) : Prop :=
  TrainState.epoch ts <= TrainState.epoch ts' /\
  TrainState.step ts <= TrainState.step ts' /\
  (TrainState.best ts' = TrainState.best ts \/
   SFltb (TrainState.best_loss_train ts') (TrainState.best_loss_train ts)
   = true) /\
  stays_set (TrainState.sess ts) (TrainState.sess ts') /\
  stays_set (TrainState.X_train ts) (TrainState.X_train ts') /\
  stays_set (TrainState.y_train ts) (TrainState.y_train ts') /\
  stays_set (TrainState.X_test ts) (TrainState.X_test ts') /\
  stays_set (TrainState.y_test ts) (TrainState.y_test ts') /\
  stays_set (TrainState.y_pred_train ts) (TrainState.y_pred_train ts') /\
  stays_set (TrainState.loss_train ts) (TrainState.loss_train ts') /\
  stays_set (TrainState.loss_test ts) (TrainState.loss_test ts') /\
  stays_set (TrainState.y_pred_test ts) (TrainState.y_pred_test ts') /\
  stays_set (TrainState.y_std_test ts) (TrainState.y_std_test ts') /\
  stays_set (TrainState.metrics_test ts) (TrainState.metrics_test ts').

(** [m] resets nothing in the train state of the model, whether it
    returns or raises. *)
Definition resets_nothing {C : Collab} {X : Type} (m : M X) : Prop :=
  forall st,
    carries_over (train_state (self st)) (train_state (self (snd (m st)))).

(** The order of two positive finite numbers, as [SFcompare] computes it:
    by exponent, then by mantissa. *)
Definition mag_lt (e1 : Z) (m1 : positive) (e2 : Z) (m2 : positive) : Prop :=
  e1 < e2 \/ (e1 = e2 /\ (m1 < m2)%positive).

(** ** A concrete set of collaborators

    Arrays are integers (one number per array), tensors are names, and the
    world outside the model is the number of calls made so far.  The loss
    that a session reports is a function of that number (100 minus it for
    [collab]); the targets and the predictions are fixed. *)
Module Demo.

Definition Z2float (z : Z) : spec_float :=
  match z with
  | Z0 => S754_zero false
  | Zpos p => S754_finite false p 0
  | Zneg p => S754_finite true p 0
  end.

Definition mean (l : list (value Z)) : Z :=
  fold_right
    (fun v acc => match v with Arr a => a + acc | PyList _ => acc end) 0 l
  / Z.max 1 (Z.of_nat (List.length l)).

Definition tick_ok {X} (x : X) (e : nat) : Result X * nat := (Ok x, S e).

Definition mse : metric_fn Z :=
  fun y_true y_pred =>
    match y_true, y_pred with
    | Arr a, Arr b => Z2float ((a - b) * (a - b))
    | _, _ => S754_nan
    end.

Definition collab_of (loss : nat -> Z) (y_true y_pred : value Z) : Collab :=
  {| ndarray := Z;
     Tensor := string;
     Ext := nat;
     np_sum := Z2float;
     np_mean := mean;
     np_std := fun _ => 0;
     np_getitem := fun _ _ => None;
     data_losses := fun loss => tick_ok [loss];
     data_train_next_batch := fun _ e => tick_ok (Z.of_nat e, y_true) e;
     data_test := fun _ => tick_ok (0, y_true);
     tf_Session := tick_ok tt;
     run_global_variables_initializer := fun _ => tick_ok tt;
     run_train_op := fun _ _ _ => tick_ok tt;
     run_losses_outputs := fun _ _ _ e => tick_ok (loss e, y_pred) e;
     scipy_minimize := fun _ _ _ => tick_ok tt;
     run_trainable_variables := fun _ => tick_ok tt;
     metrics_table := [("MSE", mse)] |}.

Definition collab : Collab :=
  collab_of (fun e => 100 - Z.of_nat e) (Arr 1) (Arr 1).

(** The same with a loss that grows with each call. *)
Definition rising : Collab := collab_of Z.of_nat (Arr 1) (Arr 1).

(** The same with three targets: the data provider and the sessions return
    lists of three arrays. *)
Definition collab3 : Collab :=
  collab_of (fun e => 100 - Z.of_nat e) (PyList [1; 2; 3]) (PyList [1; 3; 5]).

(** A train state after a first evaluation with summed train loss 5, and
    the same once the next evaluation has stored a train loss of 7. *)
Definition after_first_call : TrainState.t Z :=
  TrainState.set_best Z2float (Z2float 5)
    (TrainState.set_train_results 5 (Arr 1) TrainState.init).

Definition before_second_call : TrainState.t Z :=
  TrainState.set_train_results 7 (Arr 1) after_first_call.

(** A new model in a world where nothing has happened yet. *)
Definition start (C : Collab) (e : @Ext C) (n : Net) : @Model.State C :=
  Model.mkState (Model.init n) e [] 0%nat [].

(** The state after [compile(opt, 0.001, 16, 100, "MSE",
    metrics=["MSE"])] on a new model with one target. *)
Definition float_0_001 : spec_float :=
  S754_finite false 4611686018427388 (-62).

Definition compiled (opt : string) : @Model.State collab :=
  snd (Model.compile (C := collab) opt float_0_001 16 100 "MSE"
         (Some [MetricName "MSE"]) None None
         (start collab 0%nat (mkNet SingleTarget false))).

Definition zero_metric : metric_fn Z := fun _ _ => S754_zero false.

Definition compiled3 (opt : string) : @Model.State collab3 :=
  snd (Model.compile (C := collab3) opt float_0_001 16 100 "MSE"
         (Some [MetricName "MSE"; MetricCallable zero_metric])
         None None
         (start collab3 0%nat (mkNet (MultiTarget 3) false))).

(** The model with three targets once a session is open and a training
    batch and the test split have been drawn: the state in which [train]
    calls [test]. *)
Definition ready3 : @Model.State collab3 :=
  snd (Model.bind Model.open_tfsession
         (fun _ => Model.bind Model.draw_train_batch
                     (fun _ => Model.draw_test))
         (compiled3 "adam")).

Abbreviation evaluation3 := (Model.test (C := collab3) false ready3).

(** The model with one target in the state in which [train] calls
    [test], and an evaluation with [uncertainty=True] there. *)
Definition ready : @Model.State collab :=
  snd (Model.bind Model.open_tfsession
         (fun _ => Model.bind Model.draw_train_batch
                     (fun _ => Model.draw_test))
         (compiled "adam")).

Abbreviation uncertain_evaluation := (Model.test (C := collab) true ready).

(** What a run returned, or new objects if it raised. *)
Definition returned {C : Collab} {X : Type}
    (r : Result (LossHistory.t (@ndarray C) * TrainState.t (@ndarray C)) * X)
    : LossHistory.t (@ndarray C) * TrainState.t (@ndarray C) :=
  match fst r with
  | Ok p => p
  | Raise _ => (LossHistory.init, TrainState.init)
  end.

(** [train(epochs=100, validation_every=10)] after [compile("adam", ...)]. *)
Abbreviation adam_run :=
  (Model.train (C := collab) 100 10 false None None false (compiled "adam")).

(** [compile("made-up", 0.001, 16, 100, "MSE", metrics=["MSE"])] on a new
    model. *)
Abbreviation made_up_compile :=
  (Model.compile (C := collab) "made-up" float_0_001 16 100 "MSE"
     (Some [MetricName "MSE"]) None None
     (start collab 0%nat (mkNet SingleTarget false))).

(** [train(epochs=1, validation_every=0)]: the cadence test divides by
    zero in the first epoch. *)
Abbreviation zero_cadence_run :=
  (Model.train (C := collab) 1 0 false None None false (compiled "adam")).

(** Two calls of [train(epochs=1, validation_every=1)] in a row on one
    model whose loss grows. *)
Definition compiled_rising : @Model.State rising :=
  snd (Model.compile (C := rising) "adam" float_0_001 16 100 "MSE"
         (Some [MetricName "MSE"]) None None
         (start rising 0%nat (mkNet SingleTarget false))).

Abbreviation first_run :=
  (Model.train (C := rising) 1 1 false None None false compiled_rising).

Abbreviation second_run :=
  (Model.train (C := rising) 1 1 false None None false (snd first_run)).

(** [train(epochs=7, validation_every=3, uncertainty=True)] after
    [compile("L-BFGS-B", ...)]. *)
Abbreviation lbfgs_run :=
  (Model.train (C := collab) 7 3 true None None false (compiled "L-BFGS-B")).

End Demo.

(** ** Further observations of a run *)

(** More events of the log, by kind. *)
Definition is_data_test {A} (ev : Event A) : bool :=
  match ev with EvDataTest _ => true | _ => false end.

Definition is_hook {A} (ev : Event A) : bool :=
  match ev with EvHook _ => true | _ => false end.

Definition is_run_variables {A} (ev : Event A) : bool :=
  match ev with EvRunVariables _ => true | _ => false end.

Definition is_losses_outputs {A} (ev : Event A) : bool :=
  match ev with EvRunLossesOutputs _ _ => true | _ => false end.

Definition is_session_open {A} (ev : Event A) : bool :=
  match ev with EvSessionOpen _ => true | _ => false end.

Section MoreObservations.
Context {C : Collab}.

(** What [compile] assigns: the attributes of the model that describe the
    compiled graph. *)
Definition compiled_of (st : State) :=
  (net (self st), optimizer (self st), batch_size (self st), ntest (self st),
   losses (self st), totalloss (self st), train_op (self st),
   metrics (self st)).

(** What [compile] leaves alone: the sessions, [self.sess], the train
    state and the four lists of the history. *)
Definition run_state_of (st : State) :=
  (open_sessions st, created st, sess (self st), train_state (self st),
   LossHistory.steps (losshistory (self st)),
   LossHistory.loss_train (losshistory (self st)),
   LossHistory.loss_test (losshistory (self st)),
   LossHistory.metrics_test (losshistory (self st))).

(** [self.losshistory.loss_weights] *)
Definition weights_of (st : State) : LossHistory.weights ndarray :=
  LossHistory.loss_weights (losshistory (self st)).

(** Every open session has a handle below the next one to be created. *)
Definition handles_fresh (st : State) : Prop :=
  Forall (fun s => (s < created st)%nat) (open_sessions st).

Definition hooks_of (st : State) : list (Event ndarray) :=
  filter is_hook (log st).

Definition test_draws_of (st : State) : list (Event ndarray) :=
  filter is_data_test (log st).

Definition variable_reads_of (st : State) : list (Event ndarray) :=
  filter is_run_variables (log st).

Definition passes_of (st : State) : list (Event ndarray) :=
  filter is_losses_outputs (log st).

End MoreObservations.

Section HistoryContent.
Context {A : Type}.

(** The arguments of the [add] calls among [cs], in order. *)
Definition added (cs : list (LossHistory.call (A := A))) : list (record A) :=
  flat_map
    (fun c =>
       match c with
       | LossHistory.CallAdd s lt lte m => [(s, lt, lte, m)]
       | LossHistory.CallUpdateLossWeights _ => []
       end)
    cs.

End HistoryContent.

(** *** The outline of a run

    The calls of a run that leave the model, without their arguments: the
    session, the draws of data, the optimizer, the evaluations and the
    hooks.  Log lines, graph construction and the forward passes of an
    evaluation are left out. *)
Inductive Step : Type :=
| OpenSession
| InitVariables
| ReadVariables
| DrawTest
| DrawBatch
| Update
| Minimization
| Evaluation (uncertainty : bool)
| Hook (name : string)
| CloseSession
| Internal.

Definition step_of {A} (ev : Event A) : Step :=
  match ev with
  | EvSessionOpen _ => OpenSession
  | EvRunInit _ => InitVariables
  | EvRunVariables _ => ReadVariables
  | EvDataTest _ => DrawTest
  | EvTrainNextBatch _ => DrawBatch
  | EvRunTrainOp _ _ => Update
  | EvScipyMinimize _ _ => Minimization
  | EvEvaluate u => Evaluation u
  | EvHook name => Hook name
  | EvSessionClose _ => CloseSession
  | EvPrint _ _ | EvGraph _ | EvDataLosses _ | EvRunLossesOutputs _ _ =>
      Internal
  end.

Definition is_step {A} (ev : Event A) : bool :=
  match step_of ev with
  | Internal => false
  | _ => true
  end.

Definition outline_of {C : Collab} (st : State) : list Step :=
  map step_of (filter is_step (log st)).

(** What [train] does, as the source has it written: one epoch of
    [train_sgd], [train_sgd], [train_scipy], and [train] around them. *)
Definition epoch_outline (epochs validation_every : Z) (uncertainty : bool)
    (i : Z) : list Step :=
  [Hook "on_epoch_begin"; Hook "on_batch_begin"; DrawBatch; Update]
  ++ (if (i mod validation_every =? 0) || (i + 1 =? epochs)
      then [Evaluation uncertainty] else [])
  ++ [Hook "on_batch_end"; Hook "on_epoch_end"].

Definition sgd_outline (epochs validation_every : Z) (uncertainty : bool)
    : list Step :=
  [DrawTest; Hook "on_train_begin"]
  ++ flat_map (epoch_outline epochs validation_every uncertainty)
       (range epochs)
  ++ [Hook "on_train_end"].

Definition scipy_outline (uncertainty : bool) : list Step :=
  [DrawBatch; Minimization; DrawTest; Evaluation uncertainty].

Definition train_outline (scipy print_model : bool)
    (epochs validation_every : Z) (uncertainty : bool) : list Step :=
  [OpenSession; InitVariables]
  ++ (if print_model then [ReadVariables] else [])
  ++ (if scipy then scipy_outline uncertainty
      else sgd_outline epochs validation_every uncertainty)
  ++ (if print_model then [ReadVariables] else [])
  ++ [CloseSession].

(** The two objects that [train] returns. *)
Definition returned_of {C : Collab} (st : State) :=
  (losshistory (self st), train_state (self st)).

(** *** Further runs with the collaborators of [Demo] *)
Module Runs.

(** [train(epochs=5, validation_every=-2)] after [compile("adam", ...)]. *)
Abbreviation negative_cadence_run :=
  (Model.train (C := Demo.collab) 5 (-2) false None None false
     (Demo.compiled "adam")).

(** [train(epochs=0, validation_every=0)] after [compile("adam", ...)]. *)
Abbreviation no_epochs_run :=
  (Model.train (C := Demo.collab) 0 0 false None None false
     (Demo.compiled "adam")).

(** [train(epochs=1, validation_every=1)] on the model that
    [train(epochs=1, validation_every=0)] has left behind. *)
Abbreviation after_failure_run :=
  (Model.train (C := Demo.collab) 1 1 false None None false
     (snd Demo.zero_cadence_run)).

(** An evaluation with [uncertainty=False] in the state in which [train]
    calls [test]. *)
Abbreviation plain_evaluation :=
  (Model.test (C := Demo.collab) false Demo.ready).

(** The same on the model with three targets once a session is open, but
    before any batch was drawn. *)
Definition opened3 : @Model.State Demo.collab3 :=
  snd (Model.open_tfsession (Demo.compiled3 "adam")).

End Runs.


(** What a run of [train] is configured by: the compiled graph and the
    weights of the history. *)
Definition configuration_of {C : Collab} (st : State) :=
  (compiled_of st, weights_of st).

(** The last record of the history is for [step] and holds the results of
    the current step of the train state. *)
Definition last_record_current {C : Collab} (step : Z) (st : State) : Prop :=
  exists h0,
    losshistory (self st)
    = LossHistory.add step
        (TrainState.loss_train (train_state (self st)))
        (TrainState.loss_test (train_state (self st)))
        (TrainState.metrics_test (train_state (self st))) h0.

(** [m] only appends to the history, whether it returns or raises. *)
Definition appends_only {C : Collab} {X : Type} (m : M X) : Prop :=
  forall st,
    exists rs, history_of (snd (m st)) = add_records rs (history_of st).

(** ** maps/initializers.py *)
Module Initializers.

(** The initializers that [get] builds, by the TensorFlow constructor and
    the arguments the source gives it ([None]: the argument is left to its
    default), and initializers of the caller's own.  All of them are
    callables. *)
Inductive Initializer : Type :=
| zeros_initializer
| variance_scaling_initializer (scale : option spec_float)
    (distribution : option string)
| glorot_normal_initializer
| glorot_uniform_initializer
| orthogonal_initializer
| Custom (name : string).

(** The argument of [get]: a [str], a callable, or another object, of which
    only [str(identifier)] matters. *)
Inductive Identifier : Type :=
| IdStr (s : string)
| IdCallable (f : Initializer)
| IdOther (repr : string).

Inductive error : Type :=
| KeyError (key : string)
| ValueError (message : string).

Inductive outcome : Type :=
| Returns (i : Initializer)
| Raises (e : error).

(** The float literal [2.0]. *)
Definition float_2 : spec_float := S754_finite false 4503599627370496 (-51).

Definition identifiers : list (string * Initializer) :=
  [ ("zeros", zeros_initializer);
    ("He normal", variance_scaling_initializer (Some float_2) None);
    ("He uniform",
     variance_scaling_initializer (Some float_2) (Some "uniform"));
    ("LeCun normal", variance_scaling_initializer None None);
    ("LeCun uniform", variance_scaling_initializer None (Some "uniform"));
    ("Glorot normal", glorot_normal_initializer);
    ("Glorot uniform", glorot_uniform_initializer);
    ("Orthogonal", orthogonal_initializer) ].

(** [d[key]] *)
Fixpoint getitem (d : list (string * Initializer)) (key : string)
    : outcome :=
  match d with
  | [] => Raises (KeyError key)
  | (k, v) :: d' => if String.eqb k key then Returns v else getitem d' key
  end.

Definition get (identifier : Identifier) : outcome :=
  match identifier with
  | IdStr s => getitem identifiers s
  | IdCallable f => Returns f
  | IdOther repr =>
      Raises
        (ValueError ("Could not interpret initializer identifier: " ++ repr))
  end.

(** The names of the table. *)
Definition names : list string := map fst identifiers.

End Initializers.

(** * Properties *)

(** ** Floats: the order behind [update_best] *)

Lemma SFltb_irrefl (x : spec_float) : SFltb x x = false.
Proof.
  unfold SFltb, SFcompare.
  destruct x as [s | s | | s m e]; try destruct s; try reflexivity;
    fold (Pos.compare m m); rewrite Z.compare_refl, Pos.compare_refl;
    reflexivity.
Qed.

Lemma SFltb_not_nan (x y : spec_float) :
  SFltb x y = true -> is_nan x = false /\ is_nan y = false.
Proof.
  unfold SFltb, SFcompare.
  destruct x as [s | s | | s m e]; destruct y as [s' | s' | | s' m' e'];
    simpl; intros H; try discriminate; split; reflexivity.
Qed.

Lemma SFleb_refl (x : spec_float) : is_nan x = false -> SFleb x x = true.
Proof.
  unfold SFleb, SFcompare.
  destruct x as [s | s | | s m e]; try destruct s; simpl; intros H;
    try reflexivity; try discriminate;
    fold (Pos.compare m m); rewrite Z.compare_refl, Pos.compare_refl;
    reflexivity.
Qed.

Lemma SFltb_SFleb (x y : spec_float) : SFltb x y = true -> SFleb x y = true.
Proof.
  unfold SFltb, SFleb. destruct (SFcompare x y) as [[ | | ] | ];
    intros H; try discriminate; reflexivity.
Qed.

Lemma mag_lt_trans e1 m1 e2 m2 e3 m3 :
  mag_lt e1 m1 e2 m2 -> mag_lt e2 m2 e3 m3 -> mag_lt e1 m1 e3 m3.
Proof. unfold mag_lt. lia. Qed.

Lemma compare_pos_lt e1 m1 e2 m2 :
  match (e1 ?= e2)%Z with
  | Eq => Pos.compare_cont Eq m1 m2 | Lt => Lt | Gt => Gt
  end = Lt <-> mag_lt e1 m1 e2 m2.
Proof.
  unfold mag_lt. fold (Pos.compare m1 m2).
  destruct (Z.compare_spec e1 e2) as [E | L | G].
  - rewrite Pos.compare_lt_iff. lia.
  - split; [ lia | reflexivity ].
  - split; [ discriminate | lia ].
Qed.

Lemma compare_neg_lt e1 m1 e2 m2 :
  match (e1 ?= e2)%Z with
  | Eq => CompOpp (Pos.compare_cont Eq m1 m2) | Lt => Gt | Gt => Lt
  end = Lt <-> mag_lt e2 m2 e1 m1.
Proof.
  unfold mag_lt. fold (Pos.compare m1 m2).
  destruct (Z.compare_spec e1 e2) as [E | L | G].
  - rewrite <- Pos.compare_antisym, Pos.compare_lt_iff. lia.
  - split; [ discriminate | lia ].
  - split; [ lia | reflexivity ].
Qed.

Lemma is_Lt_true (c : comparison) :
  match c with Lt => true | _ => false end = true <-> c = Lt.
Proof. destruct c; split; intros H; try discriminate; reflexivity. Qed.

Lemma SFltb_trans (x y z : spec_float) :
  SFltb x y = true -> SFltb y z = true -> SFltb x z = true.
Proof.
  unfold SFltb, SFcompare.
  destruct x as [s1 | s1 | | s1 m1 e1];
    destruct y as [s2 | s2 | | s2 m2 e2];
    destruct z as [s3 | s3 | | s3 m3 e3];
    try destruct s1; try destruct s2; try destruct s3;
    simpl; try discriminate; try reflexivity;
    rewrite !is_Lt_true; intros H12 H23.
  - apply compare_neg_lt. apply compare_neg_lt in H12, H23.
    exact (mag_lt_trans _ _ _ _ _ _ H23 H12).
  - apply compare_pos_lt. apply compare_pos_lt in H12, H23.
    exact (mag_lt_trans _ _ _ _ _ _ H12 H23).
Qed.

(** ** TrainState.update_best *)
Section UpdateBest.
Context {A : Type}.
Variable np_sum : A -> spec_float.

Lemma update_best_inv (ts ts2 : TrainState.t A) :
  TrainState.update_best np_sum ts = Ok ts2 ->
  exists l,
    TrainState.loss_train ts = Some l /\
    ts2 = if SFltb (np_sum l) (TrainState.best_loss_train ts)
          then TrainState.set_best np_sum (np_sum l) ts
          else ts.
Proof.
  unfold TrainState.update_best.
  destruct (TrainState.loss_train ts) as [l | ]; [ | discriminate ].
  intros H. exists l. split; [ reflexivity | ].
  destruct (SFltb (np_sum l) (TrainState.best_loss_train ts));
    injection H as <-; reflexivity.
Qed.

Lemma best_loss_train_of_best (ts ts' : TrainState.t A) :
  TrainState.best ts = TrainState.best ts' ->
  TrainState.best_loss_train ts = TrainState.best_loss_train ts'.
Proof. unfold TrainState.best. intros H. injection H. auto. Qed.

Lemma is_min_of_keep (b s : spec_float) (l : list spec_float) :
  is_min_of b l -> SFltb s b = false -> is_min_of b (l ++ [s]).
Proof.
  intros [Hin Hall] Hs. split.
  - apply in_or_app. left. exact Hin.
  - apply Forall_app. split; [ exact Hall | ].
    constructor; [ exact Hs | constructor ].
Qed.

Lemma is_min_of_lower (b s : spec_float) (l : list spec_float) :
  is_min_of b l -> SFltb s b = true -> is_min_of s (l ++ [s]).
Proof.
  intros [Hin Hall] Hs. split.
  - apply in_or_app. right. left. reflexivity.
  - apply Forall_app. split.
    + apply Forall_forall. intros x Hx.
      destruct (SFltb x s) eqn:Hxs; [ | reflexivity ].
      rewrite Forall_forall in Hall. specialize (Hall x Hx).
      rewrite (SFltb_trans x s b Hxs Hs) in Hall. discriminate Hall.
    + constructor; [ apply SFltb_irrefl | constructor ].
Qed.

(** Along a run that starts with a [best_loss_train] that is not NaN
    ([inf] for a new train state), the stored best is never NaN and is a
    minimum of the best the run started with and the sums seen so far. *)
Lemma calls_minimum (ts0 ts : TrainState.t A) (sums : list spec_float) :
  is_nan (TrainState.best_loss_train ts0) = false ->
  calls np_sum ts0 sums ts ->
  is_nan (TrainState.best_loss_train ts) = false /\
  is_min_of (TrainState.best_loss_train ts)
    (TrainState.best_loss_train ts0 :: sums).
Proof.
  intros H0 Hrun.
  induction Hrun as [ts | ts0 sums ts ts1 ts2 l Hrun IH Hbest Hl Hup].
  - split; [ exact H0 | ].
    split; [ left; reflexivity | ].
    constructor; [ apply SFltb_irrefl | constructor ].
  - destruct (IH H0) as [Hnan Hmin].
    apply update_best_inv in Hup. destruct Hup as (l' & Hl' & ->).
    rewrite Hl in Hl'. injection Hl' as <-.
    rewrite (best_loss_train_of_best _ _ Hbest).
    destruct (SFltb (np_sum l) (TrainState.best_loss_train ts)) eqn:Hlt.
    + simpl. split.
      * apply (SFltb_not_nan _ _ Hlt).
      * change (TrainState.best_loss_train ts0 :: sums ++ [np_sum l])
          with ((TrainState.best_loss_train ts0 :: sums) ++ [np_sum l]).
        eapply is_min_of_lower; eassumption.
    + rewrite (best_loss_train_of_best _ _ Hbest). split; [ exact Hnan | ].
      change (TrainState.best_loss_train ts0 :: sums ++ [np_sum l])
        with ((TrainState.best_loss_train ts0 :: sums) ++ [np_sum l]).
      apply is_min_of_keep; assumption.
Qed.

End UpdateBest.

Section UpdateBestStep.
Context {A : Type}.
Variable np_sum : A -> spec_float.

(** With a train loss stored, [update_best] returns. *)
Lemma update_best_returns (ts : TrainState.t A) (l : A) :
  TrainState.loss_train ts = Some l ->
  exists ts', TrainState.update_best np_sum ts = Ok ts'.
Proof.
  intros Hl. unfold TrainState.update_best. rewrite Hl.
  destruct (SFltb (np_sum l) (TrainState.best_loss_train ts));
    eexists; reflexivity.
Qed.

Lemma update_best_step (ts0 ts ts1 ts2 : TrainState.t A)
    (sums : list spec_float) (l : A) :
  is_nan (TrainState.best_loss_train ts0) = false ->
  calls np_sum ts0 sums ts ->
  TrainState.best ts1 = TrainState.best ts ->
  TrainState.loss_train ts1 = Some l ->
  TrainState.update_best np_sum ts1 = Ok ts2 ->
  SFleb (TrainState.best_loss_train ts2) (TrainState.best_loss_train ts)
    = true /\
  is_min_of (TrainState.best_loss_train ts2)
    (TrainState.best_loss_train ts0 :: sums ++ [np_sum l]) /\
  TrainState.best ts2 =
    if SFltb (np_sum l) (TrainState.best_loss_train ts)
    then (np_sum l,
          option_map np_sum (TrainState.loss_test ts1),
          TrainState.y_pred_test ts1,
          TrainState.y_std_test ts1,
          TrainState.metrics_test ts1)
    else TrainState.best ts.
Proof.
  intros H0 Hrun Hbest Hl Hup.
  pose proof (calls_snoc np_sum _ _ _ _ _ _ Hrun Hbest Hl Hup) as Hrun'.
  destruct (calls_minimum np_sum _ _ _ H0 Hrun) as [Hnan _].
  destruct (calls_minimum np_sum _ _ _ H0 Hrun') as [_ Hmin'].
  destruct (update_best_inv np_sum _ _ Hup) as (l' & Hl' & Heq).
  rewrite Hl in Hl'. injection Hl' as <-.
  split; [ | split; [ exact Hmin' | ] ].
  - subst ts2. rewrite (best_loss_train_of_best _ _ Hbest).
    destruct (SFltb (np_sum l) (TrainState.best_loss_train ts)) eqn:Hlt.
    + simpl. apply SFltb_SFleb. exact Hlt.
    + rewrite (best_loss_train_of_best _ _ Hbest).
      apply SFleb_refl. exact Hnan.
  - subst ts2. rewrite (best_loss_train_of_best _ _ Hbest).
    destruct (SFltb (np_sum l) (TrainState.best_loss_train ts));
      [ reflexivity | exact Hbest ].
Qed.

End UpdateBestStep.

(** C2, as the code has it.  Take a sequence of [update_best] calls that
    starts from a train state whose [best_loss_train] is not NaN: [inf] for
    a new train state, the best of the earlier runs for a model that was
    trained before.  A call of [update_best] on a train state that holds a
    train loss returns, and it leaves a [best_loss_train] that is not above
    the one before the call and that is a minimum of the best the sequence
    started with and all the summed train losses seen since: it is one of
    these values and none of them is below it.  The five [best_*] fields are
    overwritten with the current results exactly when the current summed
    train loss is strictly below the stored one, and are all unchanged
    otherwise; a NaN sum is never below and never stored. *)
Theorem update_best_keeps_minimum {A : Type} (np_sum : A -> spec_float)
    (ts0 ts ts1 : TrainState.t A) (sums : list spec_float) (l : A) :
  is_nan (TrainState.best_loss_train ts0) = false ->
  calls np_sum ts0 sums ts ->
  TrainState.best ts1 = TrainState.best ts ->
  TrainState.loss_train ts1 = Some l ->
  exists ts2,
    TrainState.update_best np_sum ts1 = Ok ts2 /\
    SFleb (TrainState.best_loss_train ts2) (TrainState.best_loss_train ts)
      = true /\
    is_min_of (TrainState.best_loss_train ts2)
      (TrainState.best_loss_train ts0 :: sums ++ [np_sum l]) /\
    (is_nan (np_sum l) = true ->
     TrainState.best ts2 = TrainState.best ts) /\
    TrainState.best ts2 =
      if SFltb (np_sum l) (TrainState.best_loss_train ts)
      then (np_sum l,
            option_map np_sum (TrainState.loss_test ts1),
            TrainState.y_pred_test ts1,
            TrainState.y_std_test ts1,
            TrainState.metrics_test ts1)
      else TrainState.best ts.
Proof.
  intros H0 Hrun Hbest Hl.
  destruct (update_best_returns np_sum ts1 l Hl) as (ts2 & Hup).
  exists ts2. split; [ exact Hup | ].
  destruct (update_best_step np_sum _ _ _ _ _ _ H0 Hrun Hbest Hl Hup)
    as (Hle & Hmin & Hbest2).
  split; [ exact Hle | ]. split; [ exact Hmin | ].
  split; [ | exact Hbest2 ].
  intros Hnan. rewrite Hbest2.
  destruct (SFltb (np_sum l) (TrainState.best_loss_train ts)) eqn:Hlt;
    [ | reflexivity ].
  apply SFltb_not_nan in Hlt. destruct Hlt as [Hlt _].
  rewrite Hlt in Hnan. discriminate Hnan.
Qed.

(** Two calls on a new train state: the summed train losses are 5, then
    7; the second call leaves the best of the first. *)
Lemma update_best_keeps_minimum_witness :
  exists ts2,
    TrainState.update_best Demo.Z2float Demo.before_second_call = Ok ts2 /\
    SFleb (TrainState.best_loss_train ts2)
      (TrainState.best_loss_train Demo.after_first_call) = true /\
    is_min_of (TrainState.best_loss_train ts2)
      (TrainState.best_loss_train (TrainState.init (A := Z))
       :: [Demo.Z2float 5] ++ [Demo.Z2float 7]) /\
    (is_nan (Demo.Z2float 7) = true ->
     TrainState.best ts2 = TrainState.best Demo.after_first_call) /\
    TrainState.best ts2 =
      if SFltb (Demo.Z2float 7)
           (TrainState.best_loss_train Demo.after_first_call)
      then (Demo.Z2float 7,
            option_map Demo.Z2float
              (TrainState.loss_test Demo.before_second_call),
            TrainState.y_pred_test Demo.before_second_call,
            TrainState.y_std_test Demo.before_second_call,
            TrainState.metrics_test Demo.before_second_call)
      else TrainState.best Demo.after_first_call.
Proof.
  apply (update_best_keeps_minimum Demo.Z2float
           TrainState.init Demo.after_first_call
           Demo.before_second_call [Demo.Z2float 5] 7).
  - reflexivity.
  - apply (calls_snoc Demo.Z2float TrainState.init [] TrainState.init
             (TrainState.set_train_results 5 (Arr 1) TrainState.init)
             _ 5).
    + apply calls_nil.
    + reflexivity.
    + reflexivity.
    + reflexivity.
  - reflexivity.
  - reflexivity.
Defined.

(** C2 as stated fails: [best_loss_train] need not be a train loss that was
    observed.  A first call of [update_best] whose summed train loss is NaN
    leaves [best_loss_train] at [inf], which no evaluation has produced.
    And in the second of two runs of [train] on one model the stored best
    is the 6 of the first run, while the only train loss of the second run
    is 13. *)
Lemma update_best_not_minimum_observed :
  (exists ts2,
     TrainState.update_best (fun _ : Z => S754_nan)
       (TrainState.set_train_results 5 (Arr 1) TrainState.init) = Ok ts2 /\
     TrainState.best_loss_train ts2 = np_inf /\
     ~ is_min_of (TrainState.best_loss_train ts2) [S754_nan]) /\
  (LossHistory.loss_train (fst (Demo.returned Demo.first_run)) = [Some 6] /\
   LossHistory.loss_train (fst (Demo.returned Demo.second_run))
   = [Some 6; Some 13] /\
   TrainState.best_loss_train (snd (Demo.returned Demo.second_run))
   = Demo.Z2float 6 /\
   ~ is_min_of (Demo.Z2float 6) [Demo.Z2float 13]).
Proof.
  split.
  - eexists. split; [ reflexivity | ]. split; [ reflexivity | ].
    intros [Hin _]. destruct Hin as [H | []]. discriminate H.
  - split; [ vm_compute; reflexivity | ].
    split; [ vm_compute; reflexivity | ].
    split; [ vm_compute; reflexivity | ].
    intros [Hin _]. destruct Hin as [H | []]. vm_compute in H. congruence.
Qed.

(** ** LossHistory *)
Section HistoryLengths.
Context {A : Type}.

Lemma run_calls_lengths (cs : list (LossHistory.call (A := A)))
    (h : LossHistory.t A) :
  let n := List.length (filter LossHistory.is_add cs) in
  let h' := LossHistory.run_calls cs h in
  List.length (LossHistory.steps h')
    = (List.length (LossHistory.steps h) + n)%nat /\
  List.length (LossHistory.loss_train h')
    = (List.length (LossHistory.loss_train h) + n)%nat /\
  List.length (LossHistory.loss_test h')
    = (List.length (LossHistory.loss_test h) + n)%nat /\
  List.length (LossHistory.metrics_test h')
    = (List.length (LossHistory.metrics_test h) + n)%nat.
Proof.
  revert h. induction cs as [ | c cs IH]; intros h; simpl.
  - repeat split; lia.
  - destruct (IH (LossHistory.run_call h c)) as (H1 & H2 & H3 & H4).
    unfold LossHistory.run_calls in *.
    rewrite H1, H2, H3, H4.
    destruct c; simpl; rewrite ?length_app; simpl; repeat split; lia.
Qed.

End HistoryLengths.

(** C9.  After any sequence of calls on a new [LossHistory] the four lists
    have the same length, the number of [add] calls; one more [add] appends
    exactly its four arguments, one to each list, and the other call leaves
    the four lists as they are: nothing is ever removed. *)
Theorem losshistory_lists_equal_length {A : Type}
    (cs : list (LossHistory.call (A := A))) (c : LossHistory.call (A := A)) :
  let h := LossHistory.run_calls cs LossHistory.init in
  let h' := LossHistory.run_call h c in
  let n := List.length (filter LossHistory.is_add cs) in
  (List.length (LossHistory.steps h) = n /\
   List.length (LossHistory.loss_train h) = n /\
   List.length (LossHistory.loss_test h) = n /\
   List.length (LossHistory.metrics_test h) = n) /\
  match c with
  | LossHistory.CallAdd s lt lte m =>
      LossHistory.steps h' = LossHistory.steps h ++ [s] /\
      LossHistory.loss_train h' = LossHistory.loss_train h ++ [lt] /\
      LossHistory.loss_test h' = LossHistory.loss_test h ++ [lte] /\
      LossHistory.metrics_test h' = LossHistory.metrics_test h ++ [m]
  | LossHistory.CallUpdateLossWeights _ =>
      LossHistory.steps h' = LossHistory.steps h /\
      LossHistory.loss_train h' = LossHistory.loss_train h /\
      LossHistory.loss_test h' = LossHistory.loss_test h /\
      LossHistory.metrics_test h' = LossHistory.metrics_test h
  end.
Proof.
  intros h h' n. split.
  - exact (run_calls_lengths cs LossHistory.init).
  - subst h'. destruct c; simpl; repeat split; reflexivity.
Qed.

(** ** Reasoning about the methods of [Model] *)

Section Rules.
Context {C : Collab}.

Lemma preserves_run {T X} (g : State -> T) (m : M X) st r st' :
  preserves g m -> m st = (r, st') -> g st' = g st.
Proof. intros H E. specialize (H st). rewrite E in H. exact H. Qed.

Lemma preserves_ret {T X} (g : State -> T) (x : X) : preserves g (ret x).
Proof. intros st. reflexivity. Qed.

Lemma preserves_raise {T X} (g : State -> T) (e : exn) :
  preserves g (raise (X := X) e).
Proof. intros st. reflexivity. Qed.

Lemma preserves_lift {T X} (g : State -> T) (r : Result X) :
  preserves g (lift r).
Proof. intros st. reflexivity. Qed.

Lemma preserves_get_self {T} (g : State -> T) : preserves g get_self.
Proof. intros st. reflexivity. Qed.

Lemma preserves_bind {T X Y} (g : State -> T) (m : M X) (k : X -> M Y) :
  preserves g m -> (forall x, preserves g (k x)) -> preserves g (bind m k).
Proof.
  intros Hm Hk st. unfold bind.
  specialize (Hm st). destruct (m st) as [[x | e] st1]; simpl in *.
  - rewrite (Hk x st1). exact Hm.
  - exact Hm.
Qed.

Lemma preserves_modify_self {T} (g : State -> T) (f : t -> t) :
  (forall st,
     g (mkState (f (self st)) (ext st) (open_sessions st) (created st)
          (log st)) = g st) ->
  preserves g (modify_self f).
Proof. intros H st. apply H. Qed.

Lemma preserves_emit {T} (g : State -> T) (ev : Event ndarray) :
  (forall st,
     g (mkState (self st) (ext st) (open_sessions st) (created st)
          (log st ++ [ev])) = g st) ->
  preserves g (emit ev).
Proof. intros H st. apply H. Qed.

Lemma preserves_call {T X} (g : State -> T) (f : Ext -> Result X * Ext) :
  (forall st e,
     g (mkState (self st) e (open_sessions st) (created st) (log st))
     = g st) ->
  preserves g (call f).
Proof.
  intros H st. unfold call. destruct (f (ext st)) as [r e]. apply H.
Qed.

Lemma preserves_run_hook {T} (g : State -> T) (h : hook ndarray Ext) :
  (forall st ts e,
     g (mkState (set_train_state ts (self st)) e (open_sessions st)
          (created st) (log st)) = g st) ->
  preserves g (run_hook h).
Proof.
  intros H st. unfold run_hook.
  destruct (h (train_state (self st)) (ext st)) as [r [ts e]]. apply H.
Qed.

Lemma preserves_new_session {T} (g : State -> T) :
  (forall st e,
     g (mkState (self st) e (created st :: open_sessions st)
          (S (created st)) (log st ++ [EvSessionOpen (created st)]))
     = g st) ->
  (forall st e,
     g (mkState (self st) e (open_sessions st) (created st) (log st))
     = g st) ->
  preserves g new_session.
Proof.
  intros H1 H2 st. unfold new_session.
  destruct (tf_Session (ext st)) as [[x | e] e']; [ apply H1 | apply H2 ].
Qed.

Lemma preserves_session_close {T} (g : State -> T) (s : Session) :
  (forall st,
     g (mkState (self st) (ext st)
          (filter (fun s' => negb (Nat.eqb s' s)) (open_sessions st))
          (created st) (log st ++ [EvSessionClose s]))
     = g st) ->
  preserves g (session_close s).
Proof. intros H st. apply H. Qed.

Lemma preserves_for_each {T X} (g : State -> T) (l : list X)
    (body : X -> M unit) :
  (forall x, preserves g (body x)) -> preserves g (for_each l body).
Proof.
  intros H. induction l as [ | x l IH]; simpl.
  - apply preserves_ret.
  - apply preserves_bind; [ apply H | intros _; exact IH ].
Qed.

Lemma preserves_collect {T X} (g : State -> T) (n : nat) (body : M X) :
  preserves g body -> preserves g (collect n body).
Proof.
  intros H. induction n as [ | n IH]; simpl.
  - apply preserves_ret.
  - apply preserves_bind; [ exact H | intros x ].
    apply preserves_bind; [ exact IH | intros xs; apply preserves_ret ].
Qed.

Lemma bind_ok {X Y} (m : M X) (k : X -> M Y) st y st' :
  bind m k st = (Ok y, st') ->
  exists x st1, m st = (Ok x, st1) /\ k x st1 = (Ok y, st').
Proof.
  unfold bind. destruct (m st) as [[x | e] st1]; intros H.
  - exists x, st1. split; [ reflexivity | exact H ].
  - discriminate H.
Qed.

Lemma lift_ok {X} (r : Result X) st x st' :
  lift r st = (Ok x, st') -> r = Ok x /\ st' = st.
Proof. unfold lift. intros H. injection H as -> ->. split; reflexivity. Qed.

(** A property of the run of [m ;; k] follows from the two ways [m] can
    end. *)
Lemma bind_cases {X Y} (m : M X) (k : X -> M Y) st
    (P : Result Y * State -> Prop) :
  (forall x s1, m st = (Ok x, s1) -> P (k x s1)) ->
  (forall e s1, m st = (Raise e, s1) -> P (Raise e, s1)) ->
  P (bind m k st).
Proof.
  intros HOk HRaise. unfold bind.
  destruct (m st) as [[x | e] s1]; [ apply HOk | apply HRaise ]; reflexivity.
Qed.

End Rules.

(** [pres] proves [preserves g m] by following the structure of [m]; the
    side conditions say that an assignment, a log entry or a call does not
    touch [g]. *)
Ltac pres_side :=
  intros; cbn;
  repeat (rewrite filter_app; cbn);
  rewrite ?app_nil_r; reflexivity.

Ltac pres :=
  lazymatch goal with
  | |- preserves _ (bind _ _) =>
      apply preserves_bind; [ pres | intros; pres ]
  | |- preserves _ (ret _) => apply preserves_ret
  | |- preserves _ (raise _) => apply preserves_raise
  | |- preserves _ (lift _) => apply preserves_lift
  | |- preserves _ get_self => apply preserves_get_self
  | |- preserves _ (modify_self _) => apply preserves_modify_self; pres_side
  | |- preserves _ (emit _) => apply preserves_emit; pres_side
  | |- preserves _ (call _) => apply preserves_call; pres_side
  | |- preserves _ (run_hook _) => apply preserves_run_hook; pres_side
  | |- preserves _ new_session => apply preserves_new_session; pres_side
  | |- preserves _ (session_close _) =>
      apply preserves_session_close; pres_side
  | |- preserves _ (for_each [] _) => apply preserves_ret
  | |- preserves _ (for_each _ _) => apply preserves_for_each; intros; pres
  | |- preserves _ (collect _ _) => apply preserves_collect; pres
  | |- preserves _ (match ?x with _ => _ end) => destruct x; pres
  | |- preserves _ ?m =>
      let h := lazymatch m with
               | ?f _ _ _ _ _ _ _ _ => f | ?f _ _ _ _ _ _ _ => f
               | ?f _ _ _ _ _ _ => f | ?f _ _ _ _ _ => f | ?f _ _ _ _ => f
               | ?f _ _ _ => f | ?f _ _ => f | ?f _ => f | ?f => f
               end in
      unfold h; pres
  end.

(** [split_bind H] takes a run [H : (m1 ;; ... ;; mn) st = (Ok y, st')]
    apart into the runs of [m1], ..., [mn]. *)
Ltac split_bind H :=
  repeat lazymatch type of H with
         | bind _ _ _ = _ =>
             let x := fresh "x" in
             let st := fresh "st" in
             let H1 := fresh "Hrun" in
             apply bind_ok in H; destruct H as (x & st & H1 & H)
         end.

(** [frame g H] turns the run [H : m st = (r, st')] of an [m] that
    preserves [g] into [g st' = g st]; [frames g] does it for every run
    among the hypotheses that preserves [g]. *)
Ltac frame g H :=
  apply (preserves_run g) in H; [ | solve [ pres ] ].

Ltac frames g :=
  repeat match goal with
         | H : _ _ = (_, _) |- _ => frame g H
         end.

(** [step_bind] splits a goal about the run of [m ;; k] into the case
    where [m] returns, with a goal about the run of [k], and the case where
    [m] raises. *)
Ltac step_bind H :=
  lazymatch goal with
  | |- context [bind ?m ?k ?s] =>
      pattern (bind m k s); apply bind_cases; intros ? ? H; cbv beta
  end.

(** [emits] and [modifies] read the runs of log entries and of
    assignments: the new state is the old one with the entry or the
    assignment. *)
Ltac emits :=
  repeat match goal with
         | H : emit _ _ = (Ok _, _) |- _ =>
             unfold emit in H; injection H as ?; subst
         end.

Ltac modifies :=
  repeat match goal with
         | H : modify_self _ _ = (Ok _, _) |- _ =>
             unfold modify_self in H; injection H as ?; subst
         | H : modify_losshistory _ _ = (Ok _, _) |- _ =>
             unfold modify_losshistory, modify_self in H;
             injection H as ?; subst
         | H : modify_train_state _ _ = (Ok _, _) |- _ =>
             unfold modify_train_state, modify_self in H;
             injection H as ?; subst
         end.

(** [lifts] reads the runs of pure computations, of [get_self] and of
    [ret]: the result is theirs and the state is unchanged. *)
Ltac lifts :=
  repeat match goal with
         | H : lift _ ?s = (Ok _, ?s') |- _ =>
             let E := fresh "Hval" in
             let Hs := fresh in
             apply lift_ok in H; destruct H as [E Hs]; subst s'
         | H : get_self ?s = (Ok ?x, ?s') |- _ =>
             let Hx := fresh in
             let Hs := fresh in
             unfold get_self in H; injection H as Hx Hs; subst x s'
         | H : ret ?v ?s = (Ok ?x, ?s') |- _ =>
             let Hx := fresh "Hret" in
             let Hs := fresh in
             assert (Hs : s' = s) by (unfold ret in H; congruence);
             assert (Hx : x = v) by (unfold ret in H; congruence);
             clear H; subst s'; try subst x
         end.

(** ** The validation cadence *)
Section Cadence.
Variable V : Z.
Hypothesis V_pos : 1 <= V.

Lemma range_succ (n : nat) :
  range (Z.of_nat (S n)) = range (Z.of_nat n) ++ [Z.of_nat n].
Proof.
  unfold range. rewrite !Nat2Z.id, seq_S, map_app. reflexivity.
Qed.

Lemma in_range (i n : Z) : In i (range n) <-> 0 <= i < n.
Proof.
  unfold range. rewrite in_map_iff. split.
  - intros (k & <- & Hk). apply in_seq in Hk. lia.
  - intros H. exists (Z.to_nat i). split; [ lia | ].
    apply in_seq. lia.
Qed.

Lemma NoDup_range (n : Z) : NoDup (range n).
Proof.
  unfold range. generalize (Z.to_nat n) as k. intros k.
  induction k as [ | k IH].
  - constructor.
  - rewrite seq_S, map_app. simpl.
    apply NoDup_app; repeat split.
    + exact IH.
    + constructor; [ intros [] | constructor ].
    + intros x Hx [<- | []]. apply in_map_iff in Hx.
      destruct Hx as (j & Hj & Hin). apply in_seq in Hin. lia.
Qed.

Lemma ceil_div_is_ceiling (a : Z) :
  V * (ceil_div a V - 1) < a <= V * ceil_div a V.
Proof.
  unfold ceil_div.
  pose proof (Z.div_mod (a + V - 1) V ltac:(lia)) as Hdiv.
  pose proof (Z.mod_pos_bound (a + V - 1) V ltac:(lia)) as Hmod.
  lia.
Qed.

Lemma ceil_div_succ (n : Z) :
  0 <= n ->
  ceil_div (n + 1) V = ceil_div n V + (if n mod V =? 0 then 1 else 0).
Proof.
  intros Hn. unfold ceil_div.
  pose proof (Z.div_mod n V ltac:(lia)) as Hdiv.
  pose proof (Z.mod_pos_bound n V ltac:(lia)) as Hmod.
  destruct (n mod V =? 0) eqn:E.
  - apply Z.eqb_eq in E.
    rewrite <- (Z.div_unique (n + 1 + V - 1) V (n / V + 1) 0) by lia.
    rewrite <- (Z.div_unique (n + V - 1) V (n / V) (V - 1)) by lia.
    reflexivity.
  - apply Z.eqb_neq in E.
    rewrite <- (Z.div_unique (n + 1 + V - 1) V (n / V + 1) (n mod V))
      by lia.
    rewrite <- (Z.div_unique (n + V - 1) V (n / V + 1) (n mod V - 1))
      by lia.
    lia.
Qed.

(** The multiples of [V] below [n] are [ceil(n / V)] many. *)
Lemma count_multiples (n : nat) :
  Z.of_nat (List.length (filter (fun i => i mod V =? 0) (range (Z.of_nat n))))
  = ceil_div (Z.of_nat n) V.
Proof.
  induction n as [ | n IH].
  - unfold ceil_div. simpl. symmetry. apply Z.div_small. lia.
  - rewrite range_succ, filter_app, length_app, Nat2Z.inj_add, IH.
    rewrite Nat2Z.inj_succ, <- Z.add_1_r, ceil_div_succ by lia.
    simpl. destruct (Z.of_nat n mod V =? 0); reflexivity.
Qed.

Lemma checkpoints_eq (E : Z) :
  1 <= E ->
  checkpoints E V
  = filter (fun i => i mod V =? 0) (range (E - 1)) ++ [E - 1].
Proof.
  intros HE. unfold checkpoints.
  assert (Hr : range E = range (E - 1) ++ [E - 1]).
  { replace E with (Z.of_nat (S (Z.to_nat (E - 1)))) at 1 by lia.
    rewrite range_succ.
    replace (Z.of_nat (Z.to_nat (E - 1))) with (E - 1) by lia.
    reflexivity. }
  rewrite Hr, filter_app.
  f_equal.
  - apply filter_ext_in. intros i Hi. apply in_range in Hi.
    replace (i + 1 =? E) with false by (symmetry; apply Z.eqb_neq; lia).
    apply orb_false_r.
  - simpl. replace (E - 1 + 1 =? E) with true
      by (symmetry; apply Z.eqb_eq; lia).
    rewrite orb_true_r. reflexivity.
Qed.

Lemma checkpoints_length (E : Z) :
  1 <= E ->
  Z.of_nat (List.length (checkpoints E V))
  = ceil_div E V + (if (E - 1) mod V =? 0 then 0 else 1).
Proof.
  intros HE. rewrite checkpoints_eq by exact HE.
  rewrite length_app, Nat2Z.inj_add. simpl.
  replace (E - 1) with (Z.of_nat (Z.to_nat (E - 1))) at 1 by lia.
  rewrite count_multiples.
  replace E with (Z.of_nat (Z.to_nat (E - 1)) + 1) at 2 by lia.
  rewrite ceil_div_succ by lia.
  replace (Z.of_nat (Z.to_nat (E - 1))) with (E - 1) by lia.
  destruct ((E - 1) mod V =? 0); lia.
Qed.

Lemma checkpoints_NoDup (E : Z) : NoDup (checkpoints E V).
Proof. unfold checkpoints. apply NoDup_filter. apply NoDup_range. Qed.

End Cadence.

(** ** Records appended to the history *)
Section AddRecords.
Context {A : Type}.

Lemma add_records_app (rs rs' : list (record A)) (h : LossHistory.t A) :
  add_records (rs ++ rs') h = add_records rs' (add_records rs h).
Proof. unfold add_records. apply fold_left_app. Qed.

Lemma add_records_steps (rs : list (record A)) (h : LossHistory.t A) :
  LossHistory.steps (add_records rs h)
  = LossHistory.steps h ++ map record_step_of rs.
Proof.
  revert h. induction rs as [ | [[[s lt] lte] m] rs IH]; intros h; simpl.
  - symmetry. apply app_nil_r.
  - fold (add_records rs (LossHistory.add s lt lte m h)).
    rewrite IH. simpl. rewrite <- app_assoc. reflexivity.
Qed.

Lemma add_records_lengths (rs : list (record A)) (h : LossHistory.t A) :
  let n := List.length rs in
  let h' := add_records rs h in
  List.length (LossHistory.steps h')
    = (List.length (LossHistory.steps h) + n)%nat /\
  List.length (LossHistory.loss_train h')
    = (List.length (LossHistory.loss_train h) + n)%nat /\
  List.length (LossHistory.loss_test h')
    = (List.length (LossHistory.loss_test h) + n)%nat /\
  List.length (LossHistory.metrics_test h')
    = (List.length (LossHistory.metrics_test h) + n)%nat.
Proof.
  revert h. induction rs as [ | [[[s lt] lte] m] rs IH]; intros h; simpl.
  - repeat split; lia.
  - destruct (IH (LossHistory.add s lt lte m h)) as (H1 & H2 & H3 & H4).
    fold (add_records rs (LossHistory.add s lt lte m h)).
    rewrite H1, H2, H3, H4. simpl.
    rewrite !length_app. simpl. repeat split; lia.
Qed.

End AddRecords.

Section SgdRecords.
Context {C : Collab}.

Lemma is_checkpoint_ok (E V i : Z) :
  V <> 0 ->
  is_checkpoint E V i = Ok ((i mod V =? 0) || (i + 1 =? E)).
Proof.
  intros HV. unfold is_checkpoint, py_mod.
  destruct (V =? 0) eqn:E0; [ apply Z.eqb_eq in E0; contradiction | ].
  reflexivity.
Qed.

(** One epoch appends one record, with the epoch index as its step, when
    the epoch is a checkpoint, and none otherwise. *)
Lemma epoch_body_history (E V : Z) u cbs (i : Z) st st' :
  V <> 0 ->
  epoch_body E V u cbs i st = (Ok tt, st') ->
  exists rs,
    history_of st' = add_records rs (history_of st) /\
    map record_step_of rs
    = if (i mod V =? 0) || (i + 1 =? E) then [i] else [].
Proof.
  intros HV H. unfold epoch_body in H. split_bind H. lifts.
  rewrite (is_checkpoint_ok E V i HV) in Hval. injection Hval as <-.
  destruct ((i mod V =? 0) || (i + 1 =? E)).
  - split_bind Hrun5. unfold record_step in Hrun7. split_bind Hrun7.
    injection Hrun8 as <- <-. injection Hrun7 as <-.
    frames history_of. subst st8.
    exists [(i, TrainState.loss_train (train_state (self st5)),
             TrainState.loss_test (train_state (self st5)),
             TrainState.metrics_test (train_state (self st5)))].
    split; [ | reflexivity ].
    rewrite H, Hrun6, Hrun5. unfold history_of in *. cbn. congruence.
  - injection Hrun5 as <-. frames history_of.
    exists []. split; [ | reflexivity ].
    simpl. congruence.
Qed.

Lemma for_each_epochs_history (E V : Z) u cbs (l : list Z) st st' :
  V <> 0 ->
  for_each l (epoch_body E V u cbs) st = (Ok tt, st') ->
  exists rs,
    history_of st' = add_records rs (history_of st) /\
    map record_step_of rs
    = filter (fun i => (i mod V =? 0) || (i + 1 =? E)) l.
Proof.
  intros HV. revert st. induction l as [ | i l IH]; intros st H; simpl in H.
  - injection H as <-. exists []. split; reflexivity.
  - split_bind H. destruct x.
    destruct (epoch_body_history E V u cbs i st st0 HV Hrun)
      as (rs1 & H1 & S1).
    destruct (IH st0 H) as (rs2 & H2 & S2).
    exists (rs1 ++ rs2). split.
    + rewrite add_records_app, <- H1. exact H2.
    + rewrite map_app, S1, S2. simpl.
      destruct ((i mod V =? 0) || (i + 1 =? E)); reflexivity.
Qed.

Lemma train_sgd_history (E V : Z) u errstop cbs st st' :
  V <> 0 ->
  train_sgd E V u errstop cbs st = (Ok tt, st') ->
  exists rs,
    history_of st' = add_records rs (history_of st) /\
    map record_step_of rs = checkpoints E V.
Proof.
  intros HV H. unfold train_sgd in H. split_bind H.
  destruct x1.
  destruct (for_each_epochs_history E V u _ _ _ _ HV Hrun1)
    as (rs & H1 & S1).
  frames history_of.
  exists rs. split; [ | exact S1 ].
  rewrite H, H1. congruence.
Qed.

(** A run of [train] that returns, taken apart. *)
Lemma train_ok (E V : Z) u errstop cbs pm st h ts st' :
  train E V u errstop cbs pm st = (Ok (h, ts), st') ->
  exists s0 s1 s2 s3 s4 s5,
    emit (EvPrint "Training model..." None) st = (Ok tt, s0) /\
    open_tfsession s0 = (Ok tt, s1) /\
    sess_run_init s1 = (Ok tt, s2) /\
    (if pm then print_model else ret tt) s2 = (Ok tt, s3) /\
    (if uses_scipy (self s3) then train_scipy u
     else train_sgd E V u errstop cbs) s3 = (Ok tt, s4) /\
    (if pm then print_model else ret tt) s4 = (Ok tt, s5) /\
    close_tfsession s5 = (Ok tt, st') /\
    h = losshistory (self st') /\
    ts = train_state (self st').
Proof.
  intros H. unfold train in H. split_bind H. lifts.
  injection Hret as -> ->.
  destruct x, x0, x1, x2, x4, x5, x6.
  exists st0, st1, st2, st3, st5, st6. repeat split; assumption.
Qed.

(** The steps of [train] before the dispatch leave [self.optimizer], and
    with it the choice of the path, as they were. *)
Lemma train_setup_optimizer (pm : bool) (st s0 s1 s2 s3 : State) :
  emit (EvPrint "Training model..." None) st = (Ok tt, s0) ->
  open_tfsession s0 = (Ok tt, s1) ->
  sess_run_init s1 = (Ok tt, s2) ->
  (if pm then print_model else ret tt) s2 = (Ok tt, s3) ->
  uses_scipy (self s3) = uses_scipy (self st).
Proof.
  intros R0 R1 R2 R3. frames optimizer_of.
  assert (H : optimizer (self s3) = optimizer (self st))
    by (unfold optimizer_of in *; congruence).
  unfold uses_scipy. rewrite H. reflexivity.
Qed.

(** What [train] does to the history on the gradient-based path. *)
Lemma train_history (E V : Z) u errstop cbs pm st h ts st' :
  V <> 0 ->
  uses_scipy (self st) = false ->
  train E V u errstop cbs pm st = (Ok (h, ts), st') ->
  exists rs,
    h = add_records rs (history_of st) /\
    history_of st' = h /\
    map record_step_of rs = checkpoints E V.
Proof.
  intros HV Hopt H.
  destruct (train_ok _ _ _ _ _ _ _ _ _ _ H)
    as (s0 & s1 & s2 & s3 & s4 & s5 & R0 & R1 & R2 & R3 & R4 & R5 & R6
        & -> & ->).
  pose proof (train_setup_optimizer _ _ _ _ _ _ R0 R1 R2 R3) as Hs.
  rewrite Hs, Hopt in R4.
  destruct (train_sgd_history _ _ _ _ _ _ _ HV R4) as (rs & H1 & S1).
  frames history_of.
  exists rs. unfold history_of in *. repeat split; congruence.
Qed.

End SgdRecords.

(** A run that returns is the pair of what it returned and its last
    state. *)
Lemma returned_ok {C : Collab} {X : Type}
    (r : Result (LossHistory.t ndarray * TrainState.t ndarray) * X) :
  is_ok (fst r) = true ->
  r = (Ok (fst (Demo.returned r), snd (Demo.returned r)), snd r).
Proof.
  destruct r as [[[h ts] | e] x]; simpl; intros H;
    [ reflexivity | discriminate H ].
Qed.

(** C1.  On the gradient-based path, a run of [train] with [E >= 1] epochs
    and cadence [V >= 1] that returns has appended to the history exactly
    the records of the checkpoints: the multiples of [V] below [E - 1], in
    order, followed by the final epoch [E - 1].  Their number is
    [ceil(E / V)], plus one when [E - 1] is not a multiple of [V]; no step
    occurs twice; each of the four lists of the history has grown by that
    number.  For [E = 100] and [V = 10] the steps are 0, 10, ..., 90, 99. *)
Theorem train_sgd_record_count {C : Collab} (E V : Z) (uncertainty : bool)
    (errstop : option spec_float)
    (callbacks : option (list (Callback ndarray Ext))) (print_model : bool)
    (st st' : State) (h : LossHistory.t ndarray) (ts : TrainState.t ndarray) :
  1 <= E -> 1 <= V ->
  uses_scipy (self st) = false ->
  train E V uncertainty errstop callbacks print_model st = (Ok (h, ts), st') ->
  exists rs : list (record ndarray),
    h = add_records rs (losshistory (self st)) /\
    map record_step_of rs = checkpoints E V /\
    checkpoints E V
    = filter (fun i => i mod V =? 0) (range (E - 1)) ++ [E - 1] /\
    Z.of_nat (List.length rs)
    = ceil_div E V + (if (E - 1) mod V =? 0 then 0 else 1) /\
    NoDup (map record_step_of rs) /\
    (List.length (LossHistory.steps h)
     = List.length (LossHistory.steps (losshistory (self st)))
       + List.length rs /\
     List.length (LossHistory.loss_train h)
     = List.length (LossHistory.loss_train (losshistory (self st)))
       + List.length rs /\
     List.length (LossHistory.loss_test h)
     = List.length (LossHistory.loss_test (losshistory (self st)))
       + List.length rs /\
     List.length (LossHistory.metrics_test h)
     = List.length (LossHistory.metrics_test (losshistory (self st)))
       + List.length rs)%nat /\
    (E = 100 -> V = 10 ->
     map record_step_of rs = [0; 10; 20; 30; 40; 50; 60; 70; 80; 90; 99]).
Proof.
  intros HE HV Hopt Hrun.
  destruct (train_history E V _ _ _ _ _ _ _ _ ltac:(lia) Hopt Hrun)
    as (rs & Hh & _ & Hsteps).
  exists rs. split; [ exact Hh | ]. split; [ exact Hsteps | ].
  split; [ apply checkpoints_eq; assumption | ].
  split.
  { rewrite <- (length_map record_step_of), Hsteps.
    apply checkpoints_length; assumption. }
  split; [ rewrite Hsteps; apply checkpoints_NoDup | ].
  split.
  { subst h. exact (add_records_lengths rs (losshistory (self st))). }
  intros -> ->. rewrite Hsteps. reflexivity.
Qed.

(** [train(epochs=100, validation_every=10)] after [compile("adam", ...)]
    with the collaborators of [Demo]. *)
Lemma train_sgd_record_count_witness :
  exists rs : list (record Z),
    fst (Demo.returned Demo.adam_run)
    = add_records rs (losshistory (self (Demo.compiled "adam"))) /\
    map record_step_of rs = checkpoints 100 10 /\
    checkpoints 100 10
    = filter (fun i => i mod 10 =? 0) (range (100 - 1)) ++ [100 - 1] /\
    Z.of_nat (List.length rs)
    = ceil_div 100 10 + (if (100 - 1) mod 10 =? 0 then 0 else 1) /\
    NoDup (map record_step_of rs) /\
    (List.length (LossHistory.steps (fst (Demo.returned Demo.adam_run)))
     = List.length
         (LossHistory.steps (losshistory (self (Demo.compiled "adam"))))
       + List.length rs /\
     List.length (LossHistory.loss_train (fst (Demo.returned Demo.adam_run)))
     = List.length
         (LossHistory.loss_train (losshistory (self (Demo.compiled "adam"))))
       + List.length rs /\
     List.length (LossHistory.loss_test (fst (Demo.returned Demo.adam_run)))
     = List.length
         (LossHistory.loss_test (losshistory (self (Demo.compiled "adam"))))
       + List.length rs /\
     List.length
       (LossHistory.metrics_test (fst (Demo.returned Demo.adam_run)))
     = List.length
         (LossHistory.metrics_test
            (losshistory (self (Demo.compiled "adam"))))
       + List.length rs)%nat /\
    (100 = 100 -> 10 = 10 ->
     map record_step_of rs = [0; 10; 20; 30; 40; 50; 60; 70; 80; 90; 99]).
Proof.
  apply (train_sgd_record_count (C := Demo.collab) 100 10 false None None
           false (Demo.compiled "adam") (snd Demo.adam_run)
           (fst (Demo.returned Demo.adam_run))
           (snd (Demo.returned Demo.adam_run))).
  - lia.
  - lia.
  - reflexivity.
  - apply (returned_ok Demo.adam_run). vm_compute. reflexivity.
Defined.


(** ** The quasi-Newton path *)
Section ScipyPath.
Context {C : Collab}.

Lemma str_in_In (x : string) (l : list string) :
  In x l -> str_in x l = true.
Proof.
  intros H. unfold str_in. apply existsb_exists.
  exists x. split; [ exact H | apply String.eqb_refl ].
Qed.

Lemma draw_train_batch_log st st' :
  draw_train_batch st = (Ok tt, st') ->
  batches_of st' = batches_of st ++ [EvTrainNextBatch (batch_size (self st))].
Proof.
  intros H. unfold draw_train_batch in H. split_bind H. lifts.
  frames batches_of. emits.
  rewrite H, Hrun1. unfold batches_of. cbn.
  rewrite filter_app. reflexivity.
Qed.

Lemma test_log u st st' :
  test u st = (Ok tt, st') ->
  evaluations_of st' = evaluations_of st ++ [EvEvaluate u].
Proof.
  intros H. unfold test in H. split_bind H. lifts.
  frames evaluations_of. emits.
  rewrite H, Hrun0. unfold evaluations_of. cbn.
  rewrite filter_app. reflexivity.
Qed.

Lemma train_scipy_effect u st st' :
  train_scipy u st = (Ok tt, st') ->
  (exists r,
     history_of st' = add_records [r] (history_of st) /\
     record_step_of r = 1) /\
  batches_of st'
  = batches_of st ++ [EvTrainNextBatch (batch_size (self st))] /\
  evaluations_of st' = evaluations_of st ++ [EvEvaluate u].
Proof.
  intros H. unfold train_scipy in H. split_bind H.
  destruct x, x0, x1, x2, x3.
  repeat split.
  - unfold record_step in Hrun3. split_bind Hrun3. lifts. modifies.
    frames history_of.
    eexists (1, _, _, _). split; [ | reflexivity ].
    rewrite H. unfold history_of in *. cbn.
    match goal with
    | |- LossHistory.add _ _ _ _ (losshistory (self ?s)) = _ =>
        replace (losshistory (self s)) with (losshistory (self st))
          by congruence
    end.
    reflexivity.
  - apply draw_train_batch_log in Hrun. frames batches_of. congruence.
  - apply test_log in Hrun2. frames evaluations_of. congruence.
Qed.


Lemma train_scipy_run (E V : Z) u errstop cbs pm st h ts st' :
  uses_scipy (self st) = true ->
  train E V u errstop cbs pm st = (Ok (h, ts), st') ->
  (exists r,
     h = add_records [r] (history_of st) /\ record_step_of r = 1) /\
  batches_of st'
  = batches_of st ++ [EvTrainNextBatch (batch_size (self st))] /\
  evaluations_of st' = evaluations_of st ++ [EvEvaluate u].
Proof.
  intros Hopt H.
  destruct (train_ok _ _ _ _ _ _ _ _ _ _ H)
    as (s0 & s1 & s2 & s3 & s4 & s5 & R0 & R1 & R2 & R3 & R4 & R5 & R6
        & -> & ->).
  pose proof (train_setup_optimizer _ _ _ _ _ _ R0 R1 R2 R3) as Hs.
  rewrite Hs, Hopt in R4.
  destruct (train_scipy_effect _ _ _ R4) as ((r & Hr & Hstep) & Hb & He).
  assert (Hbs : batch_size (self s3) = batch_size (self st)).
  { pose proof R0 as Q0. pose proof R1 as Q1. pose proof R2 as Q2.
    pose proof R3 as Q3.
    frame (fun st => batch_size (self st)) Q0.
    frame (fun st => batch_size (self st)) Q1.
    frame (fun st => batch_size (self st)) Q2.
    frame (fun st => batch_size (self st)) Q3.
    cbn in Q0, Q1, Q2, Q3. congruence. }
  repeat split.
  - exists r. split; [ | exact Hstep ].
    frames history_of. unfold history_of in *. congruence.
  - frames batches_of. rewrite <- Hbs. congruence.
  - frames evaluations_of. congruence.
Qed.

End ScipyPath.

(** C6.  With any of the six quasi-Newton names as optimizer, a run of
    [train] that returns has drawn exactly one training minibatch, has run
    the evaluation exactly once, and has appended exactly one record, with
    step 1, to the history, whatever [epochs] and [validation_every] are. *)
Theorem train_scipy_single_record {C : Collab} (o : string) (E V : Z)
    (uncertainty : bool) (errstop : option spec_float)
    (callbacks : option (list (Callback ndarray Ext))) (print_model : bool)
    (st st' : State) (h : LossHistory.t ndarray) (ts : TrainState.t ndarray) :
  optimizer (self st) = Some o ->
  In o scipy_opts ->
  train E V uncertainty errstop callbacks print_model st = (Ok (h, ts), st') ->
  (exists r : record ndarray,
     h = add_records [r] (losshistory (self st)) /\
     record_step_of r = 1 /\
     LossHistory.steps h = LossHistory.steps (losshistory (self st)) ++ [1]) /\
  filter is_train_next_batch (log st')
  = filter is_train_next_batch (log st)
    ++ [EvTrainNextBatch (batch_size (self st))] /\
  filter is_evaluate (log st')
  = filter is_evaluate (log st) ++ [EvEvaluate uncertainty].
Proof.
  intros Ho Hin Hrun.
  assert (Hs : uses_scipy (self st) = true).
  { unfold uses_scipy. rewrite Ho. apply str_in_In. exact Hin. }
  destruct (train_scipy_run _ _ _ _ _ _ _ _ _ _ Hs Hrun)
    as ((r & Hr & Hstep) & Hb & He).
  split; [ | split; [ exact Hb | exact He ] ].
  exists r. split; [ exact Hr | ]. split; [ exact Hstep | ].
  rewrite Hr, add_records_steps. simpl. rewrite Hstep. reflexivity.
Qed.

(** [train(epochs=7, validation_every=3, uncertainty=True)] after
    [compile("L-BFGS-B", ...)] with the collaborators of [Demo]. *)
Lemma train_scipy_single_record_witness :
  (exists r : record Z,
     fst (Demo.returned Demo.lbfgs_run)
     = add_records [r] (losshistory (self (Demo.compiled "L-BFGS-B"))) /\
     record_step_of r = 1 /\
     LossHistory.steps (fst (Demo.returned Demo.lbfgs_run))
     = LossHistory.steps (losshistory (self (Demo.compiled "L-BFGS-B")))
       ++ [1]) /\
  filter is_train_next_batch (log (snd Demo.lbfgs_run))
  = filter is_train_next_batch (log (Demo.compiled "L-BFGS-B"))
    ++ [EvTrainNextBatch (batch_size (self (Demo.compiled "L-BFGS-B")))] /\
  filter is_evaluate (log (snd Demo.lbfgs_run))
  = filter is_evaluate (log (Demo.compiled "L-BFGS-B")) ++ [EvEvaluate true].
Proof.
  apply (train_scipy_single_record (C := Demo.collab) "L-BFGS-B" 7 3 true
           None None false (Demo.compiled "L-BFGS-B") (snd Demo.lbfgs_run)
           (fst (Demo.returned Demo.lbfgs_run))
           (snd (Demo.returned Demo.lbfgs_run))).
  - reflexivity.
  - simpl. tauto.
  - apply (returned_ok Demo.lbfgs_run). vm_compute. reflexivity.
Defined.

(** ** errstop *)
Section Errstop.
Context {C : Collab}.

Lemma sess_run_train_op_log st st' :
  sess_run_train_op st = (Ok tt, st') ->
  List.length (train_ops_of st') = S (List.length (train_ops_of st)).
Proof.
  intros H. unfold sess_run_train_op in H. split_bind H. lifts.
  destruct (sess (self st)) as [s | ]; [ | discriminate H ].
  split_bind H. lifts. frames train_ops_of. emits.
  rewrite H. unfold train_ops_of. cbn.
  rewrite filter_app, length_app. simpl. lia.
Qed.

Lemma epoch_body_train_ops (E V : Z) u cbs (i : Z) st st' :
  epoch_body E V u cbs i st = (Ok tt, st') ->
  List.length (train_ops_of st') = S (List.length (train_ops_of st)).
Proof.
  intros H. unfold epoch_body in H. split_bind H.
  destruct x2. apply sess_run_train_op_log in Hrun2.
  frames train_ops_of. congruence.
Qed.

Lemma for_each_epochs_train_ops (E V : Z) u cbs (l : list Z) st st' :
  for_each l (epoch_body E V u cbs) st = (Ok tt, st') ->
  List.length (train_ops_of st')
  = (List.length (train_ops_of st) + List.length l)%nat.
Proof.
  revert st. induction l as [ | i l IH]; intros st H; simpl in H.
  - injection H as <-. simpl. lia.
  - split_bind H. destruct x.
    apply epoch_body_train_ops in Hrun. apply IH in H.
    simpl. lia.
Qed.

Lemma range_length (n : Z) : List.length (range n) = Z.to_nat n.
Proof. unfold range. rewrite length_map, length_seq. reflexivity. Qed.

Lemma train_sgd_train_ops (E V : Z) u errstop cbs st st' :
  train_sgd E V u errstop cbs st = (Ok tt, st') ->
  List.length (train_ops_of st')
  = (List.length (train_ops_of st) + Z.to_nat E)%nat.
Proof.
  intros H. unfold train_sgd in H. split_bind H. destruct x1.
  apply for_each_epochs_train_ops in Hrun1. rewrite range_length in Hrun1.
  frames train_ops_of. congruence.
Qed.

Lemma train_train_ops (E V : Z) u errstop cbs pm st h ts st' :
  uses_scipy (self st) = false ->
  train E V u errstop cbs pm st = (Ok (h, ts), st') ->
  List.length (train_ops_of st')
  = (List.length (train_ops_of st) + Z.to_nat E)%nat.
Proof.
  intros Hopt H.
  destruct (train_ok _ _ _ _ _ _ _ _ _ _ H)
    as (s0 & s1 & s2 & s3 & s4 & s5 & R0 & R1 & R2 & R3 & R4 & R5 & R6
        & -> & ->).
  pose proof (train_setup_optimizer _ _ _ _ _ _ R0 R1 R2 R3) as Hs.
  rewrite Hs, Hopt in R4. apply train_sgd_train_ops in R4.
  frames train_ops_of. congruence.
Qed.

End Errstop.

(** C10.  [errstop] is inert: two calls of [train] that differ only in
    [errstop] do the same from the same state, with the same result or
    exception, the same history and train state, the same log.  No epoch is
    skipped: on the gradient-based path a run that returns has executed the
    optimizer update once per epoch, [epochs] times in all. *)
Theorem errstop_is_inert {C : Collab} (E V : Z) (uncertainty : bool)
    (errstop errstop' : option spec_float)
    (callbacks : option (list (Callback ndarray Ext))) (print_model : bool)
    (st : State) :
  train E V uncertainty errstop callbacks print_model st
  = train E V uncertainty errstop' callbacks print_model st /\
  (forall h ts st',
     uses_scipy (self st) = false ->
     train E V uncertainty errstop callbacks print_model st
     = (Ok (h, ts), st') ->
     List.length (filter is_run_train_op (log st'))
     = (List.length (filter is_run_train_op (log st)) + Z.to_nat E)%nat).
Proof.
  split.
  - reflexivity.
  - intros h ts st' Hopt Hrun.
    exact (train_train_ops _ _ _ _ _ _ _ _ _ _ Hopt Hrun).
Qed.

(** [train(epochs=100, validation_every=10)] after [compile("adam", ...)],
    once with [errstop=0.001] and once without. *)
Lemma errstop_is_inert_witness :
  Model.train (C := Demo.collab) 100 10 false (Some Demo.float_0_001) None
    false (Demo.compiled "adam")
  = Demo.adam_run /\
  List.length (filter is_run_train_op (log (snd Demo.adam_run)))
  = (List.length (filter is_run_train_op (log (Demo.compiled "adam")))
     + Z.to_nat 100)%nat.
Proof.
  destruct (errstop_is_inert (C := Demo.collab) 100 10 false
              (Some Demo.float_0_001) None None false (Demo.compiled "adam"))
    as [Hsame Hall].
  split; [ exact Hsame | ].
  apply (Hall (fst (Demo.returned Demo.adam_run))
              (snd (Demo.returned Demo.adam_run))).
  - reflexivity.
  - rewrite Hsame. apply (returned_ok Demo.adam_run). vm_compute. reflexivity.
Defined.

(** ** The session of a run *)
Section Sessions.
Context {C : Collab}.

Lemma open_tfsession_cases st :
  match open_tfsession st with
  | (Ok _, st') =>
      sessions_of st'
      = (created st :: open_sessions st, S (created st), Some (created st))
  | (Raise _, st') =>
      open_sessions st' = open_sessions st /\ created st' = created st
  end.
Proof.
  unfold open_tfsession, bind, new_session.
  destruct (tf_Session (ext st)) as [[x | e] e']; cbn.
  - reflexivity.
  - split; reflexivity.
Qed.

Lemma close_tfsession_run st s :
  sess (self st) = Some s ->
  exists st',
    close_tfsession st = (Ok tt, st') /\
    ~ In s (open_sessions st') /\
    created st' = created st /\
    sess (self st') = Some s.
Proof.
  intros Hs. unfold close_tfsession, bind, get_self. rewrite Hs.
  eexists. split; [ reflexivity | ]. cbn. repeat split; auto.
  rewrite filter_In, Nat.eqb_refl. intros [_ H]. discriminate H.
Qed.

End Sessions.

(** C4, as the code has it.  [train] closes the session it opened when it
    returns.  It has no cleanup construct: when an exception is raised after
    the session was opened, the exception reaches the caller with that
    session still open.  (When [tf.Session] itself raises, no session was
    opened.) *)
Theorem train_closes_session_on_return {C : Collab} (E V : Z)
    (uncertainty : bool) (errstop : option spec_float)
    (callbacks : option (list (Callback ndarray Ext))) (print_model : bool)
    (st : State) :
  match train E V uncertainty errstop callbacks print_model st with
  | (Ok _, st') =>
      created st' = S (created st) /\
      sess (self st') = Some (created st) /\
      ~ In (created st) (open_sessions st')
  | (Raise _, st') =>
      (created st' = created st /\ open_sessions st' = open_sessions st) \/
      (created st' = S (created st) /\
       sess (self st') = Some (created st) /\
       In (created st) (open_sessions st'))
  end.
Proof.
  unfold train.
  step_bind R0; [ | unfold emit in R0; discriminate R0 ].
  emits.
  step_bind R1;
    match type of R1 with
    | open_tfsession ?s = _ =>
        pose proof (open_tfsession_cases s) as Hg; rewrite R1 in Hg;
        cbn in Hg; clear R1
    end;
    [ | left; destruct Hg; split; assumption ].
  (* from here to [close_tfsession] nothing touches the sessions *)
  do 5 (step_bind R;
        (apply (preserves_run sessions_of) in R; [ | solve [ pres ] ]);
        rewrite Hg in R; clear Hg; rename R into Hg;
        [ | right; injection Hg as Ho Hc Hs; rewrite Ho, Hc, Hs;
            repeat split; left; reflexivity ]).
  assert (Hs : sess (self s5) = Some (created st))
    by (injection Hg as _ _ Hs; exact Hs).
  destruct (close_tfsession_run s5 _ Hs) as (s6 & Hclose & Hnot & Hc & Hs').
  step_bind R6; rewrite Hclose in R6; [ | discriminate R6 ].
  injection R6 as _ <-.
  unfold bind, get_self, ret.
  repeat split; try assumption.
  rewrite Hc. injection Hg as _ Hc' _. exact Hc'.
Qed.

(** ** The train state across a run *)
Section Progress.
Context {C : Collab}.

Lemma not_above_refl a : not_above a a.
Proof. left. reflexivity. Qed.

Lemma not_above_trans a b c : not_above a b -> not_above b c -> not_above a c.
Proof.
  intros [-> | H1] [-> | H2]; unfold not_above; auto.
  right. exact (SFltb_trans _ _ _ H1 H2).
Qed.

Lemma advanced_0 p p' : p' = p -> advanced 0 p p'.
Proof.
  intros ->. unfold advanced. repeat split; try lia. apply not_above_refl.
Qed.

Lemma advanced_trans n m p q r :
  advanced n p q -> advanced m q r -> advanced (n + m) p r.
Proof.
  intros (E1 & S1 & B1) (E2 & S2 & B2). unfold advanced.
  repeat split; try lia. exact (not_above_trans _ _ _ B2 B1).
Qed.

Lemma test_progress u st st' :
  test u st = (Ok tt, st') -> advanced 0 (progress_of st) (progress_of st').
Proof.
  intros H. unfold test in H. split_bind H. destruct x0 as [l y].
  split_bind H. lifts.
  unfold modify_self in H. injection H as <-.
  frames progress_of.
  assert (E : progress_of st6 = progress_of st) by congruence.
  apply update_best_inv in Hval. destruct Hval as (l' & _ & ->).
  unfold advanced, progress_of in *. cbn.
  injection E as E1 E2 E3.
  destruct (SFltb (np_sum l')
              (TrainState.best_loss_train (train_state (self st6))))
    eqn:Hlt; cbn; rewrite ?E1, ?E2.
  - repeat split; try lia. right. rewrite <- E3. exact Hlt.
  - repeat split; try lia. left. exact E3.
Qed.

Lemma epoch_body_progress (E V : Z) u (i : Z) st st' :
  epoch_body E V u [] i st = (Ok tt, st') ->
  advanced 1 (progress_of st) (progress_of st').
Proof.
  intros H. unfold epoch_body in H. split_bind H. lifts.
  assert (Hcp : advanced 0 (progress_of st4) (progress_of st6)).
  { destruct x4.
    - split_bind Hrun5. destruct x4. apply test_progress in Hrun4.
      frames progress_of. rewrite Hrun5, Hrun7. exact Hrun4.
    - lifts. apply advanced_0. reflexivity. }
  modifies. frames progress_of.
  rewrite H, Hrun6.
  assert (E3 : progress_of st3 = progress_of st) by congruence.
  rewrite <- E3.
  change 1 with (1 + 0). eapply advanced_trans; [ | exact Hcp ].
  unfold advanced, progress_of. cbn.
  repeat split; try reflexivity. apply not_above_refl.
Qed.

Lemma for_each_epochs_progress (E V : Z) u (l : list Z) st st' :
  for_each l (epoch_body E V u []) st = (Ok tt, st') ->
  advanced (Z.of_nat (List.length l)) (progress_of st) (progress_of st').
Proof.
  revert st. induction l as [ | i l IH]; intros st H; simpl in H.
  - lifts. apply advanced_0. reflexivity.
  - split_bind H. destruct x.
    apply epoch_body_progress in Hrun. apply IH in H.
    replace (Z.of_nat (List.length (i :: l)))
      with (1 + Z.of_nat (List.length l)) by (simpl List.length; lia).
    exact (advanced_trans _ _ _ _ _ Hrun H).
Qed.

Lemma train_sgd_progress (E V : Z) u errstop st st' :
  train_sgd E V u errstop None st = (Ok tt, st') ->
  advanced (Z.max 0 E) (progress_of st) (progress_of st').
Proof.
  intros H. unfold train_sgd, CallbackList in H. split_bind H.
  destruct x1. apply for_each_epochs_progress in Hrun1.
  rewrite range_length in Hrun1.
  replace (Z.of_nat (Z.to_nat E)) with (Z.max 0 E) in Hrun1 by lia.
  frames progress_of. rewrite H. rewrite <- Hrun, <- Hrun0. exact Hrun1.
Qed.

Lemma train_scipy_progress u st st' :
  train_scipy u st = (Ok tt, st') ->
  advanced 0 (progress_of st) (progress_of st').
Proof.
  intros H. unfold train_scipy in H. split_bind H.
  destruct x2. apply test_progress in Hrun2.
  frames progress_of. rewrite H, Hrun3. rewrite <- Hrun, <- Hrun0, <- Hrun1.
  exact Hrun2.
Qed.

Lemma train_progress (E V : Z) u errstop pm st h ts st' :
  train E V u errstop None pm st = (Ok (h, ts), st') ->
  ts = train_state (self st') /\
  advanced (if uses_scipy (self st) then 0 else Z.max 0 E)
    (progress_of st) (progress_of st').
Proof.
  intros H.
  destruct (train_ok _ _ _ _ _ _ _ _ _ _ H)
    as (s0 & s1 & s2 & s3 & s4 & s5 & R0 & R1 & R2 & R3 & R4 & R5 & R6
        & -> & ->).
  split; [ reflexivity | ].
  rewrite <- (train_setup_optimizer _ _ _ _ _ _ R0 R1 R2 R3).
  assert (Hmid : advanced (if uses_scipy (self s3) then 0 else Z.max 0 E)
                   (progress_of s3) (progress_of s4)).
  { destruct (uses_scipy (self s3)).
    - apply train_scipy_progress in R4. exact R4.
    - apply train_sgd_progress in R4. exact R4. }
  frames progress_of.
  rewrite R6, R5. rewrite <- R0, <- R1, <- R2, <- R3. exact Hmid.
Qed.

End Progress.

(** ** Nothing is reset *)
Section ResetsNothing.
Context {C : Collab}.

Lemma stays_set_refl {X} (a : option X) : stays_set a a.
Proof. intros H. exact H. Qed.

Lemma stays_set_trans {X} (a b c : option X) :
  stays_set a b -> stays_set b c -> stays_set a c.
Proof. unfold stays_set. auto. Qed.

Lemma stays_set_Some {X} (a : option X) (x : X) : stays_set a (Some x).
Proof. intros _ H. discriminate H. Qed.

Lemma carries_over_refl (ts : TrainState.t ndarray) : carries_over ts ts.
Proof.
  unfold carries_over.
  repeat split; try apply Z.le_refl; try apply stays_set_refl.
  left. reflexivity.
Qed.

Lemma carries_over_trans (a b c : TrainState.t ndarray) :
  carries_over a b -> carries_over b c -> carries_over a c.
Proof.
  unfold carries_over.
  intros (E1 & S1 & B1 & F1) (E2 & S2 & B2 & F2).
  split; [ lia | ]. split; [ lia | ]. split.
  - destruct B1 as [B1 | B1]; destruct B2 as [B2 | B2].
    + left. congruence.
    + right. rewrite <- (best_loss_train_of_best _ _ B1). exact B2.
    + right. rewrite (best_loss_train_of_best _ _ B2). exact B1.
    + right. exact (SFltb_trans _ _ _ B2 B1).
  - repeat match goal with
           | H : _ /\ _ |- _ => destruct H
           end.
    repeat split; eapply stays_set_trans; eassumption.
Qed.

Lemma resets_nothing_preserves {X} (m : M X) :
  preserves (fun st => train_state (self st)) m -> resets_nothing m.
Proof. intros H st. rewrite (H st). apply carries_over_refl. Qed.

Lemma resets_nothing_bind {X Y} (m : M X) (k : X -> M Y) :
  resets_nothing m -> (forall x, resets_nothing (k x)) ->
  resets_nothing (bind m k).
Proof.
  intros Hm Hk st. unfold bind. specialize (Hm st).
  destruct (m st) as [[x | e] st1]; cbn [snd] in *.
  - exact (carries_over_trans _ _ _ Hm (Hk x st1)).
  - exact Hm.
Qed.

Lemma resets_nothing_for_each {X} (l : list X) (body : X -> M unit) :
  (forall x, resets_nothing (body x)) -> resets_nothing (for_each l body).
Proof.
  intros H. induction l as [ | x l IH]; cbn [for_each].
  - apply resets_nothing_preserves. apply preserves_ret.
  - apply resets_nothing_bind; [ apply H | intros _; exact IH ].
Qed.

Lemma resets_nothing_modify_train_state
    (f : TrainState.t ndarray -> TrainState.t ndarray) :
  (forall ts, carries_over ts (f ts)) ->
  resets_nothing (modify_train_state f).
Proof. intros H st. apply H. Qed.

(** [self.train_state.update_best()] at the end of [test]. *)
Lemma resets_nothing_update_best :
  resets_nothing
    (bind get_self
       (fun m =>
          bind (lift (TrainState.update_best np_sum (train_state m)))
            (fun ts => modify_self (set_train_state ts)))).
Proof.
  intros st. unfold bind, get_self, lift, modify_self. cbn [fst snd].
  destruct (TrainState.update_best np_sum (train_state (self st)))
    as [ts | e] eqn:Hup; cbn [snd self train_state set_train_state];
    [ | apply carries_over_refl ].
  apply update_best_inv in Hup. destruct Hup as (l & Hl & ->).
  destruct (SFltb (np_sum l)
              (TrainState.best_loss_train (train_state (self st)))) eqn:Hlt;
    [ | apply carries_over_refl ].
  unfold carries_over. cbn.
  repeat split; try apply Z.le_refl; try apply stays_set_refl.
  right. exact Hlt.
Qed.

End ResetsNothing.

(** [keeps] proves [resets_nothing m] by following the structure of [m]
    down to the parts that leave the train state alone and to its
    assignments. *)
Ltac keeps_side :=
  intros; unfold carries_over;
  cbn [TrainState.epoch TrainState.step TrainState.sess
       TrainState.X_train TrainState.y_train
       TrainState.X_test TrainState.y_test
       TrainState.y_pred_train TrainState.loss_train TrainState.loss_test
       TrainState.y_pred_test TrainState.y_std_test TrainState.metrics_test
       TrainState.best TrainState.best_loss_train TrainState.best_loss_test
       TrainState.best_y TrainState.best_ystd TrainState.best_metrics
       TrainState.update_tfsession TrainState.update_data_train
       TrainState.update_data_test TrainState.tick
       TrainState.set_train_results TrainState.set_test_results
       TrainState.set_y_std_test TrainState.set_metrics_test];
  repeat split;
  first [ apply stays_set_refl | apply stays_set_Some | apply Z.le_refl
        | left; reflexivity | lia ].

Ltac keeps :=
  lazymatch goal with
  | |- resets_nothing (bind get_self _) =>
      first [ exact resets_nothing_update_best
            | apply resets_nothing_bind; [ keeps | intros; keeps ] ]
  | |- resets_nothing (bind _ _) =>
      apply resets_nothing_bind; [ keeps | intros; keeps ]
  | |- resets_nothing (modify_train_state _) =>
      apply resets_nothing_modify_train_state; keeps_side
  | |- resets_nothing (for_each (_ :: _) _) =>
      apply resets_nothing_for_each; intros; keeps
  | |- resets_nothing (for_each (range _) _) =>
      apply resets_nothing_for_each; intros; keeps
  | |- resets_nothing (match ?x with _ => _ end) => destruct x; keeps
  | |- resets_nothing open_tfsession => unfold open_tfsession; keeps
  | |- resets_nothing draw_test => unfold draw_test; keeps
  | |- resets_nothing draw_train_batch => unfold draw_train_batch; keeps
  | |- resets_nothing (test _) => unfold test; keeps
  | |- resets_nothing (epoch_body _ _ _ _ _) => unfold epoch_body; keeps
  | |- resets_nothing (train_scipy _) => unfold train_scipy; keeps
  | |- resets_nothing _ => apply resets_nothing_preserves; solve [ pres ]
  end.

Section TrainResetsNothing.
Context {C : Collab}.

Lemma train_resets_nothing (E V : Z) (u : bool)
    (errstop : option spec_float) (pm : bool) :
  resets_nothing (train E V u errstop None pm).
Proof.
  unfold train, train_sgd. cbn [CallbackList]. keeps.
Qed.

End TrainResetsNothing.

(** C5, as the code has it.  A [TrainState] is constructed by
    [Model.__init__], once per model, with [epoch = step = 0] and both best
    losses [inf]; [train] constructs none and resets nothing.  With no
    callbacks, a call of [train] that returns has added to [epoch] and to
    [step] of the train state it found the number of epochs it ran
    ([epochs] on the gradient-based path, none on the quasi-Newton path);
    the five best results are the ones it found, unless an evaluation of
    this call had a train loss below the best it found, and then
    [best_loss_train] is below the one it found; every other attribute of
    the train state that was set when the call began is still set. *)
Theorem train_continues_train_state {C : Collab} (n : Net) (E V : Z)
    (uncertainty : bool) (errstop : option spec_float) (print_model : bool)
    (st st' : State) (h : LossHistory.t ndarray) (ts : TrainState.t ndarray) :
  train E V uncertainty errstop None print_model st = (Ok (h, ts), st') ->
  (TrainState.epoch (train_state (init n)) = 0 /\
   TrainState.step (train_state (init n)) = 0 /\
   TrainState.best_loss_train (train_state (init n)) = np_inf /\
   TrainState.best_loss_test (train_state (init n)) = Some np_inf) /\
  ts = train_state (self st') /\
  TrainState.epoch ts
  = TrainState.epoch (train_state (self st))
    + (if uses_scipy (self st) then 0 else Z.max 0 E) /\
  TrainState.step ts
  = TrainState.step (train_state (self st))
    + (if uses_scipy (self st) then 0 else Z.max 0 E) /\
  not_above (TrainState.best_loss_train ts)
    (TrainState.best_loss_train (train_state (self st))) /\
  carries_over (train_state (self st)) ts.
Proof.
  intros Hrun.
  split; [ repeat split; reflexivity | ].
  destruct (train_progress _ _ _ _ _ _ _ _ _ Hrun) as (-> & He & Hs & Hb).
  split; [ reflexivity | ].
  split; [ exact He | ]. split; [ exact Hs | ]. split; [ exact Hb | ].
  pose proof (train_resets_nothing E V uncertainty errstop print_model st)
    as Hc.
  rewrite Hrun in Hc. exact Hc.
Qed.

(** The second of two calls of [train(epochs=1, validation_every=1)]. *)
Lemma train_continues_train_state_witness :
  (TrainState.epoch
     (train_state (init (C := Demo.rising) (mkNet SingleTarget false))) = 0 /\
   TrainState.step
     (train_state (init (C := Demo.rising) (mkNet SingleTarget false))) = 0 /\
   TrainState.best_loss_train
     (train_state (init (C := Demo.rising) (mkNet SingleTarget false)))
   = np_inf /\
   TrainState.best_loss_test
     (train_state (init (C := Demo.rising) (mkNet SingleTarget false)))
   = Some np_inf) /\
  snd (Demo.returned Demo.second_run)
  = train_state (self (snd Demo.second_run)) /\
  TrainState.epoch (snd (Demo.returned Demo.second_run))
  = TrainState.epoch (train_state (self (snd Demo.first_run)))
    + (if uses_scipy (self (snd Demo.first_run)) then 0 else Z.max 0 1) /\
  TrainState.step (snd (Demo.returned Demo.second_run))
  = TrainState.step (train_state (self (snd Demo.first_run)))
    + (if uses_scipy (self (snd Demo.first_run)) then 0 else Z.max 0 1) /\
  not_above
    (TrainState.best_loss_train (snd (Demo.returned Demo.second_run)))
    (TrainState.best_loss_train (train_state (self (snd Demo.first_run)))) /\
  carries_over (train_state (self (snd Demo.first_run)))
    (snd (Demo.returned Demo.second_run)).
Proof.
  apply (train_continues_train_state (C := Demo.rising)
           (mkNet SingleTarget false) 1 1 false None false
           (snd Demo.first_run) (snd Demo.second_run)
           (fst (Demo.returned Demo.second_run))
           (snd (Demo.returned Demo.second_run))).
  apply (returned_ok Demo.second_run). vm_compute. reflexivity.
Defined.

(** C5 as stated fails: the second call of [train] on a model starts with
    the counters at 1 and the best train loss of the first call, not with 0
    and [inf]; it ends with the counters at 2 and with the best train loss
    still that of the first call, although every train loss of the second
    call is higher. *)
Lemma second_train_call_carries_over :
  is_ok (fst Demo.first_run) = true /\
  TrainState.epoch (train_state (self (snd Demo.first_run))) = 1 /\
  TrainState.step (train_state (self (snd Demo.first_run))) = 1 /\
  TrainState.best_loss_train (train_state (self (snd Demo.first_run)))
  = Demo.Z2float 6 /\
  is_ok (fst Demo.second_run) = true /\
  TrainState.epoch (snd (Demo.returned Demo.second_run)) = 2 /\
  TrainState.step (snd (Demo.returned Demo.second_run)) = 2 /\
  TrainState.best_loss_train (snd (Demo.returned Demo.second_run))
  = Demo.Z2float 6 /\
  LossHistory.loss_train (fst (Demo.returned Demo.second_run))
  = [Some 6; Some 13].
Proof. vm_compute. repeat split; reflexivity. Qed.

(** C4 as stated fails: [train(epochs=1, validation_every=0)] raises
    [ZeroDivisionError] in the first epoch, and the session it opened,
    session 0, is still open when the exception reaches the caller:
    [close] was never called. *)
Lemma train_raises_with_session_open :
  fst Demo.zero_cadence_run = Raise ZeroDivisionError /\
  open_sessions (Demo.compiled "adam") = [] /\
  created (Demo.compiled "adam") = 0%nat /\
  open_sessions (snd Demo.zero_cadence_run) = [0%nat] /\
  filter is_session_close (log (snd Demo.zero_cadence_run)) = [].
Proof. vm_compute. repeat split; reflexivity. Qed.

(** ** compile *)
Section Compile.
Context {C : Collab}.

Lemma str_in_not_In (x : string) (l : list string) :
  ~ In x l -> str_in x l = false.
Proof.
  intros H. unfold str_in.
  destruct (existsb (String.eqb x) l) eqn:E; [ | reflexivity ].
  apply existsb_exists in E. destruct E as (y & Hy & Heq).
  apply String.eqb_eq in Heq. subst y. contradiction.
Qed.

Lemma dict_get_unknown {V} (d : list (string * V)) (key : string) :
  ~ In key (map fst d) -> dict_get d key = Raise (KeyError key).
Proof.
  induction d as [ | [k v] d IH]; simpl; intros H.
  - reflexivity.
  - destruct (String.eqb_spec k key) as [-> | Hne].
    + exfalso. apply H. left. reflexivity.
    + apply IH. intros Hin. apply H. right. exact Hin.
Qed.

Lemma dict_get_known {V} (d : list (string * V)) (key : string) :
  In key (map fst d) -> exists v, dict_get d key = Ok v.
Proof.
  induction d as [ | [k v] d IH]; simpl; intros H.
  - contradiction.
  - destruct (String.eqb_spec k key) as [-> | Hne].
    + exists v. reflexivity.
    + apply IH. destruct H as [H | H]; [ contradiction | exact H ].
Qed.

Lemma get_optimizer_unknown (name : string) (lr : LearningRate) :
  ~ In name gradient_opts -> get_optimizer name lr = Raise (KeyError name).
Proof. intros H. unfold get_optimizer. apply dict_get_unknown. exact H. Qed.

Lemma get_learningrate_ok (lr : spec_float) (decay : option Decay) st :
  (forall d, decay = Some d -> In (decay_kind d) ["inverse time"; "cosine"]) ->
  exists rate gs evs,
    get_learningrate lr decay st
    = (Ok (rate, gs),
       mkState (self st) (ext st) (open_sessions st) (created st)
         (log st ++ evs)).
Proof.
  intros Hd. unfold get_learningrate. destruct decay as [d | ].
  - destruct (dict_get_known
                [ ("inverse time",
                   InverseTimeDecay lr (decay_steps d) (decay_rate d));
                  ("cosine", CosineDecay lr (decay_steps d) (decay_rate d)) ]
                (decay_kind d) (Hd d eq_refl)) as (r & Hr).
    exists r, true,
      [EvGraph "tf.Variable"; EvGraph "tf.train.inverse_time_decay";
       EvGraph "tf.train.cosine_decay"].
    unfold bind, emit, lift, ret. cbn -[dict_get]. rewrite Hr.
    rewrite <- !app_assoc. reflexivity.
  - exists (ConstantRate lr), false, []. unfold ret.
    rewrite app_nil_r. destruct st; reflexivity.
Qed.

End Compile.

(** C3, as the code has it.  With an optimizer name that is neither one of
    the six quasi-Newton names nor one of the six names [get_optimizer]
    knows, [compile] raises [KeyError] for that name.  It does so before
    [self.train_op] and [self.metrics] are assigned and before any session
    exists, but after [self.optimizer], [batch_size] and [ntest] have been
    assigned and after the loss graph of this call has been built: the
    data provider was asked for its losses during the call, [self.losses]
    are the losses it returned, followed by the regularization loss when
    the network has a regularizer and scaled by [loss_weights] when given,
    [self.totalloss] is their sum, and the weights of the history are
    [loss_weights] when given.  (The data provider is assumed to return
    its losses, and the decay kind, if any, to be a known one; either would
    raise first.) *)
Theorem compile_unknown_optimizer {C : Collab} (opt : string)
    (lr : spec_float) (bs nt : Z) (loss : string)
    (mets : option (list (metric_id ndarray))) (decay : option Decay)
    (loss_weights : option ndarray) (st : State) :
  ~ In opt scipy_opts ->
  ~ In opt gradient_opts ->
  is_ok (fst (data_losses loss (ext st))) = true ->
  (forall d, decay = Some d -> In (decay_kind d) ["inverse time"; "cosine"]) ->
  exists st' ls evs,
    compile opt lr bs nt loss mets decay loss_weights st
    = (Raise (KeyError opt), st') /\
    train_op (self st') = train_op (self st) /\
    metrics (self st') = metrics (self st) /\
    sess (self st') = sess (self st) /\
    open_sessions st' = open_sessions st /\
    created st' = created st /\
    net (self st') = net (self st) /\
    optimizer (self st') = Some opt /\
    batch_size (self st') = Some bs /\
    ntest (self st') = Some nt /\
    data_losses loss (ext st) = (Ok ls, ext st') /\
    log st' = log st ++ evs /\
    In (EvDataLosses loss) evs /\
    In (EvGraph "tf.reduce_sum") evs /\
    (regularizer (net (self st)) = true ->
     In (EvGraph "tf.losses.get_regularization_loss") evs) /\
    losses (self st')
    = Some (mkLosses
              (if regularizer (net (self st))
               then map DataLoss ls ++ [RegularizationLoss]
               else map DataLoss ls)
              loss_weights) /\
    totalloss (self st')
    = Some (ReduceSum
              (mkLosses
                 (if regularizer (net (self st))
                  then map DataLoss ls ++ [RegularizationLoss]
                  else map DataLoss ls)
                 loss_weights)) /\
    LossHistory.loss_weights (losshistory (self st'))
    = match loss_weights with
      | Some w => LossHistory.Weights w
      | None => LossHistory.loss_weights (losshistory (self st))
      end.
Proof.
  intros Hscipy Hgrad Hdata Hdecay.
  destruct (data_losses loss (ext st)) as [[ls | e] e'] eqn:Hls;
    [ clear Hdata | discriminate Hdata ].
  unfold compile, bind, emit, modify_self, modify_losshistory, call,
    get_self, ret.
  cbn -[get_learningrate str_in get_optimizer]. rewrite Hls.
  cbn -[get_learningrate str_in get_optimizer].
  destruct (regularizer (net (self st))) eqn:Hreg;
    destruct loss_weights as [w | ];
    cbn -[get_learningrate str_in get_optimizer];
    match goal with
    | |- context [get_learningrate lr decay ?s] =>
        destruct (get_learningrate_ok lr decay s Hdecay)
          as (rate & gs & evs & Hlr);
        rewrite Hlr
    end;
    rewrite (str_in_not_In _ _ Hscipy);
    unfold lift; rewrite (get_optimizer_unknown opt rate Hgrad);
    cbn -[get_learningrate str_in get_optimizer].
  all: eexists; exists ls; eexists; (split; [ reflexivity | ]); cbn.
  all: repeat match goal with |- _ /\ _ => split end; try reflexivity.
  all: try (rewrite <- !app_assoc; reflexivity).
  all: try (intros Habs; discriminate Habs).
  all: try (intros _).
  all: cbn; rewrite ?in_app_iff; simpl; tauto.
Qed.

(** [compile("made-up", ...)] on a new model. *)
Lemma compile_unknown_optimizer_witness :
  exists st',
    Demo.made_up_compile = (Raise (KeyError "made-up"), st') /\
    train_op (self st') = None /\
    metrics (self st') = None /\
    sess (self st') = None /\
    open_sessions st' = [] /\
    created st' = 0%nat /\
    optimizer (self st') = Some "made-up" /\
    batch_size (self st') = Some 16 /\
    ntest (self st') = Some 100 /\
    losses (self st') = Some (mkLosses [DataLoss "MSE"] None) /\
    totalloss (self st')
    = Some (ReduceSum (mkLosses [DataLoss "MSE"] None)).
Proof.
  destruct (compile_unknown_optimizer (C := Demo.collab) "made-up"
              Demo.float_0_001 16 100 "MSE" (Some [MetricName "MSE"]) None
              None (Demo.start Demo.collab 0%nat (mkNet SingleTarget false)))
    as (st' & ls & evs & Hrun & Ht & Hm & Hs & Ho & Hc & _ & Hopt & Hb & Hn
        & Hls & _ & _ & _ & _ & Hl & Htot & _).
  - simpl. intuition discriminate.
  - simpl. intuition discriminate.
  - reflexivity.
  - intros d H. discriminate H.
  - injection Hls as <- _.
    exists st'. repeat split; assumption.
Defined.

(** C3 as stated fails: [compile("made-up", ...)] raises [KeyError], but
    only after the losses of the data provider have been requested and
    stacked and their sum built; [self.losses] and [self.totalloss] hold the
    new graph when the exception reaches the caller. *)
Lemma compile_unknown_builds_losses_first :
  fst Demo.made_up_compile = Raise (KeyError "made-up") /\
  log (snd Demo.made_up_compile)
  = [ EvPrint "Compiling model..." None; EvDataLosses "MSE";
      EvGraph "tf.convert_to_tensor"; EvGraph "tf.reduce_sum";
      EvGraph "tf.get_collection"; EvGraph "tf.control_dependencies" ] /\
  losses (self (snd Demo.made_up_compile))
  = Some (mkLosses [DataLoss "MSE"] None) /\
  totalloss (self (snd Demo.made_up_compile))
  = Some (ReduceSum (mkLosses [DataLoss "MSE"] None)).
Proof. vm_compute. repeat split; reflexivity. Qed.

(** ** The metrics of an evaluation *)
Section Comprehensions.
Context {X Y : Type}.

Lemma comprehension_ok (f : X -> Result Y) (l : list X) (ys : list Y) :
  comprehension f l = Ok ys ->
  List.length ys = List.length l /\
  forall i x, nth_error l i = Some x ->
    exists y, f x = Ok y /\ nth_error ys i = Some y.
Proof.
  revert ys. induction l as [ | x0 l IH]; simpl; intros ys H.
  - injection H as <-. split; [ reflexivity | ].
    intros [ | i] x Hx; discriminate Hx.
  - destruct (f x0) as [y0 | e] eqn:E0; [ | discriminate H ].
    destruct (comprehension f l) as [ys0 | e]; [ | discriminate H ].
    injection H as <-. destruct (IH ys0 eq_refl) as [Hlen Hnth].
    split; [ simpl; rewrite Hlen; reflexivity | ].
    intros [ | i] x Hx; simpl in Hx.
    + injection Hx as <-. exists y0. split; [ exact E0 | reflexivity ].
    + exact (Hnth i x Hx).
Qed.

End Comprehensions.

Section NestedRange.
Context {F : Type}.

Lemma nested_range_length (ms : list F) (k : nat) :
  List.length (nested_range ms k) = (List.length ms * k)%nat.
Proof.
  unfold nested_range. induction ms as [ | f ms IH]; simpl.
  - reflexivity.
  - rewrite length_app, length_map, length_seq, IH. reflexivity.
Qed.

Lemma nested_range_nth (ms : list F) (k a b : nat) (f : F) :
  nth_error ms a = Some f -> (b < k)%nat ->
  nth_error (nested_range ms k) (a * k + b) = Some (f, b).
Proof.
  unfold nested_range. revert a.
  induction ms as [ | f0 ms IH]; intros a Ha Hb.
  - destruct a; discriminate Ha.
  - simpl. destruct a as [ | a]; simpl in Ha.
    + injection Ha as ->. simpl.
      rewrite nth_error_app1 by (rewrite length_map, length_seq; exact Hb).
      rewrite nth_error_map, nth_error_seq.
      destruct (Nat.ltb_spec b k) as [_ | Hge]; [ reflexivity | lia ].
    + rewrite nth_error_app2 by (rewrite length_map, length_seq; simpl; lia).
      rewrite length_map, length_seq.
      replace (S a * k + b - k)%nat with (a * k + b)%nat by (simpl; lia).
      exact (IH a Ha Hb).
Qed.

End NestedRange.

Section TestMetrics.
Context {C : Collab}.

(** An evaluation that returns has stored the metrics computed from the
    test targets and the test predictions that the train state holds when
    it returns. *)
Lemma test_metrics u st st' :
  test u st = (Ok tt, st') ->
  exists m ms,
    compute_metrics m = Ok ms /\
    TrainState.metrics_test (train_state (self st')) = Some ms /\
    metrics m = metrics (self st) /\
    net m = net (self st) /\
    TrainState.y_test (train_state m)
    = TrainState.y_test (train_state (self st')) /\
    TrainState.y_pred_test (train_state m)
    = TrainState.y_pred_test (train_state (self st')).
Proof.
  intros H. unfold test in H. split_bind H. destruct x0 as [l y].
  split_bind H. lifts.
  unfold modify_self in H. injection H as <-.
  modifies. frames metric_config_of.
  assert (Hcfg : metric_config_of st3 = metric_config_of st).
  { rewrite Hrun2. unfold metric_config_of in *. cbn. congruence. }
  unfold metric_config_of in Hcfg. injection Hcfg as Hm Hn.
  exists (self st3), x3. split; [ exact Hval0 | ].
  apply update_best_inv in Hval. destruct Hval as (l' & _ & ->).
  cbn.
  destruct (SFltb (np_sum l')
              (TrainState.best_loss_train (train_state (self st3))));
    cbn; repeat split; assumption || reflexivity.
Qed.

End TestMetrics.

(** C7.  After an evaluation that returns, with [m] metrics configured:
    for a network whose targets are a list of [k] outputs, [metrics_test]
    has [m * k] entries and the entry at [a * k + b] is metric [a] applied
    to output [b] of the test targets and of the test predictions (outer
    loop over the metrics, inner loop over the outputs); for a network with
    one target it has [m] entries and entry [a] is metric [a] applied to
    [(y_test, y_pred_test)]. *)
Theorem test_metrics_order {C : Collab} (uncertainty : bool)
    (st st' : State) (ms : list (metric_fn ndarray)) :
  test uncertainty st = (Ok tt, st') ->
  metrics (self st) = Some ms ->
  exists l,
    TrainState.metrics_test (train_state (self st')) = Some l /\
    match targets (net (self st)) with
    | MultiTarget k =>
        List.length l = (List.length ms * k)%nat /\
        forall a b f,
          nth_error ms a = Some f -> (b < k)%nat ->
          exists y_true y_pred ya yb,
            TrainState.y_test (train_state (self st')) = Some y_true /\
            TrainState.y_pred_test (train_state (self st')) = Some y_pred /\
            getitem y_true b = Some ya /\
            getitem y_pred b = Some yb /\
            nth_error l (a * k + b) = Some (f ya yb)
    | SingleTarget =>
        List.length l = List.length ms /\
        forall a f,
          nth_error ms a = Some f ->
          exists y_true y_pred,
            TrainState.y_test (train_state (self st')) = Some y_true /\
            TrainState.y_pred_test (train_state (self st')) = Some y_pred /\
            nth_error l a = Some (f y_true y_pred)
    end.
Proof.
  intros Hrun Hms.
  destruct (test_metrics _ _ _ Hrun)
    as (m & l & Hc & Hl & Hm & Hn & Hyt & Hyp).
  exists l. split; [ exact Hl | ].
  unfold compute_metrics in Hc. rewrite Hm, Hms, Hn, Hyt, Hyp in Hc.
  destruct (targets (net (self st))) as [ | k].
  - destruct (comprehension_ok _ _ _ Hc) as [Hlen Hnth].
    split; [ exact Hlen | ].
    intros a f Ha. destruct (Hnth a f Ha) as (v & Hv & Hla).
    unfold metric_on in Hv.
    destruct (TrainState.y_test (train_state (self st'))) as [yt | ];
      [ | discriminate Hv ].
    destruct (TrainState.y_pred_test (train_state (self st'))) as [yp | ];
      [ | discriminate Hv ].
    injection Hv as <-. exists yt, yp. repeat split. exact Hla.
  - destruct (comprehension_ok _ _ _ Hc) as [Hlen Hnth].
    split; [ rewrite Hlen; apply nested_range_length | ].
    intros a b f Ha Hb.
    destruct (Hnth _ _ (nested_range_nth ms k a b f Ha Hb))
      as (v & Hv & Hla).
    unfold metric_at in Hv. simpl in Hv.
    destruct (TrainState.y_test (train_state (self st'))) as [yt | ];
      [ | discriminate Hv ].
    destruct (getitem yt b) as [ya | ] eqn:Ea; [ | discriminate Hv ].
    destruct (TrainState.y_pred_test (train_state (self st'))) as [yp | ];
      [ | discriminate Hv ].
    destruct (getitem yp b) as [yb | ] eqn:Eb; [ | discriminate Hv ].
    injection Hv as <-. exists yt, yp, ya, yb.
    repeat split; assumption || reflexivity.
Qed.

Lemma run_ok_unit {C : Collab} (r : Result unit * State) :
  is_ok (fst r) = true -> r = (Ok tt, snd r).
Proof.
  destruct r as [[[] | e] st]; simpl; intros H;
    [ reflexivity | discriminate H ].
Qed.

(** An evaluation of a network with three outputs and two metrics: the six
    entries are the squared errors of the three outputs, then the three
    values of the second metric. *)
Lemma test_metrics_order_witness :
  (exists l,
     TrainState.metrics_test (train_state (self (snd Demo.evaluation3)))
     = Some l /\
     List.length l = (List.length [Demo.mse; Demo.zero_metric] * 3)%nat /\
     forall a b f,
       nth_error [Demo.mse; Demo.zero_metric] a = Some f -> (b < 3)%nat ->
       exists y_true y_pred ya yb,
         TrainState.y_test (train_state (self (snd Demo.evaluation3)))
         = Some y_true /\
         TrainState.y_pred_test (train_state (self (snd Demo.evaluation3)))
         = Some y_pred /\
         getitem (C := Demo.collab3) y_true b = Some ya /\
         getitem (C := Demo.collab3) y_pred b = Some yb /\
         nth_error l (a * 3 + b) = Some (f ya yb)) /\
  TrainState.metrics_test (train_state (self (snd Demo.evaluation3)))
  = Some [ Demo.Z2float 0; Demo.Z2float 1; Demo.Z2float 4;
           S754_zero false; S754_zero false; S754_zero false ].
Proof.
  split.
  - apply (test_metrics_order (C := Demo.collab3) false Demo.ready3
             (snd Demo.evaluation3) [Demo.mse; Demo.zero_metric]).
    + apply (run_ok_unit Demo.evaluation3). vm_compute. reflexivity.
    + vm_compute. reflexivity.
  - vm_compute. reflexivity.
Defined.

(** ** The Monte-Carlo dropout estimate *)
Section Uncertainty.
Context {C : Collab}.

Lemma call_ok {X} (f : Ext -> Result X * Ext) st x st' :
  call f st = (Ok x, st') ->
  exists e,
    f (ext st) = (Ok x, e) /\
    st' = mkState (self st) e (open_sessions st) (created st) (log st).
Proof.
  unfold call. destruct (f (ext st)) as [r e]. intros H.
  injection H as -> <-. exists e. split; reflexivity.
Qed.

(** One forward pass that returns: the session is [self.sess], the feed is
    the one [get_feed_dict] builds, and only the world outside the model
    and the log have changed. *)
Lemma sess_run_losses_outputs_ok training dropout data_id on_test st r st' :
  sess_run_losses_outputs training dropout data_id on_test st = (Ok r, st') ->
  exists s fd e,
    sess (self st) = Some s /\
    feed_of (self st) training dropout data_id on_test = Ok fd /\
    run_losses_outputs s (losses (self st)) fd (ext st) = (Ok r, e) /\
    st' = mkState (self st) e (open_sessions st) (created st)
            (log st ++ [EvRunLossesOutputs s fd]).
Proof.
  intros H. unfold sess_run_losses_outputs in H. split_bind H. lifts.
  destruct (sess (self st)) as [s | ]; [ | discriminate H ].
  split_bind H. lifts. emits.
  apply call_ok in H. destruct H as (e & He & ->).
  match goal with
  | Hfd : feed_of _ _ _ _ _ = Ok ?fd |- _ => exists s, fd, e
  end.
  repeat split; assumption.
Qed.

(** [n] forward passes in a row that all return. *)
Lemma collect_passes (n : nat) training dropout data_id on_test s fd :
  forall st xs st',
    sess (self st) = Some s ->
    feed_of (self st) training dropout data_id on_test = Ok fd ->
    collect n (sess_run_losses_outputs training dropout data_id on_test) st
    = (Ok xs, st') ->
    exists e,
      run_passes n (run_losses_outputs s (losses (self st)) fd) (ext st)
      = (Ok xs, e) /\
      st' = mkState (self st) e (open_sessions st) (created st)
              (log st ++ repeat (EvRunLossesOutputs s fd) n) /\
      List.length xs = n.
Proof.
  induction n as [ | n IH]; intros st xs st' Hs Hfd H; simpl in H.
  - lifts. exists (ext st). simpl. rewrite app_nil_r.
    repeat split. destruct st; reflexivity.
  - split_bind H. lifts.
    apply sess_run_losses_outputs_ok in Hrun.
    destruct Hrun as (s' & fd' & e1 & Hs' & Hfd' & Hcall & ->).
    rewrite Hs in Hs'. injection Hs' as <-.
    rewrite Hfd in Hfd'. injection Hfd' as <-.
    apply IH in Hrun0; [ | exact Hs | exact Hfd ].
    destruct Hrun0 as (e2 & Hpasses & -> & Hlen).
    cbn in Hpasses. exists e2. simpl. rewrite Hcall, Hpasses.
    repeat split.
    + cbn. rewrite <- app_assoc. reflexivity.
    + rewrite Hlen. reflexivity.
Qed.

Lemma get_feed_dict_fields (n : Net) training dropout data_id inputs tgts fd :
  get_feed_dict n training dropout data_id inputs tgts = Ok fd ->
  fd_training fd = training /\ fd_dropout fd = dropout /\
  fd_data_id fd = data_id /\ fd_inputs fd = inputs.
Proof.
  unfold get_feed_dict. destruct (targets n) as [ | k].
  - intros H. injection H as <-. repeat split.
  - destruct tgts as [v | ]; [ | discriminate ].
    intros H. injection H as <-. repeat split.
Qed.

(** The same for at least one pass: the session and the feed are those of
    the first pass. *)
Lemma collect_passes_S (n : nat) training dropout data_id on_test st xs st' :
  collect (S n) (sess_run_losses_outputs training dropout data_id on_test) st
  = (Ok xs, st') ->
  exists s fd e,
    sess (self st) = Some s /\
    feed_of (self st) training dropout data_id on_test = Ok fd /\
    run_passes (S n) (run_losses_outputs s (losses (self st)) fd) (ext st)
    = (Ok xs, e) /\
    st' = mkState (self st) e (open_sessions st) (created st)
            (log st ++ repeat (EvRunLossesOutputs s fd) (S n)) /\
    List.length xs = S n.
Proof.
  intros H. pose proof H as H1. simpl in H1. split_bind H1.
  apply sess_run_losses_outputs_ok in Hrun.
  destruct Hrun as (s & fd & e1 & Hs & Hfd & _ & _).
  destruct (collect_passes (S n) _ _ _ _ s fd st xs st' Hs Hfd H)
    as (e & Hp & Hst & Hlen).
  exists s, fd, e. repeat split; assumption.
Qed.

End Uncertainty.

(** [state_simpl] computes the fields of states and objects that are
    written out. *)
Ltac state_simpl :=
  cbn [self ext open_sessions created log
       net optimizer batch_size ntest losses totalloss train_op metrics sess
       train_state losshistory
       set_config set_losses set_totalloss set_train_op set_metrics set_sess
       set_train_state set_losshistory
       TrainState.epoch TrainState.step TrainState.sess
       TrainState.X_train TrainState.y_train
       TrainState.X_test TrainState.y_test
       TrainState.y_pred_train TrainState.loss_train TrainState.loss_test
       TrainState.y_pred_test TrainState.y_std_test TrainState.metrics_test
       TrainState.best_loss_train TrainState.best_loss_test
       TrainState.best_y TrainState.best_ystd TrainState.best_metrics
       TrainState.set_train_results TrainState.set_test_results
       TrainState.set_y_std_test TrainState.set_metrics_test
       TrainState.set_best] in *.

(** C8.  An evaluation with [uncertainty=True] that returns has made one
    forward pass over the training batch and then exactly 1000 forward
    passes over the test split, each in the session of the model with
    training mode off, dropout on and data id 1; [loss_test] and
    [y_pred_test] are [np.mean] over the 1000 results in order and
    [y_std_test] is [np.std] over the 1000 predictions.  The number of
    passes is the constant [uncertainty_samples]; [test] has no argument
    for it. *)
Theorem test_uncertainty_passes {C : Collab} (st st' : State) :
  test true st = (Ok tt, st') ->
  uncertainty_samples = 1000%nat /\
  exists s fd_train fd first e0 samples,
    sess (self st) = Some s /\
    feed_of (self st) false false 0 false = Ok fd_train /\
    run_losses_outputs s (losses (self st)) fd_train (ext st)
    = (Ok first, e0) /\
    get_feed_dict (net (self st)) false true 1
      (TrainState.X_test (train_state (self st)))
      (TrainState.y_test (train_state (self st))) = Ok fd /\
    (fd_training fd = false /\ fd_dropout fd = true /\ fd_data_id fd = 1 /\
     fd_inputs fd = TrainState.X_test (train_state (self st))) /\
    run_passes uncertainty_samples
      (run_losses_outputs s (losses (self st)) fd) e0
    = (Ok samples, ext st') /\
    List.length samples = uncertainty_samples /\
    log st'
    = log st ++ [EvEvaluate true; EvRunLossesOutputs s fd_train]
      ++ repeat (EvRunLossesOutputs s fd) uncertainty_samples /\
    TrainState.loss_test (train_state (self st'))
    = Some (np_mean (map (fun x => Arr (fst x)) samples)) /\
    TrainState.y_pred_test (train_state (self st'))
    = Some (Arr (np_mean (map snd samples))) /\
    TrainState.y_std_test (train_state (self st'))
    = Some (Arr (np_std (map snd samples))).
Proof.
  intros H. split; [ reflexivity | ].
  unfold test in H. split_bind H. destruct x0 as [l y].
  split_bind H. split_bind Hrun2. lifts.
  unfold modify_self in H. injection H as <-.
  modifies. emits.
  apply sess_run_losses_outputs_ok in Hrun0.
  destruct Hrun0 as (s & fd_train & e0 & Hs & Hfd_train & Hfirst & ->).
  state_simpl.
  change uncertainty_samples with (S (Nat.pred uncertainty_samples)) in Hrun8.
  apply collect_passes_S in Hrun8.
  destruct Hrun8 as (s' & fd & e1 & Hs' & Hfd & Hpasses & -> & Hlen).
  state_simpl.
  rewrite Hs in Hs'. injection Hs' as <-.
  unfold feed_of in Hfd. state_simpl.
  apply update_best_inv in Hval. destruct Hval as (l' & _ & ->).
  exists s, fd_train, fd, (l, y), e0, x7.
  split; [ exact Hs | ]. split; [ exact Hfd_train | ].
  split; [ exact Hfirst | ]. split; [ exact Hfd | ].
  split; [ exact (get_feed_dict_fields _ _ _ _ _ _ _ Hfd) | ].
  split; [ exact Hpasses | ]. split; [ exact Hlen | ].
  split; [ rewrite <- !app_assoc; reflexivity | ].
  match goal with
  | |- context [if ?b then _ else _] => destruct b
  end; state_simpl; repeat split; reflexivity.
Qed.

(** An evaluation with [uncertainty=True] with the collaborators of
    [Demo]. *)
Lemma test_uncertainty_passes_witness :
  uncertainty_samples = 1000%nat /\
  exists s fd_train fd first e0 samples,
    sess (self Demo.ready) = Some s /\
    feed_of (self Demo.ready) false false 0 false = Ok fd_train /\
    run_losses_outputs (Collab := Demo.collab) s (losses (self Demo.ready))
      fd_train (ext Demo.ready)
    = (Ok first, e0) /\
    get_feed_dict (net (self Demo.ready)) false true 1
      (TrainState.X_test (train_state (self Demo.ready)))
      (TrainState.y_test (train_state (self Demo.ready))) = Ok fd /\
    (fd_training fd = false /\ fd_dropout fd = true /\ fd_data_id fd = 1 /\
     fd_inputs fd = TrainState.X_test (train_state (self Demo.ready))) /\
    run_passes uncertainty_samples
      (run_losses_outputs (Collab := Demo.collab) s
         (losses (self Demo.ready)) fd) e0
    = (Ok samples, ext (snd Demo.uncertain_evaluation)) /\
    List.length samples = uncertainty_samples /\
    log (snd Demo.uncertain_evaluation)
    = log Demo.ready ++ [EvEvaluate true; EvRunLossesOutputs s fd_train]
      ++ repeat (EvRunLossesOutputs s fd) uncertainty_samples /\
    TrainState.loss_test (train_state (self (snd Demo.uncertain_evaluation)))
    = Some (np_mean (Collab := Demo.collab)
              (map (fun x => Arr (fst x)) samples)) /\
    TrainState.y_pred_test
      (train_state (self (snd Demo.uncertain_evaluation)))
    = Some (Arr (np_mean (Collab := Demo.collab) (map snd samples))) /\
    TrainState.y_std_test
      (train_state (self (snd Demo.uncertain_evaluation)))
    = Some (Arr (np_std (Collab := Demo.collab) (map snd samples))).
Proof.
  apply (test_uncertainty_passes (C := Demo.collab) Demo.ready
           (snd Demo.uncertain_evaluation)).
  apply (run_ok_unit Demo.uncertain_evaluation). vm_compute. reflexivity.
Defined.

(** * The rest of the code

    Further properties of [compile], [train], [test], [TrainState] and
    [LossHistory], and [get] of [maps/initializers.py]. *)

(** ** LossHistory: what the lists hold *)
Section HistoryContentProofs.
Context {A : Type}.

Lemma run_calls_app (cs cs' : list (LossHistory.call (A := A)))
    (h : LossHistory.t A) :
  LossHistory.run_calls (cs ++ cs') h
  = LossHistory.run_calls cs' (LossHistory.run_calls cs h).
Proof. unfold LossHistory.run_calls. apply fold_left_app. Qed.

Lemma run_calls_lists (cs : list (LossHistory.call (A := A)))
    (h : LossHistory.t A) :
  let h' := LossHistory.run_calls cs h in
  LossHistory.steps h'
  = LossHistory.steps h ++ map (fun r => fst (fst (fst r))) (added cs) /\
  LossHistory.loss_train h'
  = LossHistory.loss_train h ++ map (fun r => snd (fst (fst r))) (added cs) /\
  LossHistory.loss_test h'
  = LossHistory.loss_test h ++ map (fun r => snd (fst r)) (added cs) /\
  LossHistory.metrics_test h'
  = LossHistory.metrics_test h ++ map snd (added cs).
Proof.
  revert h. induction cs as [ | c cs IH]; intros h.
  - simpl. rewrite !app_nil_r. repeat split; reflexivity.
  - change (LossHistory.run_calls (c :: cs) h)
      with (LossHistory.run_calls cs (LossHistory.run_call h c)).
    cbv zeta in *.
    destruct (IH (LossHistory.run_call h c)) as (H1 & H2 & H3 & H4).
    rewrite H1, H2, H3, H4.
    destruct c as [w | s lt lte m]; simpl.
    + repeat split; reflexivity.
    + rewrite <- !app_assoc. repeat split; reflexivity.
Qed.

Lemma run_calls_adds_keep_weights (cs : list (LossHistory.call (A := A)))
    (h : LossHistory.t A) :
  Forall (fun c => LossHistory.is_add c = true) cs ->
  LossHistory.loss_weights (LossHistory.run_calls cs h)
  = LossHistory.loss_weights h.
Proof.
  revert h. induction cs as [ | c cs IH]; intros h Hall.
  - reflexivity.
  - inversion Hall as [ | c' cs' Hc Hcs]; subst.
    change (LossHistory.run_calls (c :: cs) h)
      with (LossHistory.run_calls cs (LossHistory.run_call h c)).
    rewrite (IH _ Hcs). destruct c; [ discriminate Hc | reflexivity ].
Qed.

End HistoryContentProofs.

(** X1.  The history holds exactly what was added, in the order of the
    calls: after any sequence of calls on a new [LossHistory], the four
    lists are the four arguments of the [add] calls, oldest first, whatever
    [update_loss_weights] calls came in between; [loss_weights] is 1 while
    there was no [update_loss_weights], and otherwise the argument of the
    last one. *)
Theorem losshistory_holds_added_records {A : Type}
    (cs : list (LossHistory.call (A := A))) :
  let h := LossHistory.run_calls cs LossHistory.init in
  (LossHistory.steps h = map (fun r => fst (fst (fst r))) (added cs) /\
   LossHistory.loss_train h = map (fun r => snd (fst (fst r))) (added cs) /\
   LossHistory.loss_test h = map (fun r => snd (fst r)) (added cs) /\
   LossHistory.metrics_test h = map snd (added cs)) /\
  (Forall (fun c => LossHistory.is_add c = true) cs ->
   LossHistory.loss_weights h = LossHistory.One) /\
  (forall cs1 w cs2,
     cs = cs1 ++ LossHistory.CallUpdateLossWeights w :: cs2 ->
     Forall (fun c => LossHistory.is_add c = true) cs2 ->
     LossHistory.loss_weights h = LossHistory.Weights w).
Proof.
  intros h. subst h. split; [ | split ].
  - exact (run_calls_lists cs LossHistory.init).
  - intros Hall. exact (run_calls_adds_keep_weights cs _ Hall).
  - intros cs1 w cs2 -> Hall.
    rewrite run_calls_app.
    change (LossHistory.run_calls
              (LossHistory.CallUpdateLossWeights w :: cs2)
              (LossHistory.run_calls cs1 LossHistory.init))
      with (LossHistory.run_calls cs2
              (LossHistory.update_loss_weights w
                 (LossHistory.run_calls cs1 LossHistory.init))).
    rewrite (run_calls_adds_keep_weights cs2 _ Hall). reflexivity.
Qed.

(** ** TrainState.update_best, again *)

(** X2.  [update_best] is idempotent: a second call right after a first one
    changes nothing, also when the summed train loss is NaN. *)
Theorem update_best_idempotent {A : Type} (np_sum : A -> spec_float)
    (ts ts' : TrainState.t A) :
  TrainState.update_best np_sum ts = Ok ts' ->
  TrainState.update_best np_sum ts' = Ok ts'.
Proof.
  intros H. apply update_best_inv in H. destruct H as (l & Hl & ->).
  destruct (SFltb (np_sum l) (TrainState.best_loss_train ts)) eqn:Hlt.
  - unfold TrainState.update_best. cbn. rewrite Hl.
    rewrite SFltb_irrefl. reflexivity.
  - unfold TrainState.update_best. rewrite Hl, Hlt. reflexivity.
Qed.

(** A train state with a train loss of 5 and no best yet. *)
Lemma update_best_idempotent_witness :
  TrainState.update_best Demo.Z2float Demo.after_first_call
  = Ok Demo.after_first_call.
Proof.
  apply (update_best_idempotent Demo.Z2float
           (TrainState.set_train_results 5 (Arr 1) TrainState.init)
           Demo.after_first_call).
  reflexivity.
Defined.

(** ** get_optimizer *)

(** X3.  [get_optimizer] returns an optimizer exactly for the six names of
    its table and raises [KeyError] for any other name.  The learning rate
    reaches the optimizer for sgd, sgdnesterov, rmsprop and adam; adagrad
    and adadelta ignore it (adagrad always uses 0.01). *)
Theorem get_optimizer_names_and_rates (name : string)
    (lr lr' : LearningRate) :
  (In name gradient_opts -> is_ok (get_optimizer name lr) = true) /\
  (~ In name gradient_opts ->
   get_optimizer name lr = Raise (KeyError name)) /\
  (In name ["sgd"; "sgdnesterov"; "rmsprop"; "adam"] ->
   get_optimizer name lr = get_optimizer name lr' -> lr = lr') /\
  (In name ["adagrad"; "adadelta"] ->
   get_optimizer name lr = get_optimizer name lr').
Proof.
  repeat split.
  - intros Hin. simpl in Hin.
    destruct Hin as [<- | [<- | [<- | [<- | [<- | [<- | []]]]]]];
      reflexivity.
  - intros Hnot. apply get_optimizer_unknown. exact Hnot.
  - intros Hin Heq. simpl in Hin.
    destruct Hin as [<- | [<- | [<- | [<- | []]]]];
      vm_compute in Heq; injection Heq as Heq; exact Heq.
  - intros Hin. simpl in Hin.
    destruct Hin as [<- | [<- | []]]; reflexivity.
Qed.

(** ** compile, when it returns *)
(** [writes] reads the runs of the assignments to the model one at a
    time, computing the fields of the state after each. *)
Ltac writes :=
  repeat (match goal with
          | H : modify_self _ _ = (Ok _, _) |- _ =>
              unfold modify_self in H; injection H as ?; subst
          | H : modify_losshistory _ _ = (Ok _, _) |- _ =>
              unfold modify_losshistory, modify_self in H;
              injection H as ?; subst
          | H : modify_train_state _ _ = (Ok _, _) |- _ =>
              unfold modify_train_state, modify_self in H;
              injection H as ?; subst
          end; state_simpl).

Section CompileReturns.
Context {C : Collab}.

Lemma raise_not_ok {X} (e : exn) st (x : X) st' :
  raise e st = (Ok x, st') -> False.
Proof. unfold raise. intros H. discriminate H. Qed.

(** [get_learningrate] when it returns: a constant rate and no global step
    without decay, the schedule named by the decay kind and a new global
    step with it; only the log has changed. *)
Lemma get_learningrate_returns (lr : spec_float) (decay : option Decay)
    st rate gs st' :
  get_learningrate lr decay st = (Ok (rate, gs), st') ->
  (exists evs,
     st' = mkState (self st) (ext st) (open_sessions st) (created st)
             (log st ++ evs)) /\
  match decay with
  | None => rate = ConstantRate lr /\ gs = false
  | Some d =>
      gs = true /\
      ((decay_kind d = "inverse time" /\
        rate = InverseTimeDecay lr (decay_steps d) (decay_rate d)) \/
       (decay_kind d = "cosine" /\
        rate = CosineDecay lr (decay_steps d) (decay_rate d)))
  end.
Proof.
  unfold get_learningrate. destruct decay as [d | ]; intros H.
  - split_bind H. lifts. emits. injection Hret as -> ->. cbn.
    split; [ eexists; rewrite <- !app_assoc; reflexivity | ].
    split; [ reflexivity | ].
    cbn [dict_get] in Hval.
    destruct (String.eqb_spec "inverse time" (decay_kind d)) as [E1 | _].
    + left. injection Hval as <-. split; [ symmetry; exact E1 | reflexivity ].
    + destruct (String.eqb_spec "cosine" (decay_kind d)) as [E2 | _];
        [ | discriminate Hval ].
      right. injection Hval as <-. split; [ symmetry; exact E2 | reflexivity ].
  - lifts. injection Hret as -> ->.
    split; [ exists []; rewrite app_nil_r; destruct st; reflexivity | ].
    split; reflexivity.
Qed.

End CompileReturns.

(** X4.  What a [compile] that returns has done.  The data provider
    returned its losses and every metric identifier was resolved ([metrics]
    was given: with the default [None], [compile] never returns).
    [self.optimizer], [batch_size] and [ntest] are the arguments;
    [self.losses] are the data losses, followed by the regularization loss
    when the network has a regularizer, scaled by [loss_weights] when
    given; [self.totalloss] is their sum; [self.train_op] is the scipy
    interface on the total loss for a quasi-Newton name and otherwise the
    [minimize] of the optimizer that [get_optimizer] returns for the name and
    the (decayed) learning rate.  Nothing of an earlier [compile] is left in
    these attributes, with one exception: without [loss_weights], the
    history keeps the weights of the earlier call.  Sessions, the train
    state and the lists of the history are untouched. *)
Theorem compile_returns_configured {C : Collab} (opt : string)
    (lr : spec_float) (bs nt : Z) (loss : string)
    (mets : option (list (metric_id ndarray))) (decay : option Decay)
    (loss_weights : option ndarray) (st st' : State) :
  compile opt lr bs nt loss mets decay loss_weights st = (Ok tt, st') ->
  exists ls ids fs rate gs,
    data_losses loss (ext st) = (Ok ls, ext st') /\
    mets = Some ids /\
    comprehension metrics_get ids = Ok fs /\
    match decay with
    | None => rate = ConstantRate lr /\ gs = false
    | Some d =>
        gs = true /\
        ((decay_kind d = "inverse time" /\
          rate = InverseTimeDecay lr (decay_steps d) (decay_rate d)) \/
         (decay_kind d = "cosine" /\
          rate = CosineDecay lr (decay_steps d) (decay_rate d)))
    end /\
    net (self st') = net (self st) /\
    optimizer (self st') = Some opt /\
    batch_size (self st') = Some bs /\
    ntest (self st') = Some nt /\
    losses (self st')
    = Some (mkLosses
              (if regularizer (net (self st))
               then map DataLoss ls ++ [RegularizationLoss]
               else map DataLoss ls)
              loss_weights) /\
    totalloss (self st') = option_map ReduceSum (losses (self st')) /\
    (exists total,
       totalloss (self st') = Some total /\
       if str_in opt scipy_opts
       then train_op (self st') = Some (ScipyOptimizerInterface total opt)
       else exists o,
              get_optimizer opt rate = Ok o /\
              train_op (self st') = Some (Minimize o total gs)) /\
    metrics (self st') = Some fs /\
    weights_of st'
    = match loss_weights with
      | Some w => LossHistory.Weights w
      | None => weights_of st
      end /\
    run_state_of st' = run_state_of st.
Proof.
  intros H. unfold compile in H. split_bind H. lifts.
  match goal with
  | H1 : get_learningrate _ _ _ = (Ok ?p, _) |- _ =>
      destruct p as [rate gs];
      apply get_learningrate_returns in H1;
      destruct H1 as ((evs & ->) & Hdecay)
  end.
  split_bind H.
  destruct mets as [ids | ]; [ | destruct (raise_not_ok _ _ _ _ H) ].
  split_bind H. lifts.
  match goal with
  | H1 : call (data_losses loss) _ = _ |- _ =>
      apply call_ok in H1; destruct H1 as (e1 & Hls & ->)
  end.
  repeat match goal with
         | H1 : (if ?b then _ else _) _ = (Ok _, _) |- _ =>
             destruct b eqn:?; split_bind H1
         end;
    destruct loss_weights as [w | ];
    repeat match goal with
           | H1 : bind _ _ _ = (Ok _, _) |- _ => split_bind H1
           end;
    lifts; emits; writes.
  all: match goal with
       | Hc : comprehension metrics_get ?ms = Ok ?fs,
         Hd : data_losses _ _ = (Ok ?ls, _) |- _ =>
           exists ls, ms, fs, rate, gs
       end.
  all: unfold weights_of, run_state_of; state_simpl.
  all: match goal with
       | Hr : regularizer _ = _ |- _ => rewrite Hr
       end.
  all: repeat match goal with |- _ /\ _ => split end;
    try reflexivity; try assumption.
  all: eexists; (split; [ reflexivity | ]); try reflexivity.
  all: match goal with
       | Ho : get_optimizer _ _ = Ok ?o |- _ =>
           exists o; split; [ exact Ho | reflexivity ]
       end.
Qed.

(** [compile("adam", 0.001, 16, 100, "MSE", metrics=["MSE"])] on a new
    model. *)
Lemma compile_returns_configured_witness :
  optimizer (self (Demo.compiled "adam")) = Some "adam" /\
  batch_size (self (Demo.compiled "adam")) = Some 16 /\
  ntest (self (Demo.compiled "adam")) = Some 100 /\
  weights_of (Demo.compiled "adam") = LossHistory.One.
Proof.
  destruct (compile_returns_configured (C := Demo.collab) "adam"
              Demo.float_0_001 16 100 "MSE" (Some [MetricName "MSE"])
              None None
              (Demo.start Demo.collab 0%nat (mkNet SingleTarget false))
              (Demo.compiled "adam"))
    as (ls & ids & fs & rate & gs & _ & _ & _ & _ & _ & Ho & Hb & Hn & _
        & _ & _ & _ & Hw & _).
  - unfold Demo.compiled. apply run_ok_unit. vm_compute. reflexivity.
  - repeat split; assumption.
Defined.

(** ** compile, however it ends *)

(** X5.  [compile] builds a graph and nothing else: whether it returns or
    raises, and at whatever point, the open sessions, [self.sess], the
    train state and the four lists of the history are as before. *)
Theorem compile_leaves_run_state {C : Collab} (opt : string)
    (lr : spec_float) (bs nt : Z) (loss : string)
    (mets : option (list (metric_id ndarray))) (decay : option Decay)
    (loss_weights : option ndarray) :
  preserves run_state_of
    (compile opt lr bs nt loss mets decay loss_weights).
Proof. unfold compile. pres. Qed.

(** X6.  With [metrics] left at its default [None], a [compile] whose
    other arguments are good raises [TypeError], and only at its last
    statement: [self.optimizer] and the new [self.train_op] are assigned
    when the exception reaches the caller, [self.metrics] is the old
    one. *)
Theorem compile_without_metrics_raises {C : Collab} (opt : string)
    (lr : spec_float) (bs nt : Z) (loss : string) (decay : option Decay)
    (loss_weights : option ndarray) (st : State) :
  In opt scipy_opts \/ In opt gradient_opts ->
  is_ok (fst (data_losses loss (ext st))) = true ->
  (forall d, decay = Some d -> In (decay_kind d) ["inverse time"; "cosine"]) ->
  exists st' l op,
    compile opt lr bs nt loss None decay loss_weights st
    = (Raise TypeError, st') /\
    optimizer (self st') = Some opt /\
    losses (self st') = Some l /\
    totalloss (self st') = Some (ReduceSum l) /\
    train_op (self st') = Some op /\
    (op = ScipyOptimizerInterface (ReduceSum l) opt \/
     exists o gs, op = Minimize o (ReduceSum l) gs) /\
    metrics (self st') = metrics (self st).
Proof.
  intros Hopt Hdata Hdecay.
  destruct (data_losses loss (ext st)) as [[ls | e] e'] eqn:Hls;
    [ clear Hdata | discriminate Hdata ].
  unfold compile, bind, emit, modify_self, modify_losshistory, call,
    get_self, ret, raise.
  cbn -[get_learningrate str_in get_optimizer]. rewrite Hls.
  cbn -[get_learningrate str_in get_optimizer].
  destruct (regularizer (net (self st))) eqn:Hreg;
    destruct loss_weights as [w | ];
    cbn -[get_learningrate str_in get_optimizer];
    match goal with
    | |- context [get_learningrate lr decay ?s] =>
        destruct (get_learningrate_ok lr decay s Hdecay)
          as (rate & gs & evs & Hlr);
        rewrite Hlr
    end;
    (destruct (str_in opt scipy_opts) eqn:Hs;
     [ | destruct Hopt as [Hopt | Hopt];
         [ rewrite (str_in_In _ _ Hopt) in Hs; discriminate Hs | ];
         destruct (dict_get_known
                     [ ("sgd", GradientDescentOptimizer rate);
                       ("sgdnesterov", MomentumOptimizer rate float_0_9 true);
                       ("adagrad", AdagradOptimizer float_0_01);
                       ("adadelta", AdadeltaOptimizer);
                       ("rmsprop", RMSPropOptimizer rate);
                       ("adam", AdamOptimizer rate) ] opt Hopt) as (o & Ho);
         unfold lift, get_optimizer; rewrite Ho ]);
    cbn -[get_learningrate str_in get_optimizer].
  all: eexists; eexists; eexists; (split; [ reflexivity | ]); cbn.
  all: repeat match goal with |- _ /\ _ => split end; try reflexivity.
  all: try (left; reflexivity).
  all: right; eexists; eexists; reflexivity.
Qed.

(** [compile("adam", 0.001, 16, 100)] on a new model. *)
Lemma compile_without_metrics_raises_witness :
  exists st',
    compile (C := Demo.collab) "adam" Demo.float_0_001 16 100 "MSE" None
      None None (Demo.start Demo.collab 0%nat (mkNet SingleTarget false))
    = (Raise TypeError, st') /\
    optimizer (self st') = Some "adam" /\
    metrics (self st') = None.
Proof.
  destruct (compile_without_metrics_raises (C := Demo.collab) "adam"
              Demo.float_0_001 16 100 "MSE" None None
              (Demo.start Demo.collab 0%nat (mkNet SingleTarget false)))
    as (st' & l & op & Hrun & Ho & _ & _ & _ & _ & Hm).
  - right. simpl. tauto.
  - reflexivity.
  - intros d H. discriminate H.
  - exists st'. repeat split; assumption.
Defined.

Section UnknownDecay.
Context {C : Collab}.

Lemma get_learningrate_unknown (lr : spec_float) (d : Decay) st :
  ~ In (decay_kind d) ["inverse time"; "cosine"] ->
  exists evs,
    get_learningrate lr (Some d) st
    = (Raise (KeyError (decay_kind d)),
       mkState (self st) (ext st) (open_sessions st) (created st)
         (log st ++ evs)).
Proof.
  intros Hd. unfold get_learningrate.
  exists [EvGraph "tf.Variable"; EvGraph "tf.train.inverse_time_decay";
          EvGraph "tf.train.cosine_decay"].
  unfold bind, emit, lift, ret. cbn -[dict_get].
  rewrite dict_get_unknown by exact Hd.
  rewrite <- !app_assoc. reflexivity.
Qed.

End UnknownDecay.

(** X7.  A decay whose kind is neither "inverse time" nor "cosine" makes
    [compile] raise [KeyError] for the kind, whatever the optimizer: also
    for a quasi-Newton name, which never uses the learning rate, and before
    an unknown optimizer name is noticed.  The losses and their sum are
    built by then; [self.train_op] and [self.metrics] are the old ones. *)
Theorem compile_unknown_decay {C : Collab} (opt : string)
    (lr : spec_float) (bs nt : Z) (loss : string)
    (mets : option (list (metric_id ndarray))) (d : Decay)
    (loss_weights : option ndarray) (st : State) :
  ~ In (decay_kind d) ["inverse time"; "cosine"] ->
  is_ok (fst (data_losses loss (ext st))) = true ->
  exists st' l,
    compile opt lr bs nt loss mets (Some d) loss_weights st
    = (Raise (KeyError (decay_kind d)), st') /\
    optimizer (self st') = Some opt /\
    losses (self st') = Some l /\
    totalloss (self st') = Some (ReduceSum l) /\
    train_op (self st') = train_op (self st) /\
    metrics (self st') = metrics (self st).
Proof.
  intros Hd Hdata.
  destruct (data_losses loss (ext st)) as [[ls | e] e'] eqn:Hls;
    [ clear Hdata | discriminate Hdata ].
  unfold compile, bind, emit, modify_self, modify_losshistory, call,
    get_self, ret.
  cbn -[get_learningrate str_in get_optimizer]. rewrite Hls.
  cbn -[get_learningrate str_in get_optimizer].
  destruct (regularizer (net (self st))) eqn:Hreg;
    destruct loss_weights as [w | ];
    cbn -[get_learningrate str_in get_optimizer];
    match goal with
    | |- context [get_learningrate lr (Some d) ?s] =>
        destruct (get_learningrate_unknown lr d s Hd) as (evs & Hlr);
        rewrite Hlr
    end.
  all: eexists; eexists; (split; [ reflexivity | ]); cbn.
  all: repeat match goal with |- _ /\ _ => split end; reflexivity.
Qed.

(** [compile("L-BFGS-B", ..., decay=("exponential", 10, 0.9))] on a new
    model. *)
Lemma compile_unknown_decay_witness :
  exists st',
    compile (C := Demo.collab) "L-BFGS-B" Demo.float_0_001 16 100 "MSE"
      (Some [MetricName "MSE"])
      (Some (mkDecay "exponential" 10 float_0_9)) None
      (Demo.start Demo.collab 0%nat (mkNet SingleTarget false))
    = (Raise (KeyError "exponential"), st') /\
    train_op (self st') = None.
Proof.
  destruct (compile_unknown_decay (C := Demo.collab) "L-BFGS-B"
              Demo.float_0_001 16 100 "MSE" (Some [MetricName "MSE"])
              (mkDecay "exponential" 10 float_0_9) None
              (Demo.start Demo.collab 0%nat (mkNet SingleTarget false)))
    as (st' & l & Hrun & _ & _ & _ & Ht & _).
  - simpl. intuition discriminate.
  - reflexivity.
  - exists st'. split; [ exact Hrun | exact Ht ].
Defined.

(** ** The outline of a run of train *)
Section Outline.
Context {C : Collab}.

Lemma outline_emit (m : t) e o c l (ev : Event ndarray) :
  outline_of (mkState m e o c (l ++ [ev]))
  = outline_of (mkState m e o c l)
    ++ (if is_step ev then [step_of ev] else []).
Proof.
  unfold outline_of. cbn [log]. rewrite filter_app, map_app. cbn.
  destruct (is_step ev); reflexivity.
Qed.

Lemma outline_log st :
  outline_of (mkState (self st) (ext st) (open_sessions st) (created st)
                (log st))
  = outline_of st.
Proof. reflexivity. Qed.

Lemma fire_outline name sel cbs st st' :
  fire name sel cbs st = (Ok tt, st') ->
  outline_of st' = outline_of st ++ [Hook name].
Proof.
  intros H. unfold fire in H. split_bind H.
  frames outline_of. emits.
  rewrite H, outline_emit. reflexivity.
Qed.

Lemma draw_test_outline st st' :
  draw_test st = (Ok tt, st') ->
  outline_of st' = outline_of st ++ [DrawTest].
Proof.
  intros H. unfold draw_test in H. split_bind H. lifts.
  frames outline_of. emits.
  rewrite H, Hrun1, outline_emit. reflexivity.
Qed.

Lemma draw_train_batch_outline st st' :
  draw_train_batch st = (Ok tt, st') ->
  outline_of st' = outline_of st ++ [DrawBatch].
Proof.
  intros H. unfold draw_train_batch in H. split_bind H. lifts.
  frames outline_of. emits.
  rewrite H, Hrun1, outline_emit. reflexivity.
Qed.

Lemma sess_run_train_op_outline st st' :
  sess_run_train_op st = (Ok tt, st') ->
  outline_of st' = outline_of st ++ [Update].
Proof.
  intros H. unfold sess_run_train_op in H. split_bind H. lifts.
  destruct (sess (self st)) as [s | ]; [ | discriminate H ].
  split_bind H. lifts. frames outline_of. emits.
  rewrite H, outline_emit. reflexivity.
Qed.

Lemma train_op_minimize_outline st st' :
  train_op_minimize st = (Ok tt, st') ->
  outline_of st' = outline_of st ++ [Minimization].
Proof.
  intros H. unfold train_op_minimize in H. split_bind H. lifts.
  destruct (train_op (self st)) as [op | ]; [ | discriminate H ].
  split_bind H. lifts. frames outline_of. emits.
  rewrite H, outline_emit. reflexivity.
Qed.

Lemma test_outline u st st' :
  test u st = (Ok tt, st') ->
  outline_of st' = outline_of st ++ [Evaluation u].
Proof.
  intros H. unfold test in H. split_bind H. lifts.
  frames outline_of. emits.
  rewrite H, Hrun0, outline_emit. reflexivity.
Qed.

Lemma print_model_outline (pm : bool) st st' :
  (if pm then print_model else ret tt) st = (Ok tt, st') ->
  outline_of st' = outline_of st ++ (if pm then [ReadVariables] else []).
Proof.
  intros H. destruct pm.
  - unfold print_model in H. split_bind H. lifts.
    destruct (sess (self st)) as [s | ]; [ | discriminate H ].
    split_bind H. frames outline_of. emits.
    rewrite H, outline_emit. reflexivity.
  - lifts. rewrite app_nil_r. reflexivity.
Qed.

Lemma sess_run_init_outline st st' :
  sess_run_init st = (Ok tt, st') ->
  outline_of st' = outline_of st ++ [InitVariables].
Proof.
  intros H. unfold sess_run_init in H. split_bind H. lifts.
  destruct (sess (self st)) as [s | ]; [ | discriminate H ].
  split_bind H. frames outline_of. emits.
  rewrite H, outline_emit. reflexivity.
Qed.

Lemma open_tfsession_outline st st' :
  open_tfsession st = (Ok tt, st') ->
  outline_of st' = outline_of st ++ [OpenSession].
Proof.
  intros H. unfold open_tfsession in H. split_bind H.
  frames outline_of.
  unfold new_session in Hrun.
  destruct (tf_Session (ext st)) as [[[] | e] e']; [ | discriminate Hrun ].
  injection Hrun as _ <-.
  rewrite H, Hrun0, outline_emit. reflexivity.
Qed.

Lemma close_tfsession_outline st st' :
  close_tfsession st = (Ok tt, st') ->
  outline_of st' = outline_of st ++ [CloseSession].
Proof.
  intros H. unfold close_tfsession in H. split_bind H. lifts.
  destruct (sess (self st)) as [s | ]; [ | discriminate H ].
  unfold session_close in H. injection H as <-.
  rewrite outline_emit. reflexivity.
Qed.

(** The cadence test returns only for a cadence other than 0. *)
Lemma is_checkpoint_returns (E V i : Z) (b : bool) :
  is_checkpoint E V i = Ok b ->
  V <> 0 /\ b = ((i mod V =? 0) || (i + 1 =? E)).
Proof.
  unfold is_checkpoint, py_mod. destruct (Z.eqb_spec V 0) as [-> | Hne].
  - intros H. discriminate H.
  - intros H. injection H as <-. split; [ exact Hne | reflexivity ].
Qed.

Lemma epoch_body_outline (E V : Z) u cbs (i : Z) st st' :
  epoch_body E V u cbs i st = (Ok tt, st') ->
  outline_of st' = outline_of st ++ epoch_outline E V u i.
Proof.
  intros H. unfold epoch_body in H. split_bind H. lifts.
  apply is_checkpoint_returns in Hval. destruct Hval as [_ ->].
  destruct x, x0, x1, x2, x6.
  apply fire_outline in Hrun, Hrun0, Hrun6, H.
  apply draw_train_batch_outline in Hrun1.
  apply sess_run_train_op_outline in Hrun2.
  frame outline_of Hrun3.
  assert (Hmid : outline_of st6
                 = outline_of st4
                   ++ (if (i mod V =? 0) || (i + 1 =? E)
                       then [Evaluation u] else [])).
  { destruct ((i mod V =? 0) || (i + 1 =? E)).
    - split_bind Hrun5. destruct x. apply test_outline in Hrun4.
      frames outline_of. congruence.
    - lifts. rewrite app_nil_r. reflexivity. }
  rewrite H, Hrun6, Hmid, Hrun3, Hrun2, Hrun1, Hrun0, Hrun.
  unfold epoch_outline. rewrite <- !app_assoc. reflexivity.
Qed.

Lemma for_each_epochs_outline (E V : Z) u cbs (l : list Z) st st' :
  for_each l (epoch_body E V u cbs) st = (Ok tt, st') ->
  outline_of st' = outline_of st ++ flat_map (epoch_outline E V u) l.
Proof.
  revert st. induction l as [ | i l IH]; intros st H.
  - simpl in H. lifts. simpl. rewrite app_nil_r. reflexivity.
  - change (for_each (i :: l) (epoch_body E V u cbs))
      with (bind (epoch_body E V u cbs i)
              (fun _ => for_each l (epoch_body E V u cbs))) in H.
    split_bind H. destruct x.
    apply epoch_body_outline in Hrun. apply IH in H.
    rewrite H, Hrun. cbn [flat_map]. rewrite <- app_assoc. reflexivity.
Qed.

Lemma train_sgd_outline (E V : Z) u errstop cbs st st' :
  train_sgd E V u errstop cbs st = (Ok tt, st') ->
  outline_of st' = outline_of st ++ sgd_outline E V u.
Proof.
  intros H. unfold train_sgd in H. split_bind H. destruct x, x0, x1.
  apply draw_test_outline in Hrun. apply fire_outline in Hrun0, H.
  apply for_each_epochs_outline in Hrun1.
  rewrite H, Hrun1, Hrun0, Hrun. unfold sgd_outline.
  rewrite <- !app_assoc. reflexivity.
Qed.

Lemma train_scipy_outline u st st' :
  train_scipy u st = (Ok tt, st') ->
  outline_of st' = outline_of st ++ scipy_outline u.
Proof.
  intros H. unfold train_scipy in H. split_bind H.
  destruct x, x0, x1, x2.
  apply draw_train_batch_outline in Hrun.
  apply train_op_minimize_outline in Hrun0.
  apply draw_test_outline in Hrun1.
  apply test_outline in Hrun2.
  frames outline_of.
  rewrite H, Hrun3, Hrun2, Hrun1, Hrun0, Hrun. unfold scipy_outline.
  rewrite <- !app_assoc. reflexivity.
Qed.

End Outline.

(** X8.  The order of the calls of a [train] that returns.  The session is
    opened and the variables initialised; on the gradient-based path the
    test split is drawn once, before [on_train_begin], and each epoch runs
    [on_epoch_begin], [on_batch_begin], the draw of a batch, the optimizer
    update, the evaluation if the epoch is a checkpoint, [on_batch_end],
    [on_epoch_end], in that order and whether or not callbacks were given;
    [on_train_end] follows the last epoch.  On the quasi-Newton path the
    batch is drawn and minimised first, the test split is drawn after it
    and one evaluation follows; no hook runs.  With [print_model] the
    variables are read once before and once after training.  The session
    is closed last. *)
Theorem train_outline_on_return {C : Collab} (E V : Z) (uncertainty : bool)
    (errstop : option spec_float)
    (callbacks : option (list (Callback ndarray Ext))) (print_model : bool)
    (st st' : State) (h : LossHistory.t ndarray) (ts : TrainState.t ndarray) :
  train E V uncertainty errstop callbacks print_model st = (Ok (h, ts), st') ->
  outline_of st'
  = outline_of st
    ++ train_outline (uses_scipy (self st)) print_model E V uncertainty.
Proof.
  intros H.
  destruct (train_ok _ _ _ _ _ _ _ _ _ _ H)
    as (s0 & s1 & s2 & s3 & s4 & s5 & R0 & R1 & R2 & R3 & R4 & R5 & R6
        & _ & _).
  pose proof (train_setup_optimizer _ _ _ _ _ _ R0 R1 R2 R3) as Hs.
  rewrite Hs in R4.
  frame outline_of R0.
  apply open_tfsession_outline in R1.
  apply sess_run_init_outline in R2.
  apply print_model_outline in R3, R5.
  apply close_tfsession_outline in R6.
  assert (Hmid : outline_of s4
                 = outline_of s3
                   ++ (if uses_scipy (self st)
                       then scipy_outline uncertainty
                       else sgd_outline E V uncertainty)).
  { destruct (uses_scipy (self st)).
    - apply train_scipy_outline in R4. exact R4.
    - apply train_sgd_outline in R4. exact R4. }
  rewrite R6, R5, Hmid, R3, R2, R1, R0. unfold train_outline.
  rewrite <- !app_assoc. reflexivity.
Qed.

(** [train(epochs=100, validation_every=10)] after [compile("adam", ...)]. *)
Lemma train_outline_on_return_witness :
  outline_of (snd Demo.adam_run)
  = outline_of (Demo.compiled "adam")
    ++ train_outline (uses_scipy (self (Demo.compiled "adam"))) false
         100 10 false.
Proof.
  apply (train_outline_on_return (C := Demo.collab) 100 10 false None None
           false (Demo.compiled "adam") (snd Demo.adam_run)
           (fst (Demo.returned Demo.adam_run))
           (snd (Demo.returned Demo.adam_run))).
  apply (returned_ok Demo.adam_run). vm_compute. reflexivity.
Defined.

(** ** The cadence outside [1 <= validation_every] *)
Section CadenceEdges.
Context {C : Collab}.

Lemma range_nonpos (n : Z) : n <= 0 -> range n = [].
Proof.
  intros H. unfold range. replace (Z.to_nat n) with 0%nat by lia.
  reflexivity.
Qed.

Lemma range_pos (n : Z) : 1 <= n -> exists l, range n = 0 :: l.
Proof.
  intros H. unfold range.
  destruct (Z.to_nat n) as [ | k] eqn:E; [ lia | ].
  eexists. reflexivity.
Qed.

Lemma checkpoints_opp (E V : Z) : checkpoints E (- V) = checkpoints E V.
Proof.
  unfold checkpoints. apply filter_ext. intros i. f_equal.
  destruct (Z.eq_dec V 0) as [-> | HV]; [ reflexivity | ].
  destruct (Z.eqb_spec (i mod V) 0) as [E0 | N0].
  - apply Z.eqb_eq. apply Z_mod_zero_opp_r. exact E0.
  - apply Z.eqb_neq. intros E0. apply N0.
    apply Z_mod_zero_opp_r in E0. rewrite Z.opp_involutive in E0. exact E0.
Qed.

Lemma checkpoints_abs (E V : Z) : checkpoints E (Z.abs V) = checkpoints E V.
Proof.
  destruct (Z.abs_spec V) as [[_ ->] | [_ ->]];
    [ reflexivity | apply checkpoints_opp ].
Qed.

End CadenceEdges.

(** X9.  With [validation_every=0] and at least one epoch, [train] never
    returns on the gradient-based path: the cadence test of the first
    epoch divides by zero, if nothing raised before it. *)
Theorem train_zero_cadence_never_returns {C : Collab} (E : Z)
    (uncertainty : bool) (errstop : option spec_float)
    (callbacks : option (list (Callback ndarray Ext))) (print_model : bool)
    (st : State) :
  1 <= E ->
  uses_scipy (self st) = false ->
  is_ok (fst (train E 0 uncertainty errstop callbacks print_model st))
  = false.
Proof.
  intros HE Hopt.
  destruct (train E 0 uncertainty errstop callbacks print_model st)
    as [[[h ts] | e] st'] eqn:H; [ exfalso | reflexivity ].
  destruct (train_ok _ _ _ _ _ _ _ _ _ _ H)
    as (s0 & s1 & s2 & s3 & s4 & s5 & R0 & R1 & R2 & R3 & R4 & _).
  pose proof (train_setup_optimizer _ _ _ _ _ _ R0 R1 R2 R3) as Hs.
  rewrite Hs, Hopt in R4.
  unfold train_sgd in R4. split_bind R4.
  destruct (range_pos E HE) as (l & Hl). rewrite Hl in Hrun1.
  change (for_each (0 :: l) ?f) with (bind (f 0) (fun _ => for_each l f))
    in Hrun1.
  split_bind Hrun1. unfold epoch_body in Hrun2. split_bind Hrun2. lifts.
  apply is_checkpoint_returns in Hval. destruct Hval as [HV _].
  apply HV. reflexivity.
Qed.

(** [train(epochs=1, validation_every=0)] after [compile("adam", ...)]. *)
Lemma train_zero_cadence_never_returns_witness :
  is_ok (fst Demo.zero_cadence_run) = false.
Proof.
  apply (train_zero_cadence_never_returns (C := Demo.collab) 1 false None
           None false (Demo.compiled "adam")).
  - lia.
  - reflexivity.
Defined.

(** X10.  A cadence below zero works as its absolute value does: for any
    number of epochs and any [validation_every] other than 0, a [train] on
    the gradient-based path that returns has appended to [steps] the
    checkpoints of [abs(validation_every)]. *)
Theorem train_steps_any_cadence {C : Collab} (E V : Z) (uncertainty : bool)
    (errstop : option spec_float)
    (callbacks : option (list (Callback ndarray Ext))) (print_model : bool)
    (st st' : State) (h : LossHistory.t ndarray) (ts : TrainState.t ndarray) :
  V <> 0 ->
  uses_scipy (self st) = false ->
  train E V uncertainty errstop callbacks print_model st = (Ok (h, ts), st') ->
  LossHistory.steps h
  = LossHistory.steps (losshistory (self st)) ++ checkpoints E (Z.abs V).
Proof.
  intros HV Hopt Hrun.
  destruct (train_history E V _ _ _ _ _ _ _ _ HV Hopt Hrun)
    as (rs & -> & _ & Hsteps).
  rewrite add_records_steps, Hsteps, checkpoints_abs. reflexivity.
Qed.

(** [train(epochs=5, validation_every=-2)] after [compile("adam", ...)]:
    the steps are 0, 2, 4. *)
Lemma train_steps_any_cadence_witness :
  LossHistory.steps (fst (Demo.returned Runs.negative_cadence_run))
  = LossHistory.steps (losshistory (self (Demo.compiled "adam")))
    ++ checkpoints 5 (Z.abs (-2)) /\
  checkpoints 5 (Z.abs (-2)) = [0; 2; 4].
Proof.
  split; [ | reflexivity ].
  apply (train_steps_any_cadence (C := Demo.collab) 5 (-2) false None None
           false (Demo.compiled "adam") (snd Runs.negative_cadence_run)
           (fst (Demo.returned Runs.negative_cadence_run))
           (snd (Demo.returned Runs.negative_cadence_run))).
  - lia.
  - reflexivity.
  - apply (returned_ok Runs.negative_cadence_run). vm_compute. reflexivity.
Defined.

Section NoEpochs.
Context {C : Collab}.

Lemma open_tfsession_train_state st st' :
  open_tfsession st = (Ok tt, st') ->
  train_state (self st')
  = TrainState.update_tfsession (created st) (train_state (self st)) /\
  losshistory (self st') = losshistory (self st).
Proof.
  intros H. unfold open_tfsession in H. split_bind H.
  unfold new_session in Hrun.
  destruct (tf_Session (ext st)) as [[[] | e] e']; [ | discriminate Hrun ].
  injection Hrun as <- <-. writes. split; reflexivity.
Qed.

Lemma draw_test_train_state st st' :
  draw_test st = (Ok tt, st') ->
  exists X y,
    data_test (ntest (self st)) (ext st) = (Ok (X, y), ext st') /\
    train_state (self st')
    = TrainState.update_data_test X y (train_state (self st)) /\
    losshistory (self st') = losshistory (self st).
Proof.
  intros H. unfold draw_test in H. split_bind H. lifts.
  destruct x1 as [X y]. emits.
  apply call_ok in Hrun1. destruct Hrun1 as (e & Hcall & ->).
  writes. exists X, y. repeat split. exact Hcall.
Qed.

End NoEpochs.

(** X11.  With [epochs <= 0] the gradient-based path trains nothing, for
    any [validation_every], 0 included: a [train] without callbacks that
    returns gives back the history as it was, and a train state in which
    only the session and the test split are new; epoch, step, the results
    and the best results are the old ones.  The test split has been drawn
    all the same, with [self.ntest]. *)
Theorem train_without_epochs {C : Collab} (E V : Z) (uncertainty : bool)
    (errstop : option spec_float) (print_model : bool)
    (st st' : State) (h : LossHistory.t ndarray) (ts : TrainState.t ndarray) :
  E <= 0 ->
  uses_scipy (self st) = false ->
  train E V uncertainty errstop None print_model st = (Ok (h, ts), st') ->
  h = losshistory (self st) /\
  exists X y e e',
    data_test (ntest (self st)) e = (Ok (X, y), e') /\
    ts = TrainState.update_data_test X y
           (TrainState.update_tfsession (created st)
              (train_state (self st))).
Proof.
  intros HE Hopt H.
  destruct (train_ok _ _ _ _ _ _ _ _ _ _ H)
    as (s0 & s1 & s2 & s3 & s4 & s5 & R0 & R1 & R2 & R3 & R4 & R5 & R6
        & -> & ->).
  pose proof (train_setup_optimizer _ _ _ _ _ _ R0 R1 R2 R3) as Hs.
  rewrite Hs, Hopt in R4.
  unfold train_sgd in R4. rewrite (range_nonpos E HE) in R4.
  cbn [CallbackList] in R4. split_bind R4. destruct x.
  assert (Hn : ntest (self s3) = ntest (self st)).
  { pose proof R0 as Q0. pose proof R1 as Q1. pose proof R2 as Q2.
    pose proof R3 as Q3.
    frame (fun st => ntest (self st)) Q0.
    frame (fun st => ntest (self st)) Q1.
    frame (fun st => ntest (self st)) Q2.
    frame (fun st => ntest (self st)) Q3.
    cbn in Q0, Q1, Q2, Q3. congruence. }
  apply open_tfsession_train_state in R1. destruct R1 as [T1 L1].
  apply draw_test_train_state in Hrun.
  destruct Hrun as (X & y & Hdraw & T2 & L2).
  assert (Hc : created s0 = created st)
    by (unfold emit in R0; injection R0 as <-; reflexivity).
  frames returned_of. clear H. unfold returned_of in *.
  repeat match goal with
         | Hp : (_, _) = (_, _) |- _ => injection Hp as ? ?
         end.
  split; [ congruence | ].
  exists X, y, (ext s3), (ext st0). rewrite <- Hn.
  split; [ exact Hdraw | ]. rewrite <- Hc. congruence.
Qed.

(** [train(epochs=0, validation_every=0)] after [compile("adam", ...)]. *)
Lemma train_without_epochs_witness :
  fst (Demo.returned Runs.no_epochs_run)
  = losshistory (self (Demo.compiled "adam")) /\
  TrainState.epoch (snd (Demo.returned Runs.no_epochs_run)) = 0.
Proof.
  destruct (train_without_epochs (C := Demo.collab) 0 0 false None false
              (Demo.compiled "adam") (snd Runs.no_epochs_run)
              (fst (Demo.returned Runs.no_epochs_run))
              (snd (Demo.returned Runs.no_epochs_run)))
    as (Hh & X & y & e & e' & _ & Hts).
  - lia.
  - reflexivity.
  - apply (returned_ok Runs.no_epochs_run). vm_compute. reflexivity.
  - split; [ exact Hh | ]. rewrite Hts. reflexivity.
Defined.


(** ** train, whatever it is given *)

Section BindExt.
Context {C : Collab}.

(** Two continuations that agree after every return of [m] give the same
    run. *)
Lemma bind_ext_run {X Y} (m : M X) (k k' : X -> M Y) st :
  (forall x s1, m st = (Ok x, s1) -> k x s1 = k' x s1) ->
  bind m k st = bind m k' st.
Proof.
  intros H. unfold bind. destruct (m st) as [[x | e] s1]; [ | reflexivity ].
  apply H. reflexivity.
Qed.

End BindExt.

(** X12.  On the quasi-Newton path [train] ignores [epochs],
    [validation_every], [errstop] and [callbacks]: two calls that differ
    only in these do the same from the same state. *)
Theorem train_scipy_ignores_arguments {C : Collab} (E E' V V' : Z)
    (uncertainty : bool) (errstop errstop' : option spec_float)
    (callbacks callbacks' : option (list (Callback ndarray Ext)))
    (print_model : bool) (st : State) :
  uses_scipy (self st) = true ->
  train E V uncertainty errstop callbacks print_model st
  = train E' V' uncertainty errstop' callbacks' print_model st.
Proof.
  intros Hopt. unfold train.
  apply bind_ext_run. intros [] s0 R0.
  apply bind_ext_run. intros [] s1 R1.
  apply bind_ext_run. intros [] s2 R2.
  apply bind_ext_run. intros [] s3 R3.
  apply bind_ext_run. intros m s3' Hm.
  unfold get_self in Hm. injection Hm as <- <-.
  rewrite (train_setup_optimizer _ _ _ _ _ _ R0 R1 R2 R3), Hopt.
  reflexivity.
Qed.

(** [train(epochs=7, validation_every=3, uncertainty=True)] and
    [train(epochs=0, validation_every=0, uncertainty=True,
    errstop=0.001)] after [compile("L-BFGS-B", ...)]. *)
Lemma train_scipy_ignores_arguments_witness :
  Demo.lbfgs_run
  = train (C := Demo.collab) 0 0 true (Some Demo.float_0_001) None false
      (Demo.compiled "L-BFGS-B").
Proof.
  apply (train_scipy_ignores_arguments (C := Demo.collab) 7 0 3 0 true None
           (Some Demo.float_0_001) None None false
           (Demo.compiled "L-BFGS-B")).
  reflexivity.
Defined.

(** X13.  [train] never reconfigures the model: whether it returns or
    raises, with whatever callbacks, the network, [self.optimizer],
    [batch_size], [ntest], the losses, their sum, the train operation, the
    metrics and the loss weights of the history are those of the last
    [compile]. *)
Theorem train_leaves_configuration {C : Collab} (E V : Z)
    (uncertainty : bool) (errstop : option spec_float)
    (callbacks : option (list (Callback ndarray Ext)))
    (print_model : bool) :
  preserves configuration_of
    (train E V uncertainty errstop callbacks print_model).
Proof. unfold train. pres. Qed.

(** ** The sessions of other runs *)
Section OtherSessions.
Context {C : Collab}.

Lemma handles_fresh_opened (o : list Session) (c : nat) :
  Forall (fun s => (s < c)%nat) o ->
  Forall (fun s => (s < S c)%nat) (c :: o).
Proof.
  intros H. constructor; [ lia | ].
  eapply Forall_impl; [ | exact H ]. cbv beta. intros s Hs. lia.
Qed.

Lemma close_only_own (o : list Session) (c : nat) :
  Forall (fun s => (s < c)%nat) o ->
  filter (fun s' => negb (Nat.eqb s' c)) (c :: o) = o.
Proof.
  intros H. cbn [filter]. rewrite Nat.eqb_refl. cbn [negb].
  induction H as [ | s o Hs Ho IH]; [ reflexivity | ].
  cbn [filter]. destruct (Nat.eqb_spec s c) as [-> | _]; [ lia | ].
  cbn [negb]. rewrite IH. reflexivity.
Qed.

End OtherSessions.

(** X14.  [train] closes the session it opened and no other.  When every
    open session was created before the call, a [train] that returns
    leaves exactly the sessions open that were open before; however it
    ends, the sessions that were open stay open. *)
Theorem train_keeps_other_sessions {C : Collab} (E V : Z)
    (uncertainty : bool) (errstop : option spec_float)
    (callbacks : option (list (Callback ndarray Ext))) (print_model : bool)
    (st : State) :
  handles_fresh st ->
  match train E V uncertainty errstop callbacks print_model st with
  | (Ok _, st') =>
      open_sessions st' = open_sessions st /\ handles_fresh st'
  | (Raise _, st') =>
      (open_sessions st' = open_sessions st \/
       open_sessions st' = created st :: open_sessions st) /\
      handles_fresh st'
  end.
Proof.
  intros Hfresh. unfold train.
  step_bind R0; [ | unfold emit in R0; discriminate R0 ].
  emits.
  step_bind R1;
    match type of R1 with
    | open_tfsession ?s = _ =>
        pose proof (open_tfsession_cases s) as Hg; rewrite R1 in Hg;
        cbn in Hg; clear R1
    end;
    [ | destruct Hg as [Ho Hc]; split; [ left; exact Ho | ];
        unfold handles_fresh; rewrite Ho, Hc; exact Hfresh ].
  do 5 (step_bind R;
        (apply (preserves_run sessions_of) in R; [ | solve [ pres ] ]);
        rewrite Hg in R; clear Hg; rename R into Hg;
        [ | injection Hg as Ho Hc Hs; split; [ right; exact Ho | ];
            unfold handles_fresh; rewrite Ho, Hc;
            apply handles_fresh_opened; exact Hfresh ]).
  injection Hg as Ho Hc Hs.
  unfold close_tfsession, bind, get_self, session_close, ret.
  rewrite Hs. cbn. rewrite Ho, Hc.
  rewrite (close_only_own _ _ Hfresh).
  split; [ reflexivity | ].
  unfold handles_fresh. cbn.
  eapply Forall_impl; [ | exact Hfresh ]. cbv beta. intros s Hlt. lia.
Qed.

(** A [train] after a [train] that raised and left its session open: the
    second run returns and that session is still the one open session. *)
Lemma train_keeps_other_sessions_witness :
  open_sessions (snd Runs.after_failure_run)
  = open_sessions (snd Demo.zero_cadence_run) /\
  open_sessions (snd Demo.zero_cadence_run) = [0%nat].
Proof.
  assert (Hfresh : handles_fresh (snd Demo.zero_cadence_run)).
  { unfold handles_fresh. vm_compute. repeat constructor. }
  pose proof (train_keeps_other_sessions (C := Demo.collab) 1 1 false None
                None false (snd Demo.zero_cadence_run) Hfresh) as H.
  rewrite (returned_ok Runs.after_failure_run) in H
    by (vm_compute; reflexivity).
  destruct H as [H _].
  split; [ exact H | vm_compute; reflexivity ].
Defined.

(** ** test without uncertainty *)

(** X15.  An evaluation with [uncertainty=False] that returns has made
    exactly two forward passes in the session of the model, both with
    training mode and dropout off: one over the training batch with data
    id 0, then one over the test split with data id 1, the second in the
    world the first one left.  The four results of the current step are
    what the two passes returned.  [y_std_test] is not assigned: it keeps
    what an earlier evaluation with [uncertainty=True] has left. *)
Theorem test_plain_passes {C : Collab} (st st' : State) :
  test false st = (Ok tt, st') ->
  exists s fd_train fd_test first second e0,
    sess (self st) = Some s /\
    get_feed_dict (net (self st)) false false 0
      (TrainState.X_train (train_state (self st)))
      (TrainState.y_train (train_state (self st))) = Ok fd_train /\
    get_feed_dict (net (self st)) false false 1
      (TrainState.X_test (train_state (self st)))
      (TrainState.y_test (train_state (self st))) = Ok fd_test /\
    run_losses_outputs s (losses (self st)) fd_train (ext st)
    = (Ok first, e0) /\
    run_losses_outputs s (losses (self st)) fd_test e0
    = (Ok second, ext st') /\
    log st'
    = log st ++ [EvEvaluate false; EvRunLossesOutputs s fd_train;
                 EvRunLossesOutputs s fd_test] /\
    TrainState.loss_train (train_state (self st')) = Some (fst first) /\
    TrainState.y_pred_train (train_state (self st')) = Some (snd first) /\
    TrainState.loss_test (train_state (self st')) = Some (fst second) /\
    TrainState.y_pred_test (train_state (self st')) = Some (snd second) /\
    TrainState.y_std_test (train_state (self st'))
    = TrainState.y_std_test (train_state (self st)).
Proof.
  intros H. unfold test in H. split_bind H. destruct x0 as [l y].
  split_bind H. split_bind Hrun2. lifts.
  unfold modify_self in H. injection H as <-.
  emits.
  apply sess_run_losses_outputs_ok in Hrun0.
  destruct Hrun0 as (s & fd_train & e0 & Hs & Hfd_train & Hfirst & ->).
  writes.
  apply sess_run_losses_outputs_ok in Hrun8.
  destruct Hrun8 as (s' & fd_test & e1 & Hs' & Hfd_test & Hsecond & ->).
  state_simpl. rewrite Hs in Hs'. injection Hs' as <-.
  destruct x7 as [l1 y1]. writes.
  unfold feed_of in Hfd_train, Hfd_test. state_simpl.
  apply update_best_inv in Hval. destruct Hval as (l' & _ & ->).
  exists s, fd_train, fd_test, (l, y), (l1, y1), e0.
  split; [ exact Hs | ]. split; [ exact Hfd_train | ].
  split; [ exact Hfd_test | ]. split; [ exact Hfirst | ].
  split; [ exact Hsecond | ].
  split; [ rewrite <- !app_assoc; reflexivity | ].
  match goal with
  | |- context [if ?b then _ else _] => destruct b
  end; state_simpl; repeat split; reflexivity.
Qed.

(** An evaluation with [uncertainty=False] with the collaborators of
    [Demo]: three entries more in the log, and no standard deviation. *)
Lemma test_plain_passes_witness :
  List.length (log (snd Runs.plain_evaluation))
  = (List.length (log Demo.ready) + 3)%nat /\
  TrainState.y_std_test (train_state (self (snd Runs.plain_evaluation)))
  = TrainState.y_std_test (train_state (self Demo.ready)).
Proof.
  destruct (test_plain_passes (C := Demo.collab) Demo.ready
              (snd Runs.plain_evaluation))
    as (s & fd_train & fd_test & first & second & e0 & _ & _ & _ & _ & _
        & Hlog & _ & _ & _ & _ & Hstd).
  - apply (run_ok_unit Runs.plain_evaluation). vm_compute. reflexivity.
  - split; [ | exact Hstd ]. rewrite Hlog, length_app. reflexivity.
Defined.

(** ** The best results after an evaluation *)

(** X16.  [test] compares the train loss of this evaluation with the best
    one only after all its results are assigned.  After a [test] that
    returns, either the summed train loss of this evaluation is below the
    best one so far and the five best results are those of this
    evaluation, its metrics included, or the best results are the old
    ones.  With [uncertainty=False] the standard deviation that goes into
    the best results is the one an earlier evaluation has left. *)
Theorem test_best_results {C : Collab} (uncertainty : bool)
    (st st' : State) :
  test uncertainty st = (Ok tt, st') ->
  let ts := train_state (self st) in
  let ts' := train_state (self st') in
  exists l,
    TrainState.loss_train ts' = Some l /\
    (if SFltb (np_sum l) (TrainState.best_loss_train ts)
     then TrainState.best ts'
          = (np_sum l, option_map np_sum (TrainState.loss_test ts'),
             TrainState.y_pred_test ts', TrainState.y_std_test ts',
             TrainState.metrics_test ts')
     else TrainState.best ts' = TrainState.best ts) /\
    (uncertainty = false ->
     TrainState.y_std_test ts' = TrainState.y_std_test ts).
Proof.
  intros H ts ts'. subst ts ts'.
  unfold test in H. split_bind H. destruct x0 as [l y].
  split_bind H. lifts.
  unfold modify_self in H. injection H as <-.
  emits.
  apply sess_run_losses_outputs_ok in Hrun0.
  destruct Hrun0 as (s & fd_train & e0 & Hs & Hfd_train & Hfirst & ->).
  writes.
  assert (Hstd : uncertainty = false ->
                 TrainState.y_std_test (train_state (self st3))
                 = TrainState.y_std_test (train_state (self st))).
  { intros ->. pose proof Hrun2 as Q.
    frame (fun st => TrainState.y_std_test (train_state (self st))) Q.
    exact Q. }
  frame (fun st => (TrainState.loss_train (train_state (self st)),
                    TrainState.best (train_state (self st)))) Hrun2.
  state_simpl. injection Hrun2 as Hl Hb1 Hb2 Hb3 Hb4 Hb5.
  apply update_best_inv in Hval. destruct Hval as (l' & Hl' & ->).
  state_simpl. rewrite Hl in Hl'. injection Hl' as <-.
  exists l. rewrite <- Hb1.
  destruct (SFltb (np_sum l)
              (TrainState.best_loss_train (train_state (self st3))));
    state_simpl.
  - repeat split; try assumption.
  - repeat split; try assumption.
    unfold TrainState.best. state_simpl. congruence.
Qed.

(** An evaluation with [uncertainty=False] with the collaborators of
    [Demo]: no evaluation before it has set a standard deviation. *)
Lemma test_best_results_witness :
  exists l,
    TrainState.loss_train (train_state (self (snd Runs.plain_evaluation)))
    = Some l /\
    TrainState.y_std_test (train_state (self (snd Runs.plain_evaluation)))
    = None.
Proof.
  assert (Hrun : Runs.plain_evaluation = (Ok tt, snd Runs.plain_evaluation))
    by (apply (run_ok_unit Runs.plain_evaluation); vm_compute; reflexivity).
  pose proof (test_best_results (C := Demo.collab) false Demo.ready
                (snd Runs.plain_evaluation) Hrun) as H.
  cbv zeta in H. destruct H as (l & Hl & _ & Hstd).
  exists l. split; [ exact Hl | ].
  rewrite (Hstd eq_refl). reflexivity.
Defined.

(** ** Evaluating too early *)

(** X17.  Before a session was opened, [test], [print_model] and
    [close_tfsession] raise [AttributeError]: [self.sess] is [None].  The
    model and the world outside it are as before: nothing was run. *)
Theorem session_needed {C : Collab} (uncertainty : bool) (st : State) :
  sess (self st) = None ->
  (fst (test uncertainty st) = Raise AttributeError /\
   self (snd (test uncertainty st)) = self st /\
   ext (snd (test uncertainty st)) = ext st) /\
  print_model st = (Raise AttributeError, st) /\
  close_tfsession st = (Raise AttributeError, st).
Proof.
  intros Hs. repeat split.
  - unfold test, bind, emit, sess_run_losses_outputs, get_self, bind.
    cbn. rewrite Hs. reflexivity.
  - unfold test, bind, emit, sess_run_losses_outputs, get_self, bind.
    cbn. rewrite Hs. reflexivity.
  - unfold test, bind, emit, sess_run_losses_outputs, get_self, bind.
    cbn. rewrite Hs. reflexivity.
  - unfold print_model, bind, get_self. rewrite Hs. reflexivity.
  - unfold close_tfsession, bind, get_self. rewrite Hs. reflexivity.
Qed.

(** A compiled model that has not been trained. *)
Lemma session_needed_witness :
  fst (test (C := Demo.collab) false (Demo.compiled "adam"))
  = Raise AttributeError /\
  close_tfsession (Demo.compiled "adam")
  = (Raise AttributeError, Demo.compiled "adam").
Proof.
  destruct (session_needed (C := Demo.collab) false (Demo.compiled "adam"))
    as ((Ht & _ & _) & _ & Hc).
  - reflexivity.
  - split; [ exact Ht | exact Hc ].
Defined.

(** X18.  With a list of targets, an evaluation before any batch was
    drawn raises [TypeError] while the feed of the first pass is built:
    the targets of the train state are still [None] and cannot be paired
    with the placeholders.  No pass has run by then; the model and the
    world outside it are as before. *)
Theorem test_needs_targets {C : Collab} (uncertainty : bool) (st : State)
    (s : Session) (k : nat) :
  sess (self st) = Some s ->
  targets (net (self st)) = MultiTarget k ->
  TrainState.y_train (train_state (self st)) = None ->
  fst (test uncertainty st) = Raise TypeError /\
  self (snd (test uncertainty st)) = self st /\
  ext (snd (test uncertainty st)) = ext st /\
  passes_of (snd (test uncertainty st)) = passes_of st.
Proof.
  intros Hs Ht Hy.
  unfold test, bind, emit, sess_run_losses_outputs, get_self, bind, lift,
    feed_of, get_feed_dict.
  cbn. rewrite Hs. cbn. rewrite Ht, Hy. cbn.
  repeat split. unfold passes_of. cbn. rewrite filter_app. cbn.
  apply app_nil_r.
Qed.

(** The model with three targets, with a session and no data. *)
Lemma test_needs_targets_witness :
  fst (test (C := Demo.collab3) true Runs.opened3) = Raise TypeError.
Proof.
  destruct (test_needs_targets (C := Demo.collab3) true Runs.opened3
              0%nat 3%nat) as (H & _).
  - reflexivity.
  - reflexivity.
  - reflexivity.
  - exact H.
Defined.


(** ** The last record and the train state *)
Section LastRecord.
Context {C : Collab}.

Lemma for_each_snoc {X} (l : list X) (x : X) (body : X -> M unit) st st' :
  for_each (l ++ [x]) body st = (Ok tt, st') ->
  exists mid, for_each l body st = (Ok tt, mid) /\ body x mid = (Ok tt, st').
Proof.
  revert st. induction l as [ | y l IH]; intros st H.
  - cbn [app for_each] in H. split_bind H. lifts. destruct x0.
    exists st. split; [ reflexivity | exact Hrun ].
  - cbn [app for_each] in H. split_bind H. destruct x0.
    destruct (IH _ H) as (mid & Hl & Hx).
    exists mid. split; [ | exact Hx ].
    cbn [for_each]. unfold bind. rewrite Hrun. exact Hl.
Qed.

Lemma range_last (E : Z) : 1 <= E -> range E = range (E - 1) ++ [E - 1].
Proof.
  intros HE.
  replace E with (Z.of_nat (S (Z.to_nat (E - 1)))) at 1 by lia.
  rewrite range_succ. rewrite Z2Nat.id by lia. reflexivity.
Qed.

Lemma last_record_current_kept (i : Z) st st' :
  returned_of st' = returned_of st ->
  last_record_current i st -> last_record_current i st'.
Proof.
  unfold returned_of, last_record_current.
  intros H (h0 & Hh). injection H as -> ->. exists h0. exact Hh.
Qed.

Lemma record_step_current (i : Z) st st' :
  record_step i st = (Ok tt, st') -> last_record_current i st'.
Proof.
  intros H. unfold record_step in H. split_bind H. lifts. writes.
  exists (losshistory (self st)). reflexivity.
Qed.

Lemma epoch_body_last (E V : Z) u st st' :
  epoch_body E V u [] (E - 1) st = (Ok tt, st') ->
  last_record_current (E - 1) st'.
Proof.
  intros H. unfold epoch_body in H. split_bind H. lifts.
  apply is_checkpoint_returns in Hval. destruct Hval as [_ ->].
  replace (E - 1 + 1 =? E) with true in Hrun5
    by (symmetry; apply Z.eqb_eq; lia).
  rewrite orb_true_r in Hrun5. split_bind Hrun5. destruct x7.
  apply record_step_current in Hrun7.
  frames returned_of.
  apply (last_record_current_kept _ st8); [ congruence | exact Hrun7 ].
Qed.

Lemma train_sgd_last (E V : Z) u errstop st st' :
  1 <= E ->
  train_sgd E V u errstop None st = (Ok tt, st') ->
  last_record_current (E - 1) st'.
Proof.
  intros HE H. unfold train_sgd in H. cbn [CallbackList] in H.
  rewrite (range_last E HE) in H. split_bind H. destruct x1.
  apply for_each_snoc in Hrun1. destruct Hrun1 as (mid & _ & Hlast).
  apply epoch_body_last in Hlast.
  frames returned_of.
  apply (last_record_current_kept _ st2); [ exact H | exact Hlast ].
Qed.

Lemma train_scipy_last u st st' :
  train_scipy u st = (Ok tt, st') -> last_record_current 1 st'.
Proof.
  intros H. unfold train_scipy in H. split_bind H. destruct x3.
  apply record_step_current in Hrun3.
  frames returned_of.
  apply (last_record_current_kept _ st4); [ exact H | exact Hrun3 ].
Qed.

End LastRecord.

(** X19.  The history and the train state that [train] returns agree: the
    last record of the history holds [loss_train], [loss_test] and
    [metrics_test] of the returned train state.  Its step is [epochs - 1]
    on the gradient-based path, whatever the cadence, and 1 on the
    quasi-Newton path.  (Without callbacks: a hook that runs after the
    last evaluation may assign the train state.) *)
Theorem train_last_record_is_current {C : Collab} (E V : Z)
    (uncertainty : bool) (errstop : option spec_float) (print_model : bool)
    (st st' : State) (h : LossHistory.t ndarray) (ts : TrainState.t ndarray) :
  (uses_scipy (self st) = false -> 1 <= E) ->
  train E V uncertainty errstop None print_model st = (Ok (h, ts), st') ->
  exists h0,
    h = LossHistory.add (if uses_scipy (self st) then 1 else E - 1)
          (TrainState.loss_train ts) (TrainState.loss_test ts)
          (TrainState.metrics_test ts) h0.
Proof.
  intros HE H.
  destruct (train_ok _ _ _ _ _ _ _ _ _ _ H)
    as (s0 & s1 & s2 & s3 & s4 & s5 & R0 & R1 & R2 & R3 & R4 & R5 & R6
        & -> & ->).
  pose proof (train_setup_optimizer _ _ _ _ _ _ R0 R1 R2 R3) as Hs.
  rewrite Hs in R4.
  assert (Hlast : last_record_current
                    (if uses_scipy (self st) then 1 else E - 1) s4).
  { destruct (uses_scipy (self st)).
    - exact (train_scipy_last _ _ _ R4).
    - exact (train_sgd_last _ _ _ _ _ _ (HE eq_refl) R4). }
  frame returned_of R5. frame returned_of R6.
  apply (last_record_current_kept _ s4); [ congruence | exact Hlast ].
Qed.

(** [train(epochs=100, validation_every=10)] after [compile("adam", ...)]:
    the last step of the history is 99. *)
Lemma train_last_record_is_current_witness :
  exists h0,
    fst (Demo.returned Demo.adam_run)
    = LossHistory.add 99
        (TrainState.loss_train (snd (Demo.returned Demo.adam_run)))
        (TrainState.loss_test (snd (Demo.returned Demo.adam_run)))
        (TrainState.metrics_test (snd (Demo.returned Demo.adam_run))) h0.
Proof.
  apply (train_last_record_is_current (C := Demo.collab) 100 10 false None
           false (Demo.compiled "adam") (snd Demo.adam_run)
           (fst (Demo.returned Demo.adam_run))
           (snd (Demo.returned Demo.adam_run))).
  - intros _. lia.
  - apply (returned_ok Demo.adam_run). vm_compute. reflexivity.
Defined.


(** ** maps/initializers.py: get *)
Section InitializersGet.
Import Initializers.

Lemma getitem_known (d : list (string * Initializer)) (key : string) :
  In key (map fst d) -> exists i, getitem d key = Returns i.
Proof.
  induction d as [ | [k v] d IH]; simpl; intros H.
  - contradiction.
  - destruct (String.eqb_spec k key) as [-> | Hne].
    + exists v. reflexivity.
    + apply IH. destruct H as [H | H]; [ contradiction | exact H ].
Qed.

Lemma getitem_unknown (d : list (string * Initializer)) (key : string) :
  ~ In key (map fst d) -> getitem d key = Raises (KeyError key).
Proof.
  induction d as [ | [k v] d IH]; simpl; intros H.
  - reflexivity.
  - destruct (String.eqb_spec k key) as [-> | Hne].
    + exfalso. apply H. left. reflexivity.
    + apply IH. intros Hin. apply H. right. exact Hin.
Qed.

(** A name found in a table whose values are pairwise different is the
    only name with its value. *)
Lemma getitem_injective (d : list (string * Initializer)) (s s' : string)
    (i : Initializer) :
  NoDup (map snd d) ->
  getitem d s = Returns i -> getitem d s' = Returns i -> s = s'.
Proof.
  induction d as [ | [k v] d IH]; simpl; intros Hnd H H'.
  - discriminate H.
  - inversion Hnd as [ | v' l Hnot Hnd']; subst.
    assert (Hin : forall key, getitem d key = Returns i -> In i (map snd d)).
    { clear. induction d as [ | [k v] d IH]; simpl; intros key H.
      - discriminate H.
      - destruct (String.eqb k key); [ injection H as ->; left; reflexivity | ].
        right. exact (IH key H). }
    destruct (String.eqb_spec k s) as [E | Hs];
      destruct (String.eqb_spec k s') as [E' | Hs'].
    + congruence.
    + injection H as ->. exfalso. apply Hnot. exact (Hin s' H').
    + injection H' as ->. exfalso. apply Hnot. exact (Hin s H).
    + exact (IH Hnd' H H').
Qed.

End InitializersGet.

(** X20.  [get] of [maps/initializers.py].  A string is looked up in the
    table of eight names, exactly as written: it returns an initializer
    for these names and raises [KeyError] for any other string, such as
    "he normal".  Different names give different initializers.  A callable
    is returned as it is, so that the result of [get] can be given to
    [get] again.  Anything else raises [ValueError], whose message ends
    with [str(identifier)]. *)
Theorem initializers_get_cases (x : Initializers.Identifier) :
  match x with
  | Initializers.IdStr s =>
      (In s Initializers.names ->
       exists i, Initializers.get x = Initializers.Returns i) /\
      (~ In s Initializers.names ->
       Initializers.get x
       = Initializers.Raises (Initializers.KeyError s)) /\
      (forall s' i,
         Initializers.get x = Initializers.Returns i ->
         Initializers.get (Initializers.IdStr s') = Initializers.Returns i ->
         s = s')
  | Initializers.IdCallable f =>
      Initializers.get x = Initializers.Returns f
  | Initializers.IdOther repr =>
      Initializers.get x
      = Initializers.Raises
          (Initializers.ValueError
             ("Could not interpret initializer identifier: " ++ repr))
  end /\
  (forall i,
     Initializers.get x = Initializers.Returns i ->
     Initializers.get (Initializers.IdCallable i) = Initializers.get x) /\
  Initializers.names
  = ["zeros"; "He normal"; "He uniform"; "LeCun normal"; "LeCun uniform";
     "Glorot normal"; "Glorot uniform"; "Orthogonal"] /\
  Initializers.get (Initializers.IdStr "he normal")
  = Initializers.Raises (Initializers.KeyError "he normal").
Proof.
  split; [ | split; [ | split; reflexivity ] ].
  - destruct x as [s | f | repr]; [ | reflexivity | reflexivity ].
    split; [ | split ].
    + intros Hin. apply getitem_known. exact Hin.
    + intros Hnot. apply getitem_unknown. exact Hnot.
    + intros s' i H H'.
      apply (getitem_injective Initializers.identifiers s s' i);
        [ | exact H | exact H' ].
      cbn. repeat constructor; cbn; intuition discriminate.
  - intros i H. rewrite H. reflexivity.
Qed.


(** ** compile, then train *)
Section CompileThenTrain.
Context {C : Collab}.

Lemma compile_sets_optimizer (opt : string) (lr : spec_float) (bs nt : Z)
    (loss : string) (mets : option (list (metric_id ndarray)))
    (decay : option Decay) (loss_weights : option ndarray) (st st' : State) :
  compile opt lr bs nt loss mets decay loss_weights st = (Ok tt, st') ->
  optimizer (self st') = Some opt /\
  LossHistory.steps (losshistory (self st'))
  = LossHistory.steps (losshistory (self st)).
Proof.
  intros H. split.
  - unfold compile in H. split_bind H.
    frames optimizer_of.
    assert (H1 : optimizer_of st1 = Some opt).
    { destruct x0. unfold modify_self in Hrun0. injection Hrun0 as <-.
      reflexivity. }
    unfold optimizer_of in *. congruence.
  - unfold compile in H.
    frame (fun st => LossHistory.steps (losshistory (self st))) H.
    exact H.
Qed.

End CompileThenTrain.

(** X21.  [compile] decides the path of [train].  After a [compile] that
    returns, a [train] that returns has appended to the steps of the
    history a single 1 when the optimizer name is one of the six
    quasi-Newton names, whatever the epochs and the cadence, and the
    checkpoints of the epochs otherwise. *)
Theorem compile_then_train_steps {C : Collab} (opt : string)
    (lr : spec_float) (bs nt : Z) (loss : string)
    (mets : option (list (metric_id ndarray))) (decay : option Decay)
    (loss_weights : option ndarray) (E V : Z) (uncertainty : bool)
    (errstop : option spec_float)
    (callbacks : option (list (Callback ndarray Ext))) (print_model : bool)
    (st st1 st2 : State) (h : LossHistory.t ndarray)
    (ts : TrainState.t ndarray) :
  (str_in opt scipy_opts = false -> V <> 0) ->
  compile opt lr bs nt loss mets decay loss_weights st = (Ok tt, st1) ->
  train E V uncertainty errstop callbacks print_model st1
  = (Ok (h, ts), st2) ->
  LossHistory.steps h
  = LossHistory.steps (losshistory (self st))
    ++ (if str_in opt scipy_opts then [1] else checkpoints E (Z.abs V)).
Proof.
  intros HV Hc Ht.
  destruct (compile_sets_optimizer _ _ _ _ _ _ _ _ _ _ Hc) as [Ho Hsteps].
  assert (Hs : uses_scipy (self st1) = str_in opt scipy_opts)
    by (unfold uses_scipy; rewrite Ho; reflexivity).
  rewrite <- Hsteps.
  destruct (str_in opt scipy_opts) eqn:Hopt.
  - destruct (train_scipy_run _ _ _ _ _ _ _ _ _ _ Hs Ht)
      as ((r & -> & Hstep) & _).
    rewrite add_records_steps. cbn [map]. rewrite Hstep. reflexivity.
  - destruct (train_history E V _ _ _ _ _ _ _ _ (HV eq_refl) Hs Ht)
      as (rs & -> & _ & Hrs).
    rewrite add_records_steps, Hrs, checkpoints_abs. reflexivity.
Qed.

(** [compile("L-BFGS-B", ...)] on a new model, then
    [train(epochs=7, validation_every=3, uncertainty=True)]. *)
Lemma compile_then_train_steps_witness :
  LossHistory.steps (fst (Demo.returned Demo.lbfgs_run))
  = LossHistory.steps
      (losshistory
         (self (Demo.start Demo.collab 0%nat (mkNet SingleTarget false))))
    ++ (if str_in "L-BFGS-B" scipy_opts
        then [1] else checkpoints 7 (Z.abs 3)).
Proof.
  apply (compile_then_train_steps (C := Demo.collab) "L-BFGS-B"
           Demo.float_0_001 16 100 "MSE" (Some [MetricName "MSE"]) None
           None 7 3 true None None false
           (Demo.start Demo.collab 0%nat (mkNet SingleTarget false))
           (Demo.compiled "L-BFGS-B") (snd Demo.lbfgs_run)
           (fst (Demo.returned Demo.lbfgs_run))
           (snd (Demo.returned Demo.lbfgs_run))).
  - intros _. lia.
  - unfold Demo.compiled. apply run_ok_unit. vm_compute. reflexivity.
  - apply (returned_ok Demo.lbfgs_run). vm_compute. reflexivity.
Defined.

(** ** The history, however a run ends *)
Section AppendsOnly.
Context {C : Collab}.

Lemma appends_only_preserves {X} (m : M X) :
  preserves history_of m -> appends_only m.
Proof. intros H st. exists []. rewrite (H st). reflexivity. Qed.

Lemma appends_only_bind {X Y} (m : M X) (k : X -> M Y) :
  appends_only m -> (forall x, appends_only (k x)) ->
  appends_only (bind m k).
Proof.
  intros Hm Hk st. unfold bind.
  destruct (Hm st) as (rs & Hrs).
  destruct (m st) as [[x | e] st1]; cbn [snd] in *.
  - destruct (Hk x st1) as (rs' & Hrs').
    exists (rs ++ rs'). rewrite add_records_app, <- Hrs. exact Hrs'.
  - exists rs. exact Hrs.
Qed.

Lemma appends_only_for_each {X} (l : list X) (body : X -> M unit) :
  (forall x, appends_only (body x)) -> appends_only (for_each l body).
Proof.
  intros H. induction l as [ | x l IH]; cbn [for_each].
  - apply appends_only_preserves. apply preserves_ret.
  - apply appends_only_bind; [ apply H | intros _; exact IH ].
Qed.

Lemma appends_only_record_step (i : Z) : appends_only (record_step i).
Proof.
  intros st. unfold record_step, bind, get_self, modify_losshistory,
    modify_self. cbn.
  exists [(i, TrainState.loss_train (train_state (self st)),
           TrainState.loss_test (train_state (self st)),
           TrainState.metrics_test (train_state (self st)))].
  reflexivity.
Qed.

End AppendsOnly.

(** [appends] proves [appends_only m] by following the structure of [m]
    down to the parts that leave the history alone and to [record_step]. *)
Ltac appends :=
  first
    [ apply appends_only_preserves; solve [ pres ]
    | lazymatch goal with
      | |- appends_only (bind _ _) =>
          apply appends_only_bind; [ appends | intros; appends ]
      | |- appends_only (record_step _) => apply appends_only_record_step
      | |- appends_only (for_each _ _) =>
          apply appends_only_for_each; intros; appends
      | |- appends_only (match ?x with _ => _ end) => destruct x; appends
      | |- appends_only (train_sgd _ _ _ _ _) => unfold train_sgd; appends
      | |- appends_only (train_scipy _) => unfold train_scipy; appends
      | |- appends_only (epoch_body _ _ _ _ _) => unfold epoch_body; appends
      end ].

(** X22.  The history is append-only, also when [train] fails: however a
    run of [train] ends, with any callbacks, the history it leaves is the
    one it found with records added at the end.  No record is changed or
    removed, and the loss weights stay. *)
Theorem train_history_appends_only {C : Collab} (E V : Z)
    (uncertainty : bool) (errstop : option spec_float)
    (callbacks : option (list (Callback ndarray Ext)))
    (print_model : bool) :
  appends_only (train E V uncertainty errstop callbacks print_model).
Proof. unfold train. appends. Qed.
